(** * End-to-end key handler of synapse ([synapse/handlers/e2e_keys.py])

    A shallow embedding of the handler's functions and the properties of
    them that the specification states.  Python objects that come from JSON
    are values of [json]; a Python [dict] is an association list in insertion
    order whose keys are unique; a function that can raise returns a
    [result]. *)

From Stdlib Require Import String List ZArith Bool Lia Ascii.
From Stdlib Require Import Permutation DecimalString.
Import ListNotations.
Open Scope string_scope.
Open Scope Z_scope.

(** ** Python values *)

(** A [dict] with string keys, in insertion order. *)
Definition dict (V : Type) : Type := list (string * V).

#[warnings="-register-all"]
Inductive json : Type :=
| JNull
| JBool (b : bool)
| JNum (n : Z)
| JStr (s : string)
| JList (l : list json)
| JObj (d : list (string * json)).

(** A JSON value as the operand of [in] and of a subscript. *)
Inductive pyval : Type :=
| PVal (j : json).

(** The [Deferred] that a call into the store returns.  It has its result
    when the call returns ([called], as Twisted names it) or gets it in a
    later turn of the reactor; [j] is that result. *)
Inductive deferred : Type :=
| Deferred (called : bool) (j : json).

(** Exceptions.  [SynapseError] is the client error of the handler; the
    others are never caught by it. *)
Inductive exn : Type :=
| SynapseError (code : Z) (msg : string)
| TypeError (msg : string)
| KeyError (key : string)
| AttributeError (msg : string)
| ValueError (msg : string)
| IndexError (msg : string)
| SignatureVerifyException
| UnicodeDecodeError (reason : string)
| LibraryError (msg : string).

Inductive result (A : Type) : Type :=
| Ok (a : A)
| Raise (e : exn).
Arguments Ok {A} a.
Arguments Raise {A} e.

Definition bind {A B : Type} (r : result A) (k : A -> result B) : result B :=
  match r with
  | Ok a => k a
  | Raise e => Raise e
  end.

Declare Scope py_scope.
Delimit Scope py_scope with py.
Notation "x <- c ;; k" := (bind c (fun x => k))
  (at level 61, c at next level, right associativity) : py_scope.
Notation "' p <- c ;; k" := (bind c (fun x => let p := x in k))
  (at level 61, p pattern, c at next level, right associativity) : py_scope.
Open Scope py_scope.

Definition is_client_error {A : Type} (r : result A) : bool :=
  match r with
  | Raise (SynapseError 400 _) => true
  | _ => false
  end.

(** *** Dictionaries *)

Section Dict.
Context {V : Type}.

Fixpoint dict_get (k : string) (d : dict V) : option V :=
  match d with
  | [] => None
  | (k', v) :: d' => if String.eqb k k' then Some v else dict_get k d'
  end.

Definition dict_mem (k : string) (d : dict V) : bool :=
  match dict_get k d with
  | Some _ => true
  | None => false
  end.

(** [d[k] = v]: an existing key keeps its place, a new one goes last. *)
Fixpoint dict_set (k : string) (v : V) (d : dict V) : dict V :=
  match d with
  | [] => [(k, v)]
  | (k', v') :: d' =>
      if String.eqb k k' then (k', v) :: d' else (k', v') :: dict_set k v d'
  end.

(** [d.pop(k, None)], the dictionary that is left. *)
Fixpoint dict_del (k : string) (d : dict V) : dict V :=
  match d with
  | [] => []
  | (k', v') :: d' =>
      if String.eqb k k' then dict_del k d' else (k', v') :: dict_del k d'
  end.

Definition dict_keys (d : dict V) : list string := map fst d.

(** [d.setdefault(k, default)], the value found or put. *)
Definition dict_setdefault (k : string) (default : V) (d : dict V)
  : V * dict V :=
  match dict_get k d with
  | Some v => (v, d)
  | None => (default, dict_set k default d)
  end.
End Dict.

(** *** Equality, truth, membership, subscripts *)

(** Python's [==] on JSON values: [True == 1], lists by position,
    dictionaries whatever the order of their keys. *)
Fixpoint py_eqb (a b : json) {struct a} : bool :=
  match a, b with
  | JNull, JNull => true
  | JBool x, JBool y => Bool.eqb x y
  | JBool x, JNum n => Z.eqb (if x then 1 else 0) n
  | JNum n, JBool x => Z.eqb n (if x then 1 else 0)
  | JNum x, JNum y => Z.eqb x y
  | JStr x, JStr y => String.eqb x y
  | JList l, JList m =>
      (fix list_eqb (l m : list json) {struct l} : bool :=
         match l, m with
         | [], [] => true
         | x :: l', y :: m' => py_eqb x y && list_eqb l' m'
         | _, _ => false
         end) l m
  | JObj d, JObj e =>
      Nat.eqb (length d) (length e) &&
      (fix sub (d : list (string * json)) {struct d} : bool :=
         match d with
         | [] => true
         | (k, v) :: d' =>
             match dict_get k e with
             | Some w => py_eqb v w && sub d'
             | None => false
             end
         end) d
  | _, _ => false
  end.

(** [bool(x)] *)
Definition py_truthy (j : json) : bool :=
  match j with
  | JNull => false
  | JBool b => b
  | JNum n => negb (Z.eqb n 0)
  | JStr s => negb (String.eqb s "")
  | JList l => match l with [] => false | _ => true end
  | JObj d => match d with [] => false | _ => true end
  end.

Definition py_type_name (j : json) : string :=
  match j with
  | JNull => "NoneType"
  | JBool _ => "bool"
  | JNum _ => "int"
  | JStr _ => "str"
  | JList _ => "list"
  | JObj _ => "dict"
  end.

(** [needle in s] for two strings. *)
Fixpoint str_contains (needle s : string) : bool :=
  String.prefix needle s ||
  match s with
  | EmptyString => false
  | String _ s' => str_contains needle s'
  end.

(** [needle in c] for a string [needle]. *)
Definition py_in (needle : string) (c : pyval) : result bool :=
  match c with
  | PVal (JObj d) => Ok (dict_mem needle d)
  | PVal (JList l) => Ok (existsb (py_eqb (JStr needle)) l)
  | PVal (JStr s) => Ok (str_contains needle s)
  | PVal j =>
      Raise (TypeError ("argument of type '" ++ py_type_name j
                          ++ "' is not iterable"))
  end.

(** [next(d)] for a [Deferred], which is its own iterator ([__iter__]
    returns it, [__next__] is its [send]): with its result it raises
    [StopIteration], here [None]; without, it gives the [Deferred] itself. *)
Definition deferred_next (d : deferred) : option deferred :=
  match d with
  | Deferred true _ => None
  | Deferred false _ => Some d
  end.

(** [needle in d] for a string [needle] and a [Deferred] [d].  A [Deferred]
    has no [__contains__], so Python iterates it and compares every item
    with [needle]; the only item there can be is the [Deferred], which
    equals no string.  [steps] bounds the calls of [next]: [None] says that
    the search has not ended within them. *)
Fixpoint deferred_contains (steps : nat) (needle : string) (d : deferred)
  : option bool :=
  match steps with
  | O => None
  | S steps' =>
      match deferred_next d with
      | None => Some false
      | Some _ => deferred_contains steps' needle d
      end
  end.

(** [c[k]] for a string [k]. *)
Definition py_getitem (c : pyval) (k : string) : result json :=
  match c with
  | PVal (JObj d) =>
      match dict_get k d with
      | Some v => Ok v
      | None => Raise (KeyError k)
      end
  | PVal (JList _) =>
      Raise (TypeError "list indices must be integers or slices, not str")
  | PVal (JStr _) => Raise (TypeError "string indices must be integers")
  | PVal j =>
      Raise (TypeError ("'" ++ py_type_name j
                          ++ "' object is not subscriptable"))
  end.

(** [len(c)] *)
Definition py_len (c : json) : result nat :=
  match c with
  | JObj d => Ok (length d)
  | JList l => Ok (length l)
  | JStr s => Ok (String.length s)
  | j => Raise (TypeError ("object of type '" ++ py_type_name j
                             ++ "' has no len()"))
  end.

(** [c.items()] *)
Definition py_items (c : json) : result (dict json) :=
  match c with
  | JObj d => Ok d
  | j => Raise (AttributeError ("'" ++ py_type_name j
                                  ++ "' object has no attribute 'items'"))
  end.

(** [c.keys()] *)
Definition py_keys (c : json) : result (list string) :=
  match c with
  | JObj d => Ok (dict_keys d)
  | j => Raise (AttributeError ("'" ++ py_type_name j
                                  ++ "' object has no attribute 'keys'"))
  end.

(** [del c[k]] on a dictionary, the dictionary that is left. *)
Definition py_delitem (c : json) (k : string) : result json :=
  match c with
  | JObj d => if dict_mem k d then Ok (JObj (dict_del k d)) else Raise (KeyError k)
  | j => Raise (TypeError ("'" ++ py_type_name j
                             ++ "' object does not support item deletion"))
  end.

(** [s.split(sep)] for a one-character separator. *)
Fixpoint str_split (sep : ascii) (s : string) : list string :=
  match s with
  | EmptyString => [EmptyString]
  | String c s' =>
      if Ascii.eqb c sep then EmptyString :: str_split sep s'
      else match str_split sep s' with
           | w :: ws => String c w :: ws
           | [] => [String c EmptyString]
           end
  end.

(** [s.split(sep, 1)]: cut at the first separator only. *)
Fixpoint str_split1 (sep : ascii) (s : string) : list string :=
  match s with
  | EmptyString => [EmptyString]
  | String c s' =>
      if Ascii.eqb c sep then [EmptyString; s']
      else match str_split1 sep s' with
           | w :: ws => String c w :: ws
           | [] => [String c EmptyString]
           end
  end.

Definition colon : ascii := ":"%char.

(** The number of [sep] in [s]. *)
Fixpoint count_char (sep : ascii) (s : string) : nat :=
  match s with
  | EmptyString => 0
  | String c s' => (if Ascii.eqb c sep then 1 else 0) + count_char sep s'
  end.

(** Every byte of [b] is below 128. *)
Fixpoint is_ascii (b : string) : bool :=
  match b with
  | EmptyString => true
  | String c b' => Nat.ltb (nat_of_ascii c) 128 && is_ascii b'
  end.

(** [b.decode('ascii')] for the bytes [b]; the exception carries its
    [reason]. *)
Definition decode_ascii (b : string) : result string :=
  if is_ascii b then Ok b
  else Raise (UnicodeDecodeError "ordinal not in range(128)").

(** ** Collaborators *)

(** The libraries and services the handler calls and whose code is not part
    of it: user-id parsing ([UserID.from_string], [hs.is_mine]), base64 and
    verify-key decoding, signature verification ([verify_signed_json], which
    raises [SignatureVerifyException] exactly when it answers [false] here),
    the JSON codec, and whether the store has the answer to a read when the
    read returns (a store that answers from a cache) or later (one that asks
    its database). *)
Class Env : Type := {
  verify_key : Type;
  from_string : string -> result (string * string);
  is_mine : string * string -> bool;
  decode_base64 : json -> option string;
  decode_verify_key_bytes : string -> string -> option verify_key;
  verify_signed_json : json -> string -> verify_key -> bool;
  json_loads : string -> option json;
  encode_canonical_json : json -> string;
  store_answers_at_once : bool
}.

(** A stored one-time key: user, device, algorithm, key id, time, JSON text. *)
Record otk_row : Type := {
  otk_user : string;
  otk_device : string;
  otk_algorithm : string;
  otk_key_id : string;
  otk_ts : Z;
  otk_json : string
}.

(** A stored device signature: the signing user and the tuple
    [(key_id, user, device, signature)] the handler stages. *)
Definition signature_row : Type := (string * (string * string * string * json))%type.

(** Modelled from the spec: the Key Store Client, whose code is not in the
    handler's file.  It keeps one self-signing and one user-signing key per
    user, one device-info object per (user, device), the one-time keys and
    the device signatures. *)
Record store : Type := {
  e2e_self_signing_keys : dict json;
  e2e_user_signing_keys : dict json;
  e2e_device_keys : dict (dict json);
  e2e_one_time_keys : list otk_row;
  e2e_device_signatures : list signature_row
}.

Definition empty_store : store :=
  {| e2e_self_signing_keys := [];
     e2e_user_signing_keys := [];
     e2e_device_keys := [];
     e2e_one_time_keys := [];
     e2e_device_signatures := [] |}.

(** [yield d]: the result of the [Deferred], once it has it. *)
Definition yield_ (d : deferred) : json :=
  match d with
  | Deferred _ j => j
  end.

Definition or_none (o : option json) : json :=
  match o with
  | Some j => j
  | None => JNull
  end.

(** Modelled from the spec: reads of the store are suspension points, so a
    read returns a [Deferred]; a user without a key has [None]. *)
Definition get_e2e_self_signing_key {env : Env} (st : store) (user_id : string)
  : deferred :=
  Deferred store_answers_at_once
    (or_none (dict_get user_id (e2e_self_signing_keys st))).

(** Modelled from the spec: the same for the user-signing key. *)
Definition get_e2e_user_signing_key {env : Env} (st : store) (user_id : string)
  : deferred :=
  Deferred store_answers_at_once
    (or_none (dict_get user_id (e2e_user_signing_keys st))).

(** Modelled from the spec: setting a key overwrites the user's current one. *)
Definition set_e2e_self_signing_key (st : store) (user_id : string) (key : json)
  : store :=
  {| e2e_self_signing_keys := dict_set user_id key (e2e_self_signing_keys st);
     e2e_user_signing_keys := e2e_user_signing_keys st;
     e2e_device_keys := e2e_device_keys st;
     e2e_one_time_keys := e2e_one_time_keys st;
     e2e_device_signatures := e2e_device_signatures st |}.

Definition set_e2e_user_signing_key (st : store) (user_id : string) (key : json)
  : store :=
  {| e2e_self_signing_keys := e2e_self_signing_keys st;
     e2e_user_signing_keys := dict_set user_id key (e2e_user_signing_keys st);
     e2e_device_keys := e2e_device_keys st;
     e2e_one_time_keys := e2e_one_time_keys st;
     e2e_device_signatures := e2e_device_signatures st |}.

(** Modelled from the spec: staged signatures are added for the signer. *)
Definition store_e2e_device_signatures (st : store) (user_id : string)
  (sigs : list (string * string * string * json)) : store :=
  {| e2e_self_signing_keys := e2e_self_signing_keys st;
     e2e_user_signing_keys := e2e_user_signing_keys st;
     e2e_device_keys := e2e_device_keys st;
     e2e_one_time_keys := e2e_one_time_keys st;
     e2e_device_signatures :=
       e2e_device_signatures st ++ map (fun s => (user_id, s)) sigs |}.

(** ** Cross-signing keys *)

Section Handler.
Context {env : Env}.

(** [_get_verify_key_from_key_info] *)
Definition _get_verify_key_from_key_info (key_info : pyval)
  : result (string * verify_key) :=
  has_keys <- py_in "keys" key_info ;;
  if negb has_keys then Raise (SynapseError 400 "Invalid key") else
  keys <- py_getitem key_info "keys" ;;
  n <- py_len keys ;;
  if negb (Nat.eqb n 1) then Raise (SynapseError 400 "Invalid key") else
  items <- py_items keys ;;
  match items with
  | (key_id, key_data) :: _ =>
      match decode_base64 key_data with
      | None => Raise (LibraryError "decode_base64")
      | Some key_bytes =>
          match decode_verify_key_bytes key_id key_bytes with
          | None => Raise (LibraryError "decode_verify_key_bytes")
          | Some vk => Ok (key_id, vk)
          end
      end
  | [] => Raise (TypeError "cannot unpack non-iterable NoneType object")
  end.

(** [verify_signed_json] inside [try ... except SignatureVerifyException],
    re-raised as the client error with message [msg]. *)
Definition verify_or_400 (obj : json) (user_id : string) (vk : verify_key)
  (msg : string) : result unit :=
  if verify_signed_json obj user_id vk then Ok tt
  else Raise (SynapseError 400 msg).

(** The checks on a supplied [self_signing_key] (lines 365-405); the key
    itself when they pass. *)
Definition check_self_signing_key (old_self_signing_key : json)
  (user_id : string) (keys : json) : result json :=
  self_signing_key <- py_getitem (PVal keys) "self_signing_key" ;;
  uid <- py_getitem (PVal self_signing_key) "user_id" ;;
  bad_usage <-
    (if negb (py_eqb uid (JStr user_id)) then Ok true
     else usage <- py_getitem (PVal self_signing_key) "usage" ;;
          u <- py_in "self_signing" (PVal usage) ;;
          Ok (negb u)) ;;
  if (bad_usage : bool) then Raise (SynapseError 400 "Invalid self-signing key") else
  _ <-
    (if py_truthy old_self_signing_key then
       has_replaces <- py_in "replaces" (PVal self_signing_key) ;;
       if negb has_replaces
       then Raise (SynapseError 400 "A self-signing key already exists") else
       ' (old_key_id, old_verify_key) <-
         _get_verify_key_from_key_info (PVal old_self_signing_key) ;;
       replaces <- py_getitem (PVal self_signing_key) "replaces" ;;
       match str_split1 colon old_key_id with
       | _ :: bare :: _ =>
           if negb (py_eqb replaces (JStr bare))
           then Raise (SynapseError 400 "Incorrect replaces property")
           else Ok tt
       | _ => Raise (IndexError "list index out of range")
       end
     else Ok tt) ;;
  has_signatures <- py_in "signatures" (PVal self_signing_key) ;;
  _ <-
    (if (has_signatures : bool) then
       if negb (py_truthy old_self_signing_key)
       then Raise (SynapseError 400 "Invalid signature") else
       ' (old_key_id, old_verify_key) <-
         _get_verify_key_from_key_info (PVal old_self_signing_key) ;;
       signatures <- py_getitem (PVal self_signing_key) "signatures" ;;
       by_user <- py_in user_id (PVal signatures) ;;
       missing <-
         (if negb by_user then Ok true
          else mine <- py_getitem (PVal signatures) user_id ;;
               by_key <- py_in old_key_id (PVal mine) ;;
               Ok (negb by_key)) ;;
       if (missing : bool)
       then Raise (SynapseError 400 "Invalid signature on self-signing key")
       else verify_or_400 self_signing_key user_id old_verify_key
              "Invalid signature on self-signing key"
     else Ok tt) ;;
  Ok self_signing_key.

(** The checks on a supplied [user_signing_key] (lines 412-432), against
    the id and verify key of the self-signing key. *)
Definition check_user_signing_key (key_id : string) (vk : verify_key)
  (user_id : string) (keys : json) : result json :=
  user_signing_key <- py_getitem (PVal keys) "user_signing_key" ;;
  uid <- py_getitem (PVal user_signing_key) "user_id" ;;
  bad_usage <-
    (if negb (py_eqb uid (JStr user_id)) then Ok true
     else usage <- py_getitem (PVal user_signing_key) "usage" ;;
          u <- py_in "user_signing" (PVal usage) ;;
          Ok (negb u)) ;;
  if (bad_usage : bool) then Raise (SynapseError 400 "Invalid user-signing key") else
  has_signatures <- py_in "signatures" (PVal user_signing_key) ;;
  missing <-
    (if negb has_signatures then Ok true
     else signatures <- py_getitem (PVal user_signing_key) "signatures" ;;
          by_user <- py_in user_id (PVal signatures) ;;
          if negb by_user then Ok true
          else mine <- py_getitem (PVal signatures) user_id ;;
               by_key <- py_in key_id (PVal mine) ;;
               Ok (negb by_key)) ;;
  if (missing : bool)
  then Raise (SynapseError 400 "Invalid signature on user-signing key") else
  _ <- verify_or_400 user_signing_key user_id vk
         "Invalid signature on user-signing key" ;;
  Ok user_signing_key.

(** Lines 363-432 of [upload_signing_keys_for_user]: everything before the
    store is written.  The result says which keys to store. *)
Definition check_signing_keys (st : store) (user_id : string) (keys : json)
  : result (option json * option json) :=
  let old_self_signing_key := yield_ (get_e2e_self_signing_key st user_id) in
  has_self <- py_in "self_signing_key" (PVal keys) ;;
  self_signing_key <-
    (if (has_self : bool)
     then check_self_signing_key old_self_signing_key user_id keys
     else Ok old_self_signing_key) ;;
  ' (key_id, vk) <- _get_verify_key_from_key_info (PVal self_signing_key) ;;
  has_user <- py_in "user_signing_key" (PVal keys) ;;
  user_signing_key <-
    (if (has_user : bool)
     then k <- check_user_signing_key key_id vk user_id keys ;; Ok (Some k)
     else Ok None) ;;
  Ok (if has_self then Some self_signing_key else None, user_signing_key).

(** [upload_signing_keys_for_user]: an exception leaves the store as it
    was, since every write comes after every check. *)
Definition upload_signing_keys_for_user (st : store) (user_id : string)
  (keys : json) : result json * store :=
  match check_signing_keys st user_id keys with
  | Raise e => (Raise e, st)
  | Ok (self_signing_key, user_signing_key) =>
      let st1 := match self_signing_key with
                 | Some k => set_e2e_self_signing_key st user_id k
                 | None => st
                 end in
      let st2 := match user_signing_key with
                 | Some k => set_e2e_user_signing_key st1 user_id k
                 | None => st1
                 end in
      (Ok (JObj []), st2)
  end.

(** ** One-time keys *)

(** [_one_time_keys_match] *)
Definition _one_time_keys_match (old_key_json : string) (new_key : json)
  : result bool :=
  match json_loads old_key_json with
  | None => Raise (ValueError "No JSON object could be decoded")
  | Some old_key =>
      match old_key, new_key with
      | JObj old_d, JObj new_d =>
          Ok (py_eqb (JObj (dict_del "signatures" old_d))
                     (JObj (dict_del "signatures" new_d)))
      | _, _ => Ok (py_eqb old_key new_key)
      end
  end.

(** Lines 330-335: the [(algorithm, key_id, key)] tuples of an upload. *)
Fixpoint make_key_list (one_time_keys : dict json)
  : result (list (string * string * json)) :=
  match one_time_keys with
  | [] => Ok []
  | (key_id, key_obj) :: rest =>
      match str_split colon key_id with
      | [algorithm; key_id'] =>
          tl <- make_key_list rest ;;
          Ok ((algorithm, key_id', key_obj) :: tl)
      | [_] =>
          Raise (ValueError "not enough values to unpack (expected 2, got 1)")
      | _ => Raise (ValueError "too many values to unpack (expected 2)")
      end
  end.

(** Modelled from the spec: the stored one-time keys of a device whose key
    id is one of [key_ids], as a map from [(algorithm, key_id)] to the
    stored JSON text. *)
Definition get_e2e_one_time_keys (st : store) (user_id device_id : string)
  (key_ids : list string) : list (string * string * string) :=
  map (fun r => (otk_algorithm r, otk_key_id r, otk_json r))
    (filter (fun r => String.eqb (otk_user r) user_id
                      && String.eqb (otk_device r) device_id
                      && existsb (String.eqb (otk_key_id r)) key_ids)
       (e2e_one_time_keys st)).

(** [existing_key_map.get((algorithm, key_id), None)] *)
Fixpoint key_map_get (algorithm key_id : string)
  (m : list (string * string * string)) : option string :=
  match m with
  | [] => None
  | (a, k, v) :: m' =>
      if String.eqb algorithm a && String.eqb key_id k then Some v
      else key_map_get algorithm key_id m'
  end.

(** Modelled from the spec: new one-time keys are inserted. *)
Definition add_e2e_one_time_keys (st : store) (user_id device_id : string)
  (time_now : Z) (new_keys : list (string * string * string)) : store :=
  {| e2e_self_signing_keys := e2e_self_signing_keys st;
     e2e_user_signing_keys := e2e_user_signing_keys st;
     e2e_device_keys := e2e_device_keys st;
     e2e_one_time_keys :=
       e2e_one_time_keys st ++
       map (fun '(algorithm, key_id, text) =>
              {| otk_user := user_id; otk_device := device_id;
                 otk_algorithm := algorithm; otk_key_id := key_id;
                 otk_ts := time_now; otk_json := text |}) new_keys;
     e2e_device_signatures := e2e_device_signatures st |}.

(** [if ex_json:] for what [.get(..., None)] gave. *)
Definition text_truthy (ex_json : option string) : bool :=
  match ex_json with
  | Some text => negb (String.eqb text "")
  | None => false
  end.

(** Lines 342-355: the keys to insert, or the conflict.  The message of the
    error names the key; its account of the old and the new value is left
    out. *)
Fixpoint collect_new_keys (existing_key_map : list (string * string * string))
  (key_list : list (string * string * json))
  : result (list (string * string * string)) :=
  match key_list with
  | [] => Ok []
  | (algorithm, key_id, key) :: rest =>
      let ex_json := key_map_get algorithm key_id existing_key_map in
      if text_truthy ex_json then
        matches <- _one_time_keys_match
                     (match ex_json with Some t => t | None => "" end) key ;;
        if negb matches
        then Raise (SynapseError 400
                      ("One time key " ++ algorithm ++ ":" ++ key_id
                         ++ " already exists."))
        else collect_new_keys existing_key_map rest
      else
        text <- decode_ascii (encode_canonical_json key) ;;
        tl <- collect_new_keys existing_key_map rest ;;
        Ok ((algorithm, key_id, text) :: tl)
  end.

(** [_upload_one_time_keys_for_user] *)
Definition _upload_one_time_keys_for_user (st : store)
  (user_id device_id : string) (time_now : Z) (one_time_keys : dict json)
  : result unit * store :=
  match
    (key_list <- make_key_list one_time_keys ;;
     let existing_key_map :=
       get_e2e_one_time_keys st user_id device_id
         (map (fun '(_, k_id, _) => k_id) key_list) in
     collect_new_keys existing_key_map key_list)
  with
  | Raise e => (Raise e, st)
  | Ok new_keys =>
      (Ok tt, add_e2e_one_time_keys st user_id device_id time_now new_keys)
  end.

(** ** Device keys of local users *)

(** [m.setdefault(k1, {})[k2] = v] *)
Definition dict_set2 {V : Type} (k1 k2 : string) (v : V) (m : dict (dict V))
  : dict (dict V) :=
  let inner := match dict_get k1 m with Some i => i | None => [] end in
  dict_set k1 (dict_set k2 v inner) m.

(** Modelled from the spec: the stored device-info objects the query asks
    for, by user and device; [None] as device asks for all of a user's. *)
Definition get_e2e_device_keys (st : store)
  (query_list : list (string * option string)) : dict (dict json) :=
  fold_left
    (fun acc '(user_id, device_id) =>
       match dict_get user_id (e2e_device_keys st) with
       | None => acc
       | Some devices =>
           let found :=
             match device_id with
             | None => devices
             | Some d => match dict_get d devices with
                         | Some info => [(d, info)]
                         | None => []
                         end
             end in
           fold_left (fun acc '(d, info) => dict_set2 user_id d info acc)
             found acc
       end)
    query_list [].

(** [str(n)] *)
Definition decimal (n : nat) : string := NilEmpty.string_of_uint (Nat.to_uint n).

(** One element of the sequence that [dict()] is given: Python iterates the
    element and takes the two items it must have as key and value.  The
    items of a string are its characters, those of a dictionary its keys. *)
Definition dict_element (index : nat) (x : json) : result (json * json) :=
  let wrong_length (n : nat) :=
    Raise (ValueError ("dictionary update sequence element #" ++ decimal index
                         ++ " has length " ++ decimal n ++ "; 2 is required")) in
  match x with
  | JList [k; v] => Ok (k, v)
  | JList l => wrong_length (length l)
  | JStr (String a (String b EmptyString)) =>
      Ok (JStr (String a EmptyString), JStr (String b EmptyString))
  | JStr s => wrong_length (String.length s)
  | JObj [(k1, _); (k2, _)] => Ok (JStr k1, JStr k2)
  | JObj d => wrong_length (length d)
  | _ =>
      Raise (TypeError ("cannot convert dictionary update sequence element #"
                          ++ decimal index ++ " to a sequence"))
  end.

(** A value as the key of a dictionary: a string, or a number, a boolean
    or [None], here [None]; a list or a dictionary cannot be hashed. *)
Definition dict_key (k : json) : result (option string) :=
  match k with
  | JStr s => Ok (Some s)
  | JNull | JBool _ | JNum _ => Ok None
  | j => Raise (TypeError ("unhashable type: '" ++ py_type_name j ++ "'"))
  end.

(** The dictionary that [dict()] builds from the elements of a sequence, one
    after the other.  The dictionaries of [json] have strings as keys: once
    a key is not a string the dictionary is [None], and only the exceptions
    of the elements that follow are told. *)
Fixpoint dict_update (index : nat) (elements : list json)
  (d : option (dict json)) : result (option (dict json)) :=
  match elements with
  | [] => Ok d
  | x :: rest =>
      ' (k, v) <- dict_element index x ;;
      key <- dict_key k ;;
      dict_update (S index) rest
        (match d, key with
         | Some d', Some s => Some (dict_set s v d')
         | _, _ => None
         end)
  end.

(** The characters of a string, as the items that iterating it gives. *)
Fixpoint characters (s : string) : list json :=
  match s with
  | EmptyString => []
  | String c s' => JStr (String c EmptyString) :: characters s'
  end.

(** [dict(x)] for a JSON value: a copy of a dictionary, or the dictionary of
    the pairs of a sequence; [Ok None] when Python builds a dictionary with
    a key that is not a string, which is no value of [json]. *)
Definition py_dict (j : json) : result (option (dict json)) :=
  match j with
  | JObj d => Ok (Some d)
  | JList l => dict_update 0 l (Some [])
  | JStr s => dict_update 0 (characters s) (Some [])
  | j => Raise (TypeError ("'" ++ py_type_name j ++ "' object is not iterable"))
  end.

(** Lines 186-200: check every user and list what to ask the store. *)
Fixpoint scan_local_query (query : dict (option (list string)))
  (local_query : list (string * option string))
  (result_dict : dict (dict json))
  : result (list (string * option string) * dict (dict json)) :=
  match query with
  | [] => Ok (local_query, result_dict)
  | (user_id, device_ids) :: rest =>
      uid <- from_string user_id ;;
      if negb (is_mine uid) then Raise (SynapseError 400 "Not a user here") else
      let asked :=
        match device_ids with
        | None | Some [] => [(user_id, None)]
        | Some ids => map (fun d => (user_id, Some d)) ids
        end in
      scan_local_query rest (local_query ++ asked)
        (dict_set user_id [] result_dict)
  end.

(** Lines 207-213, for one user of the store's answer.  Where [dict()]
    gives a dictionary that is no value of [json] the call is followed no
    further, and the result is [Ok None]. *)
Fixpoint add_user_devices (user_id : string) (device_keys : dict json)
  (result_dict : dict (dict json)) : result (option (dict (dict json))) :=
  match device_keys with
  | [] => Ok (Some result_dict)
  | (device_id, device_info) :: rest =>
      keys <- py_getitem (PVal device_info) "keys" ;;
      r <- py_dict keys ;;
      match r with
      | None => Ok None
      | Some r =>
          display_name <- py_getitem (PVal device_info) "device_display_name" ;;
          let unsigned :=
            match display_name with
            | JNull => []
            | _ => [("device_display_name", display_name)]
            end in
          let r := dict_set "unsigned" (JObj unsigned) r in
          match dict_get user_id result_dict with
          | None => Raise (KeyError user_id)
          | Some devices =>
              add_user_devices user_id rest
                (dict_set user_id (dict_set device_id (JObj r) devices)
                   result_dict)
          end
      end
  end.

(** Lines 206-213. *)
Fixpoint add_all_devices (results : dict (dict json))
  (result_dict : dict (dict json)) : result (option (dict (dict json))) :=
  match results with
  | [] => Ok (Some result_dict)
  | (user_id, device_keys) :: rest =>
      result_dict' <- add_user_devices user_id device_keys result_dict ;;
      match result_dict' with
      | None => Ok None
      | Some result_dict' => add_all_devices rest result_dict'
      end
  end.

(** [query_local_devices] *)
Definition query_local_devices (st : store)
  (query : dict (option (list string)))
  : result (option (dict (dict json))) :=
  ' (local_query, result_dict) <- scan_local_query query [] [] ;;
  let results := get_e2e_device_keys st local_query in
  add_all_devices results result_dict.

(** ** Federation fan-out *)

(** Lines 241-248 of [claim_one_time_keys]: the answer for the local
    users, from what the store claimed ([results], by user, device and
    [algorithm:key_id]). *)
Fixpoint claim_keys (user_id device_id : string) (keys : dict string)
  (json_result : dict (dict (dict json))) : result (dict (dict (dict json))) :=
  match keys with
  | [] => Ok json_result
  | (key_id, json_bytes) :: rest =>
      match json_loads json_bytes with
      | None => Raise (ValueError "No JSON object could be decoded")
      | Some v =>
          claim_keys user_id device_id rest
            (dict_set2 user_id device_id [(key_id, v)] json_result)
      end
  end.

Fixpoint claim_devices (user_id : string) (device_keys : dict (dict string))
  (json_result : dict (dict (dict json))) : result (dict (dict (dict json))) :=
  match device_keys with
  | [] => Ok json_result
  | (device_id, keys) :: rest =>
      json_result' <- claim_keys user_id device_id keys json_result ;;
      claim_devices user_id rest json_result'
  end.

Fixpoint claim_users (results : dict (dict (dict string)))
  (json_result : dict (dict (dict json))) : result (dict (dict (dict json))) :=
  match results with
  | [] => Ok json_result
  | (user_id, device_keys) :: rest =>
      json_result' <- claim_devices user_id device_keys json_result ;;
      claim_users rest json_result'
  end.

Definition claim_one_time_keys_local (results : dict (dict (dict string)))
  : result (dict (dict (dict json))) :=
  claim_users results [].

(** ** Signatures on device keys *)

(** [user not in devices or device not in devices[user]] *)
Definition device_unknown (devices : dict (dict json)) (user device : string)
  : bool :=
  match dict_get user devices with
  | None => true
  | Some ds => negb (dict_mem device ds)
  end.

(** [devices[user][device]] for a known device. *)
Definition stored_device (devices : dict (dict json)) (user device : string)
  : json :=
  match dict_get user devices with
  | Some ds => or_none (dict_get device ds)
  | None => JNull
  end.

(** The condition of line 473: is there a signature by [user_id] under
    [key_id]. *)
Definition has_signature_by (key : json) (user_id key_id : string)
  : result bool :=
  has_signatures <- py_in "signatures" (PVal key) ;;
  if negb has_signatures then Ok false else
  sigs <- py_getitem (PVal key) "signatures" ;;
  by_user <- py_in user_id (PVal sigs) ;;
  if negb by_user then Ok false else
  mine <- py_getitem (PVal sigs) user_id ;;
  py_in key_id (PVal mine).

(** The body of the loop, lines 467-485, for one entry: what is staged,
    and the entry's object as the body leaves it, for the two [del] act on
    the object itself. *)
Definition process_entry (devices : dict (dict json)) (user_id : string)
  (self_signing user_signing : string * verify_key)
  (user device : string) (key : json)
  : result (option (string * string * string * json)) * json :=
  if device_unknown devices user device then (Ok None, key) else
  let '(key_id, vk) :=
    if String.eqb user user_id then self_signing else user_signing in
  match has_signature_by key user_id key_id with
  | Raise e => (Raise e, key)
  | Ok false => (Ok None, key)
  | Ok true =>
      match (sigs <- py_getitem (PVal key) "signatures" ;;
             mine <- py_getitem (PVal sigs) user_id ;;
             py_getitem (PVal mine) key_id) with
      | Raise e => (Raise e, key)
      | Ok signature =>
          match py_delitem key "signatures" with
          | Raise e => (Raise e, key)
          | Ok key1 =>
              match py_delitem key1 "unsigned" with
              | Raise e => (Raise e, key1)
              | Ok key2 =>
                  if negb (py_eqb key2 (stored_device devices user device))
                  then (Ok None, key2)
                  else if verify_signed_json key2 user_id vk
                  then (Ok (Some (key_id, user, device, signature)), key2)
                  else (Raise SignatureVerifyException, key2)
              end
          end
      end
  end.

(** Lines 466-485 for one user's [devicemap]. *)
Fixpoint check_devicemap (devices : dict (dict json)) (user_id : string)
  (self_signing user_signing : string * verify_key) (user : string)
  (devicemap : dict json) (staged : list (string * string * string * json))
  : result (list (string * string * string * json)) :=
  match devicemap with
  | [] => Ok staged
  | (device, key) :: rest =>
      s <- fst (process_entry devices user_id self_signing user_signing
                  user device key) ;;
      check_devicemap devices user_id self_signing user_signing user rest
        (match s with Some sig => (staged ++ [sig])%list | None => staged end)
  end.

(** Lines 465-485 over the items of the iterated object. *)
Fixpoint check_signatures (devices : dict (dict json)) (user_id : string)
  (self_signing user_signing : string * verify_key)
  (items : dict json) (staged : list (string * string * string * json))
  : result (list (string * string * string * json)) :=
  match items with
  | [] => Ok staged
  | (user, devicemap) :: rest =>
      dm <- py_items devicemap ;;
      staged' <- check_devicemap devices user_id self_signing user_signing
                   user dm staged ;;
      check_signatures devices user_id self_signing user_signing rest staged'
  end.

(** Lines 458-461: the devices to look up. *)
Fixpoint list_user_devices (items : dict json)
  : result (list (string * option string)) :=
  match items with
  | [] => Ok []
  | (user, devicemap) :: rest =>
      ks <- py_keys devicemap ;;
      tl <- list_user_devices rest ;;
      Ok (map (fun device => (user, Some device)) ks ++ tl)%list
  end.

(** Lines 458-485: the signatures to store.  Line 464 binds the name
    [signatures] to a new empty list, and line 465 iterates over the
    [.items()] of that list. *)
Definition stage_device_signatures (st : store) (user_id : string)
  (signatures : json) (self_signing user_signing : string * verify_key)
  : result (list (string * string * string * json)) :=
  items <- py_items signatures ;;
  user_devices <- list_user_devices items ;;
  let devices := get_e2e_device_keys st user_devices in
  let signatures := JList [] in
  items <- py_items signatures ;;
  check_signatures devices user_id self_signing user_signing items [].

(** [_get_verify_key_from_key_info] when [key_info] is a [Deferred], as
    [upload_signatures_for_device_keys] calls it: line 493 looks for
    ["keys"] in the [Deferred], and line 498 would subscript it. *)
Definition _get_verify_key_from_deferred (steps : nat) (key_info : deferred)
  : option (result (string * verify_key)) :=
  match deferred_contains steps "keys" key_info with
  | None => None
  | Some has_keys =>
      Some (if negb has_keys then Raise (SynapseError 400 "Invalid key")
            else Raise (TypeError "'Deferred' object is not subscriptable"))
  end.

(** [upload_signatures_for_device_keys].  Neither signing key is yielded
    (lines 445 and 451): [_get_verify_key_from_key_info] is given the
    [Deferred] that the store returned, which is not [None].  [None] says
    that the call has not returned within [steps] steps of an iteration. *)
Definition upload_signatures_for_device_keys (steps : nat) (st : store)
  (user_id : string) (signatures : json) : option (result json * store) :=
  let self_signing_key := get_e2e_self_signing_key st user_id in
  match _get_verify_key_from_deferred steps self_signing_key with
  | None => None
  | Some (Raise e) => Some (Raise e, st)
  | Some (Ok self_signing) =>
      let user_signing_key := get_e2e_user_signing_key st user_id in
      match _get_verify_key_from_deferred steps user_signing_key with
      | None => None
      | Some (Raise e) => Some (Raise e, st)
      | Some (Ok user_signing) =>
          match stage_device_signatures st user_id signatures
                  self_signing user_signing with
          | Raise e => Some (Raise e, st)
          | Ok staged =>
              Some (Ok (JObj []),
                    store_e2e_device_signatures st user_id staged)
          end
      end
  end.

End Handler.

(** ** Failures of federation requests *)

(** An exception as [_exception_to_failure] sees it: which of the three
    classes it is an instance of (the classes are declared outside the
    handler), its [code] when it has one, and [str(e)]. *)
Record py_exception : Type := {
  isinstance_CodeMessageException : bool;
  isinstance_NotRetryingDestination : bool;
  isinstance_FederationDeniedError : bool;
  exc_code : Z;
  exc_str : string
}.

Record failure : Type := {
  status : Z;
  message : string
}.

(** [_exception_to_failure] *)
Definition _exception_to_failure (e : py_exception) : failure :=
  if isinstance_CodeMessageException e then
    {| status := exc_code e; message := exc_str e |}
  else if isinstance_NotRetryingDestination e then
    {| status := 503; message := "Not ready for retry" |}
  else if isinstance_FederationDeniedError e then
    {| status := 403; message := "Federation Denied" |}
  else
    {| status := 503; message := exc_str e |}.

(** A built-in exception raised by the handler's own code, as the
    [except Exception] of [do_remote_query] catches it. *)
Definition builtin_exception (e : exn) : py_exception :=
  {| isinstance_CodeMessageException :=
       match e with SynapseError _ _ => true | _ => false end;
     isinstance_NotRetryingDestination := false;
     isinstance_FederationDeniedError := false;
     exc_code := match e with SynapseError c _ => c | _ => 0 end;
     exc_str :=
       match e with
       | SynapseError _ m | TypeError m | AttributeError m | ValueError m
       | IndexError m | UnicodeDecodeError m | LibraryError m => m
       | KeyError k => "'" ++ k ++ "'"
       | SignatureVerifyException => ""
       end |}.

(** What [federation.query_client_keys] gives for a destination: the remote
    server's answer, or the exception the transport raises. *)
Inductive reply : Type :=
| Answer (remote_result : json)
| Throws (e : py_exception).

(** The two maps the units of the fan-out write: [results] and [failures]. *)
Record fanout : Type := {
  results : dict json;
  failures : dict failure
}.

(** Lines 139-141: take the users that were asked for. *)
Fixpoint take_asked (destination_query : dict json) (items : dict json)
  (res : dict json) : dict json :=
  match items with
  | [] => res
  | (user_id, keys) :: rest =>
      take_asked destination_query rest
        (if dict_mem user_id destination_query
         then dict_set user_id keys res else res)
  end.

(** The [try] block of [do_remote_query] up to its loop: the items of the
    answer's [device_keys], or the exception that [except Exception]
    catches, be it the transport's or one of the block's own. *)
Definition try_remote_query (r : reply) : dict json + py_exception :=
  match r with
  | Throws e => inr e
  | Answer remote_result =>
      match (device_keys <- py_getitem (PVal remote_result) "device_keys" ;;
             py_items device_keys) with
      | Ok items => inl items
      | Raise e => inr (builtin_exception e)
      end
  end.

(** [do_remote_query], from the reply of the destination on: the [try]
    block writes [results], the [except] block writes [failures]. *)
Definition do_remote_query (remote_queries_not_in_cache : dict (dict json))
  (replies : string -> reply) (s : fanout) (destination : string)
  : result fanout :=
  match dict_get destination remote_queries_not_in_cache with
  | None => Raise (KeyError destination)
  | Some destination_query =>
      match try_remote_query (replies destination) with
      | inl items =>
          Ok {| results := take_asked destination_query items (results s);
                failures := failures s |}
      | inr e =>
          Ok {| results := results s;
                failures := dict_set destination (_exception_to_failure e)
                              (failures s) |}
      end
  end.

(** Lines 146-149: one unit per destination.  The units write when their
    replies arrive, in some order [order] of the destinations. *)
Fixpoint gather_remote_queries (remote_queries_not_in_cache : dict (dict json))
  (replies : string -> reply) (order : list string) (s : fanout)
  : result fanout :=
  match order with
  | [] => Ok s
  | destination :: rest =>
      s' <- do_remote_query remote_queries_not_in_cache replies s destination ;;
      gather_remote_queries remote_queries_not_in_cache replies rest s'
  end.

(** ** Notions the properties are stated with *)

(** [m[k1][k2]], when both are there. *)
Definition dict_get2 {V : Type} (k1 k2 : string) (m : dict (dict V)) : option V :=
  match dict_get k1 m with
  | Some inner => dict_get k2 inner
  | None => None
  end.

(** The last item of a dictionary in iteration order. *)
Fixpoint last_item {A : Type} (l : list A) : option A :=
  match l with
  | [] => None
  | [x] => Some x
  | _ :: l' => last_item l'
  end.

Fixpoint unique (l : list string) : bool :=
  match l with
  | [] => true
  | x :: l' => negb (existsb (String.eqb x) l') && unique l'
  end.

(** The keys of a Python [dict] are distinct. *)
Definition unique_keys (j : json) : bool :=
  match j with
  | JObj d => unique (dict_keys d)
  | _ => true
  end.

(** Every response of the claimed keys holds one key. *)
Definition all_single (json_result : dict (dict (dict json))) : Prop :=
  forall u d m, dict_get2 u d json_result = Some m -> length m = 1%nat.

(** The conflict rule in the words of the specification: plain strings must
    match exactly; objects are compared after [signatures] is stripped from
    both; a string never matches an object.  Other JSON values, of which the
    specification says nothing, are compared as Python compares them. *)
Definition conflict_rule_match (old_key new_key : json) : bool :=
  match old_key, new_key with
  | JStr old_s, JStr new_s => String.eqb old_s new_s
  | JObj old_d, JObj new_d =>
      py_eqb (JObj (dict_del "signatures" old_d))
             (JObj (dict_del "signatures" new_d))
  | JStr _, JObj _ | JObj _, JStr _ => false
  | _, _ => py_eqb old_key new_key
  end.

(** The key ids of an upload, as line 339 passes them to the store. *)
Definition key_ids (key_list : list (string * string * json)) : list string :=
  map (fun '(_, k_id, _) => k_id) key_list.

Definition pairs (key_list : list (string * string * json))
  : list (string * string) :=
  map (fun '(algorithm, key_id, _) => (algorithm, key_id)) key_list.

(** The upload that gives the value [key] under [algorithm:key_id], for
    every [(algorithm, key_id, key)] of [key_list]. *)
Definition upload_of (key_list : list (string * string * json)) : dict json :=
  map (fun '(algorithm, key_id, key) => (algorithm ++ ":" ++ key_id, key))
    key_list.

(** Neither an algorithm nor a key id of [key_list] has a colon in it. *)
Definition colon_free (key_list : list (string * string * json)) : bool :=
  forallb (fun '(algorithm, key_id, _) =>
             Nat.eqb (count_char colon algorithm) 0
             && Nat.eqb (count_char colon key_id) 0) key_list.

(** A device-info object as the store builds it, with [keys] and a
    [device_display_name] ([None] when the device has none), whose [keys]
    are an object, or another value that [dict()] makes a dictionary of. *)
Definition device_info_ok (info : json) : bool :=
  match info with
  | JObj d =>
      match dict_get "keys" d, dict_get "device_display_name" d with
      | Some keys, Some _ =>
          match py_dict keys with
          | Ok (Some _) => true
          | _ => false
          end
      | _, _ => false
      end
  | _ => false
  end.

(** [device_ids] asks for the device [device_id]: a missing or empty list
    asks for every device of the user. *)
Definition asks_for (device_ids : option (list string)) (device_id : string)
  : bool :=
  match device_ids with
  | None | Some [] => true
  | Some ids => existsb (String.eqb device_id) ids
  end.

(** The device-info object of every stored device that [query] asks for
    is [device_info_ok]. *)
Definition asked_devices_ok (st : store) (query : dict (option (list string)))
  : bool :=
  forallb (fun '(user_id, device_ids) =>
             match dict_get user_id (e2e_device_keys st) with
             | None => true
             | Some devices =>
                 forallb (fun '(device_id, info) =>
                            negb (asks_for device_ids device_id)
                            || device_info_ok info) devices
             end) query.

Definition has_no_devices (st : store) (user_id : string) : bool :=
  match dict_get user_id (e2e_device_keys st) with
  | None | Some [] => true
  | Some _ => false
  end.

(** What the store's answer to a device query may hold: devices that are
    stored, of users that were asked for, and no user without a device. *)
Definition answer_ok (st : store) (asked : list (string * option string))
  (acc : dict (dict json)) : Prop :=
  forall u m, In (u, m) acc ->
    (exists od, In (u, od) asked)
    /\ m <> []
    /\ forall d info, In (d, info) m ->
         exists devices, dict_get u (e2e_device_keys st) = Some devices
                         /\ In (d, info) devices.


(** The devices in the store's answer are stored devices that were asked
    for, by their id or with all the devices of their user. *)
Definition answer_asked (st : store) (asked : list (string * option string))
  (acc : dict (dict json)) : Prop :=
  forall u m, In (u, m) acc ->
    forall d info, In (d, info) m ->
      exists od devices,
        In (u, od) asked
        /\ dict_get u (e2e_device_keys st) = Some devices
        /\ In (d, info) devices
        /\ (od = None \/ od = Some d).

(** The destinations other than [destination]. *)
Definition without (destination : string) (order : list string) : list string :=
  filter (fun d => negb (String.eqb d destination)) order.

Definition empty_fanout : fanout := {| results := []; failures := [] |}.

Section Notions.
Context {env : Env}.

(** Every requested user id parses and is a user of this server. *)
Definition all_local (query : dict (option (list string))) : bool :=
  forallb (fun q => match from_string (fst q) with
                    | Ok uid => is_mine uid
                    | Raise _ => false
                    end) query.

(** Every text is JSON that [json.loads] reads. *)
Definition keys_parse (keys : dict string) : bool :=
  forallb (fun kt => match json_loads (snd kt) with
                     | Some _ => true
                     | None => false
                     end) keys.

Definition devices_parse (device_keys : dict (dict string)) : bool :=
  forallb (fun dk => keys_parse (snd dk)) device_keys.

Definition texts_parse (results : dict (dict (dict string))) : bool :=
  forallb (fun ud => devices_parse (snd ud)) results.

(** What the response holds for a device after its keys were iterated. *)
Definition claimed (keys : dict string) (before : option (dict json))
  : option (dict json) :=
  match last_item keys with
  | Some (key_id, text) =>
      option_map (fun v => [(key_id, v)]) (json_loads text)
  | None => before
  end.

(** Every text the store holds for a key of the upload is JSON text. *)
Definition stored_texts_ok (existing_key_map : list (string * string * string))
  (key_list : list (string * string * json)) : bool :=
  forallb (fun '(algorithm, key_id, _) =>
             match key_map_get algorithm key_id existing_key_map with
             | Some text =>
                 negb (String.eqb text "")
                 && match json_loads text with Some _ => true | None => false end
             | None => true
             end) key_list.

(** Some key of the upload is stored with a value that differs from the
    new one under the conflict rule. *)
Definition conflicts (existing_key_map : list (string * string * string))
  (key_list : list (string * string * json)) : bool :=
  existsb (fun '(algorithm, key_id, key) =>
             match key_map_get algorithm key_id existing_key_map with
             | Some text =>
                 match json_loads text with
                 | Some old_key => negb (conflict_rule_match old_key key)
                 | None => false
                 end
             | None => false
             end) key_list.

(** The canonical JSON of every key of the upload that the store does not
    hold yet is ASCII. *)
Definition new_keys_ascii (existing_key_map : list (string * string * string))
  (key_list : list (string * string * json)) : bool :=
  forallb (fun '(algorithm, key_id, key) =>
             match key_map_get algorithm key_id existing_key_map with
             | Some _ => true
             | None => is_ascii (encode_canonical_json key)
             end) key_list.

(** The keys of the upload that the store does not hold yet. *)
Fixpoint keys_to_insert (existing_key_map : list (string * string * string))
  (key_list : list (string * string * json)) : list (string * string * string) :=
  match key_list with
  | [] => []
  | (algorithm, key_id, key) :: rest =>
      match key_map_get algorithm key_id existing_key_map with
      | Some _ => keys_to_insert existing_key_map rest
      | None =>
          (algorithm, key_id, encode_canonical_json key)
            :: keys_to_insert existing_key_map rest
      end
  end.

(** The JSON codec on a value: its text is not empty, and reading the text
    gives a value equal to it. *)
Definition round_trips (key : json) : bool :=
  negb (String.eqb (encode_canonical_json key) "")
  && unique_keys key
  && match json_loads (encode_canonical_json key) with
     | Some v => py_eqb v key && unique_keys v
     | None => false
     end.

End Notions.

(** ** A test double for the collaborators

    Enough of the libraries to run the handler on the inputs of its test
    suite: user ids are [@local:domain] and the server is [test]; a verify key
    is its id and its bytes; the signature that verifies is the text
    [sig(bytes)]; the JSON codec knows the texts of [toy_codebook]. *)

Definition toy_from_string (s : string) : result (string * string) :=
  match s with
  | String "@"%char rest =>
      match str_split1 colon rest with
      | localpart :: domain :: _ => Ok (localpart, domain)
      | _ => Raise (SynapseError 400 "Expected UserID of the form '@localpart:domain'")
      end
  | _ => Raise (SynapseError 400 "Expected UserID string to start with '@'")
  end.

Definition toy_decode_base64 (j : json) : option string :=
  match j with
  | JStr s => Some s
  | _ => None
  end.

Definition toy_decode_verify_key_bytes (key_id key_bytes : string)
  : option (string * string) :=
  if String.prefix "ed25519:" key_id then Some (key_id, key_bytes) else None.

Definition toy_signature (key_bytes : string) : json :=
  JStr ("sig(" ++ key_bytes ++ ")").

Definition toy_verify_signed_json (obj : json) (user_id : string)
  (vk : string * string) : bool :=
  match obj with
  | JObj d =>
      match dict_get "signatures" d with
      | Some (JObj sigs) =>
          match dict_get user_id sigs with
          | Some (JObj mine) =>
              match dict_get (fst vk) mine with
              | Some s => py_eqb s (toy_signature (snd vk))
              | None => false
              end
          | _ => false
          end
      | _ => false
      end
  | _ => false
  end.

Definition dquote : string := String (ascii_of_nat 34) EmptyString.

Definition quoted (s : string) : string := dquote ++ s ++ dquote.

(** The texts of [{"key": v}] and [{"key": v, "signatures": {"k1": s}}],
    keys sorted as canonical JSON has them. *)
Definition key_text (v : string) : string :=
  "{" ++ quoted "key" ++ ":" ++ quoted v ++ "}".

Definition signed_key_text (v s : string) : string :=
  "{" ++ quoted "key" ++ ":" ++ quoted v ++ "," ++ quoted "signatures" ++ ":{"
      ++ quoted "k1" ++ ":" ++ quoted s ++ "}}".

(** The UTF-8 bytes of a word with a letter that is not ASCII. *)
Definition cle : string :=
  "cl" ++ String (ascii_of_nat 195) (String (ascii_of_nat 169) EmptyString).

Definition toy_codebook : list (string * json) :=
  [ (quoted "key1", JStr "key1");
    (quoted "key2", JStr "key2");
    (key_text "key2", JObj [("key", JStr "key2")]);
    (key_text "key3", JObj [("key", JStr "key3")]);
    (signed_key_text "key2" "sig1",
      JObj [("key", JStr "key2"); ("signatures", JObj [("k1", JStr "sig1")])]);
    (signed_key_text "key2" "sig2",
      JObj [("key", JStr "key2"); ("signatures", JObj [("k1", JStr "sig2")])]);
    (quoted cle, JStr cle) ].

Definition toy_json_loads (text : string) : option json :=
  dict_get text toy_codebook.

Definition toy_encode_canonical_json (j : json) : string :=
  match find (fun p => py_eqb (snd p) j) toy_codebook with
  | Some (text, _) => text
  | None => "null"
  end.

#[local] Instance toy_env : Env := {|
  verify_key := (string * string)%type;
  from_string := toy_from_string;
  is_mine := fun uid => String.eqb (snd uid) "test";
  decode_base64 := toy_decode_base64;
  decode_verify_key_bytes := toy_decode_verify_key_bytes;
  verify_signed_json := toy_verify_signed_json;
  json_loads := toy_json_loads;
  encode_canonical_json := toy_encode_canonical_json;
  store_answers_at_once := true
|}.

(** The same with a store that answers later. *)
Definition toy_env_later : Env := {|
  verify_key := (string * string)%type;
  from_string := toy_from_string;
  is_mine := fun uid => String.eqb (snd uid) "test";
  decode_base64 := toy_decode_base64;
  decode_verify_key_bytes := toy_decode_verify_key_bytes;
  verify_signed_json := toy_verify_signed_json;
  json_loads := toy_json_loads;
  encode_canonical_json := toy_encode_canonical_json;
  store_answers_at_once := false
|}.

(** The keys of [test_replace_self_signing_key] and
    [test_bad_replace_self_signing_key]. *)
Definition boris : string := "@boris:test".
Definition key1_b64 : string := "nqOvzeuGWT/sRx3h7+MHoInYj3Uk2LD/unI9kDYcHwk".
Definition key2_b64 : string := "Hq6gL+utB4ET+UvD5ci0kgAwsX6qP/zvf8v6OInU5iw".

Definition signing_key (usage b64 : string) (extra : dict json) : json :=
  JObj ([ ("user_id", JStr boris);
          ("usage", JList [JStr usage]);
          ("keys", JObj [("ed25519:" ++ b64, JStr b64)]) ] ++ extra).

Definition keys1 : json :=
  JObj [("self_signing_key", signing_key "self_signing" key1_b64 [])].

Definition store1 : store := snd (upload_signing_keys_for_user empty_store boris keys1).

Definition signed_by_key1 (signature : json) : json :=
  JObj [(boris, JObj [("ed25519:" ++ key1_b64, signature)])].

Definition keys2_bad_signature : json :=
  JObj [("self_signing_key",
         signing_key "self_signing" key2_b64
           [("replaces", JStr key1_b64);
            ("signatures", signed_by_key1 (JStr "this+is+a+bad+signature"))])].

Definition keys2_unsigned : json :=
  JObj [("self_signing_key",
         signing_key "self_signing" key2_b64 [("replaces", JStr key1_b64)])].

(** A first key that carries a signature. *)
Definition keys1_signed : json :=
  JObj [("self_signing_key",
         signing_key "self_signing" key1_b64
           [("signatures", signed_by_key1 (toy_signature key1_b64))])].

(** A device of [boris] with its stored device-info object, and a store in
    which he has both signing keys. *)
Definition device_keys_xyz : dict json :=
  [ ("user_id", JStr boris);
    ("device_id", JStr "xyz");
    ("algorithms", JList [JStr "m.olm.curve25519-aes-sha256"]);
    ("keys", JObj [("ed25519:xyz", JStr "devicekey")]) ].

Definition device_info_xyz : json :=
  JObj [("keys", JObj device_keys_xyz); ("device_display_name", JStr "phone")].

Definition user_signing_key2 : json :=
  signing_key "user_signing" key2_b64
    [("signatures", signed_by_key1 (toy_signature key1_b64))].

Definition store2 : store :=
  {| e2e_self_signing_keys := e2e_self_signing_keys store1;
     e2e_user_signing_keys := [(boris, user_signing_key2)];
     e2e_device_keys := [(boris, [("xyz", device_info_xyz)])];
     e2e_one_time_keys := [];
     e2e_device_signatures := [] |}.

(** The device keys of [xyz] signed with the self-signing key, with and
    without an [unsigned] member. *)
Definition signed_device_keys (unsigned : dict json) : json :=
  JObj (device_keys_xyz
          ++ [("signatures", signed_by_key1 (toy_signature key1_b64))]
          ++ unsigned).


Definition self_signing_id1 : string * (string * string) :=
  ("ed25519:" ++ key1_b64, ("ed25519:" ++ key1_b64, key1_b64)).

Definition user_signing_id2 : string * (string * string) :=
  ("ed25519:" ++ key2_b64, ("ed25519:" ++ key2_b64, key2_b64)).

(** The three destinations of the specification's example: [two.example]
    is not being retried, the others answer for their user. *)
Definition not_retrying : py_exception :=
  {| isinstance_CodeMessageException := false;
     isinstance_NotRetryingDestination := true;
     isinstance_FederationDeniedError := false;
     exc_code := 0;
     exc_str := "Not retrying server two.example." |}.

(** A response with an HTTP error status, as the transport raises it. *)
Definition http_not_found : py_exception :=
  {| isinstance_CodeMessageException := true;
     isinstance_NotRetryingDestination := false;
     isinstance_FederationDeniedError := false;
     exc_code := 404;
     exc_str := "404: Not Found" |}.

Definition three_queries : dict (dict json) :=
  [ ("one.example", [("@a:one.example", JList [])]);
    ("two.example", [("@b:two.example", JList [])]);
    ("three.example", [("@c:three.example", JList [])]) ].

Definition three_replies (destination : string) : reply :=
  if String.eqb destination "two.example" then Throws not_retrying
  else Answer (JObj [("device_keys",
                      JObj [("@a:one.example", JObj [("dev1", JObj [])]);
                            ("@c:three.example", JObj [("dev3", JObj [])])])]).

(** Two keys claimed for one device. *)
Definition two_claimed_keys : dict (dict (dict string)) :=
  [(boris, [("xyz", [("alg1:k1", quoted "key1"); ("alg1:k2", quoted "key2")])])].

(** The uploads of [test_reupload_one_time_keys]: the second one differs
    from the first in a signature only. *)
Definition one_time_keys_sig (signature : string) : dict json :=
  [ ("alg1:k1", JStr "key1");
    ("alg2:k2", JObj [("key", JStr "key2");
                      ("signatures", JObj [("k1", JStr signature)])]);
    ("alg2:k3", JObj [("key", JStr "key3")]) ].

Definition otk_store1 : store :=
  snd (_upload_one_time_keys_for_user empty_store boris "xyz" 0
         (one_time_keys_sig "sig1")).

(** ** The rest of the handler and what its properties are stated with *)

(** A self-signing key as the handler lets it into the store for [user_id]:
    it names the user, its usage has [self_signing], and it has one verify
    key that decodes. *)
Definition good_self_signing_key {env : Env} (user_id : string) (key : json) : Prop :=
  (exists uid, py_getitem (PVal key) "user_id" = Ok uid
               /\ py_eqb uid (JStr user_id) = true)
  /\ (exists usage, py_getitem (PVal key) "usage" = Ok usage
                    /\ py_in "self_signing" (PVal usage) = Ok true)
  /\ exists key_id vk, _get_verify_key_from_key_info (PVal key) = Ok (key_id, vk).

Definition self_signing_keys_good {env : Env} (st : store) : Prop :=
  forall user_id key,
    dict_get user_id (e2e_self_signing_keys st) = Some key ->
    good_self_signing_key user_id key.

(** [key] with its [signatures] member set to [s], when it is an object. *)
Definition with_signatures (s : json) (key : json) : json :=
  match key with
  | JObj d => JObj (dict_set "signatures" s d)
  | _ => key
  end.

(** An upload whose objects are signed anew, each key with [sigs] of its id. *)
Definition resigned (sigs : string -> json) (one_time_keys : dict json)
  : dict json :=
  map (fun kv => (fst kv, with_signatures (sigs (fst kv)) (snd kv)))
    one_time_keys.

(** The object [query_local_devices] returns for a device whose stored
    device-info object is [info]: the stored keys, with [unsigned] set to the
    display name alone, or to nothing when the device has no name. *)
Definition device_entry (info : json) (entry : json) : Prop :=
  exists keys name,
    (k <- py_getitem (PVal info) "keys" ;; py_dict k) = Ok (Some keys)
    /\ py_getitem (PVal info) "device_display_name" = Ok name
    /\ entry = JObj (dict_set "unsigned"
                       (JObj match name with
                             | JNull => []
                             | _ => [("device_display_name", name)]
                             end) keys).

(** Every device in the result is a stored device of that user, in the
    shape of [device_entry]. *)
Definition entries_from_store (st : store) (result_dict : dict (dict json)) : Prop :=
  forall u d entry,
    dict_get2 u d result_dict = Some entry ->
    exists devices info,
      dict_get u (e2e_device_keys st) = Some devices
      /\ In (d, info) devices
      /\ device_entry info entry.


(** Lines 123-126 of [query_devices]: the users that were not in the cache,
    by the domain of their id, each with the device ids asked for.
    [get_domain_from_id] is the function of [synapse.types]. *)
Fixpoint group_by_domain (get_domain_from_id : string -> result string)
  (remote_queries : dict json) (user_ids_not_in_cache : list string)
  (remote_queries_not_in_cache : dict (dict json)) : result (dict (dict json)) :=
  match user_ids_not_in_cache with
  | [] => Ok remote_queries_not_in_cache
  | user_id :: rest =>
      domain <- get_domain_from_id user_id ;;
      match dict_get user_id remote_queries with
      | None => Raise (KeyError user_id)
      | Some device_ids =>
          group_by_domain get_domain_from_id remote_queries rest
            (dict_set2 domain user_id device_ids remote_queries_not_in_cache)
      end
  end.

(** Two dictionaries with the same entries, whatever their order. *)
Definition same_entries {V : Type} (a b : dict V) : Prop :=
  forall k, dict_get k a = dict_get k b.

Definition same_fanout (s t : fanout) : Prop :=
  same_entries (results s) (results t)
  /\ same_entries (failures s) (failures t).

(** No user is asked of two destinations. *)
Definition disjoint_queries (queries : dict (dict json)) : Prop :=
  forall d1 d2 q1 q2 u,
    d1 <> d2 ->
    dict_get d1 queries = Some q1 -> dict_get d2 queries = Some q2 ->
    dict_mem u q1 = true -> dict_mem u q2 = false.

(** The value an answer gives for [user_id], when the user was asked for:
    that of the last item for the user. *)
Fixpoint asked_value (destination_query : dict json) (items : dict json)
  (user_id : string) : option json :=
  match items with
  | [] => None
  | (u, keys) :: rest =>
      match asked_value destination_query rest user_id with
      | Some v => Some v
      | None =>
          if String.eqb user_id u && dict_mem u destination_query
          then Some keys else None
      end
  end.

(** What the unit of [destination] writes for [user_id], and the failure it
    records. *)
Definition answer_for (queries : dict (dict json)) (replies : string -> reply)
  (destination user_id : string) : option json :=
  match dict_get destination queries, try_remote_query (replies destination) with
  | Some destination_query, inl items =>
      asked_value destination_query items user_id
  | _, _ => None
  end.

Definition failure_of (replies : string -> reply) (destination : string)
  : option failure :=
  match try_remote_query (replies destination) with
  | inl _ => None
  | inr e => Some (_exception_to_failure e)
  end.


(** Every user of a group has the group's domain. *)
Definition grouped (get_domain_from_id : string -> result string)
  (acc : dict (dict json)) : Prop :=
  forall d q u, dict_get d acc = Some q -> dict_mem u q = true ->
                get_domain_from_id u = Ok d.

(** [c.get(k, default)] *)
Definition py_get (c : json) (k : string) (default : json) : result json :=
  match c with
  | JObj d => Ok match dict_get k d with Some v => v | None => default end
  | j => Raise (AttributeError ("'" ++ py_type_name j
                                  ++ "' object has no attribute 'get'"))
  end.

(** The [try] block of [claim_client_keys] up to its loop. *)
Definition try_claim_client_keys (r : reply) : dict json + py_exception :=
  match r with
  | Throws e => inr e
  | Answer remote_result =>
      match (one_time_keys <- py_getitem (PVal remote_result) "one_time_keys" ;;
             py_items one_time_keys) with
      | Ok items => inl items
      | Raise e => inr (builtin_exception e)
      end
  end.

(** [claim_client_keys], from the reply of the destination on; [results] of
    the state is [json_result]. *)
Definition claim_client_keys (remote_queries : dict (dict json))
  (replies : string -> reply) (s : fanout) (destination : string)
  : result fanout :=
  match dict_get destination remote_queries with
  | None => Raise (KeyError destination)
  | Some device_keys =>
      match try_claim_client_keys (replies destination) with
      | inl items =>
          Ok {| results := take_asked device_keys items (results s);
                failures := failures s |}
      | inr e =>
          Ok {| results := results s;
                failures := dict_set destination (_exception_to_failure e)
                              (failures s) |}
      end
  end.

(** Lines 265-268: one unit per destination, writing in the order [order]
    of the replies. *)
Fixpoint gather_claims (remote_queries : dict (dict json))
  (replies : string -> reply) (order : list string) (s : fanout)
  : result fanout :=
  match order with
  | [] => Ok s
  | destination :: rest =>
      s' <- claim_client_keys remote_queries replies s destination ;;
      gather_claims remote_queries replies rest s'
  end.

(** The answer for the local users as the JSON value it is. *)
Definition local_json_result (local : dict (dict (dict json))) : dict json :=
  map (fun ud => (fst ud, JObj (map (fun dk => (fst dk, JObj (snd dk))) (snd ud))))
    local.

(** Lines 270-278: the argument of [logger.info] goes through every user,
    device and key of [json_result] with [iteritems]. *)
Fixpoint log_devices (user_keys : dict json) : result unit :=
  match user_keys with
  | [] => Ok tt
  | (device_id, device_keys) :: rest =>
      _ <- py_items device_keys ;;
      log_devices rest
  end.

Fixpoint log_claimed (json_result : dict json) : result unit :=
  match json_result with
  | [] => Ok tt
  | (user_id, user_keys) :: rest =>
      devices <- py_items user_keys ;;
      _ <- log_devices devices ;;
      log_claimed rest
  end.

(** An entry of [json_result] that line 270 can go through. *)
Definition loggable (user_keys : json) : bool :=
  match user_keys with
  | JObj devices =>
      forallb (fun dk => match snd dk with JObj _ => true | _ => false end) devices
  | _ => false
  end.

Section Claiming.
Context {env : Env}.
Variable get_domain_from_id : string -> result string.
Variable claim_e2e_one_time_keys
  : list (string * string * json) -> dict (dict (dict string)).

(** Lines 230-237: what to claim from the store and what to ask of each
    remote domain. *)
Fixpoint split_claim_query (items : dict json)
  (local_query : list (string * string * json))
  (remote_queries : dict (dict json))
  : result (list (string * string * json) * dict (dict json)) :=
  match items with
  | [] => Ok (local_query, remote_queries)
  | (user_id, device_keys) :: rest =>
      uid <- from_string user_id ;;
      if is_mine uid then
        devices <- py_items device_keys ;;
        split_claim_query rest
          (local_query ++ map (fun da => (user_id, fst da, snd da)) devices)
          remote_queries
      else
        domain <- get_domain_from_id user_id ;;
        split_claim_query rest local_query
          (dict_set2 domain user_id device_keys remote_queries)
  end.

(** [claim_one_time_keys]; [claim_e2e_one_time_keys] is the store's claim,
    and the replies of the destinations arrive in the order [order]. *)
Definition claim_one_time_keys (query : json) (replies : string -> reply)
  (order : list string) : result (dict json * dict failure) :=
  one_time_keys <- py_get query "one_time_keys" (JObj []) ;;
  items <- py_items one_time_keys ;;
  ' (local_query, remote_queries) <- split_claim_query items [] [] ;;
  let claimed_results := claim_e2e_one_time_keys local_query in
  local <- claim_one_time_keys_local claimed_results ;;
  s <- gather_claims remote_queries replies order
         {| results := local_json_result local; failures := [] |} ;;
  _ <- log_claimed (results s) ;;
  Ok (results s, failures s).

(** Every user asked of a remote domain is a user of another server. *)
Definition all_foreign (remote_queries : dict (dict json)) : Prop :=
  forall d q u, dict_get d remote_queries = Some q -> dict_mem u q = true ->
    exists uid, from_string u = Ok uid /\ is_mine uid = false.
End Claiming.

(** The calls [upload_keys_for_user] makes to the device handler. *)
Inductive device_event : Type :=
| NotifyDeviceUpdate (user_id : string) (device_ids : list string)
| CheckDeviceRegistered (user_id device_id : string).

Section UploadKeys.
Context {env : Env}.
(** [clock.time_msec()], and the two operations of the store that
    [upload_keys_for_user] uses beside those of the one-time keys:
    [set_e2e_device_keys], which says whether the keys changed, and
    [count_e2e_one_time_keys]. *)
Variable time_now : Z.
Variable set_e2e_device_keys : store -> string -> string -> Z -> json -> bool * store.
Variable count_e2e_one_time_keys : store -> string -> string -> json.

(** Lines 290-302: the device keys. *)
Definition upload_device_keys (st : store) (user_id device_id : string)
  (device_keys : json) : store * list device_event :=
  if py_truthy device_keys then
    let '(changed, st') :=
      set_e2e_device_keys st user_id device_id time_now device_keys in
    (st', if (changed : bool) then [NotifyDeviceUpdate user_id [device_id]] else [])
  else (st, []).

(** Lines 304-308: the one-time keys; [_upload_one_time_keys_for_user]
    begins with [one_time_keys.keys()]. *)
Definition upload_one_time_keys (st : store) (user_id device_id : string)
  (one_time_keys : json) : result unit * store :=
  if py_truthy one_time_keys then
    match (_ <- py_keys one_time_keys ;; py_items one_time_keys) with
    | Raise e => (Raise e, st)
    | Ok items =>
        _upload_one_time_keys_for_user st user_id device_id time_now items
    end
  else (Ok tt, st).

(** [upload_keys_for_user]: the result, the store and the calls to the
    device handler, in their order. *)
Definition upload_keys_for_user (st : store) (user_id device_id : string)
  (keys : json) : result json * store * list device_event :=
  match py_get keys "device_keys" JNull with
  | Raise e => (Raise e, st, [])
  | Ok device_keys =>
      let '(st1, events) := upload_device_keys st user_id device_id device_keys in
      match py_get keys "one_time_keys" JNull with
      | Raise e => (Raise e, st1, events)
      | Ok one_time_keys =>
          match upload_one_time_keys st1 user_id device_id one_time_keys with
          | (Raise e, st2) => (Raise e, st2, events)
          | (Ok _, st2) =>
              (Ok (JObj [("one_time_key_counts",
                          count_e2e_one_time_keys st2 user_id device_id)]),
               st2,
               (events ++ [CheckDeviceRegistered user_id device_id])%list)
          end
      end
  end.
End UploadKeys.

(** ** More inputs of the tests *)

(** Replacements of the first key that do not name it. *)
Definition keys2_no_replaces : json :=
  JObj [("self_signing_key", signing_key "self_signing" key2_b64 [])].

Definition keys2_wrong_replaces : json :=
  JObj [("self_signing_key",
         signing_key "self_signing" key2_b64 [("replaces", JStr "wrong+id")])].

(** The replacement of the first key signed with it. *)
Definition keys2_signed : json :=
  JObj [("self_signing_key",
         signing_key "self_signing" key2_b64
           [("replaces", JStr key1_b64);
            ("signatures", signed_by_key1 (toy_signature key1_b64))])].

(** The user-signing key of [test_bad_replace_user_signing_key]. *)
Definition user_signing_bad_signature : json :=
  JObj [("user_signing_key",
         signing_key "user_signing" key2_b64
           [("signatures", signed_by_key1 (JStr "this+is+a+bad+signature"))])].

Definition user_signing_signed : json :=
  JObj [("user_signing_key", user_signing_key2)].

(** A record with two verify keys. *)
Definition two_key_record : dict json :=
  [ ("user_id", JStr boris);
    ("usage", JList [JStr "self_signing"]);
    ("keys", JObj [("ed25519:" ++ key1_b64, JStr key1_b64);
                   ("ed25519:" ++ key2_b64, JStr key2_b64)]) ].

(** A store with a named and an unnamed device of [boris]. *)
Definition store_two_devices : store :=
  {| e2e_self_signing_keys := [];
     e2e_user_signing_keys := [];
     e2e_device_keys :=
       [(boris, [("xyz", device_info_xyz);
                 ("abc", JObj [("keys", JObj [("unsigned", JStr "old")]);
                               ("device_display_name", JNull)])])];
     e2e_one_time_keys := [];
     e2e_device_signatures := [] |}.

(** The domain of a user id of the form [@localpart:domain]. *)
Definition toy_get_domain_from_id (user_id : string) : result string :=
  match str_split1 colon user_id with
  | _ :: domain :: _ => Ok domain
  | _ => Raise (SynapseError 400 "Invalid ID")
  end.

Definition three_users : dict json :=
  [ ("@a:one.example", JList []);
    ("@b:two.example", JList []);
    ("@c:three.example", JList []) ].

(** A claim for a device of [boris] and one of a user of [two.example]. *)
Definition claim_query : json :=
  JObj [("one_time_keys",
         JObj [(boris, JObj [("xyz", JStr "alg1")]);
               ("@b:two.example", JObj [("dev2", JStr "alg1")])])].

(** A store that has one key to give for the device of [boris]. *)
Definition toy_claim_e2e_one_time_keys (local_query : list (string * string * json))
  : dict (dict (dict string)) :=
  match local_query with
  | [] => []
  | _ => [(boris, [("xyz", [("alg1:k1", quoted "key1")])])]
  end.

(** [two.example] answers for its user, and for [boris] as well. *)
Definition meddling_reply (destination : string) : reply :=
  Answer (JObj [("one_time_keys",
                 JObj [("@b:two.example",
                        JObj [("dev2", JObj [("alg1:k7", JStr "key7")])]);
                       (boris, JObj [("xyz", JObj [("alg1:evil", JStr "x")])])])]).

(** [two.example] answers with a string where the keys of its user should
    be. *)
Definition malformed_reply (destination : string) : reply :=
  Answer (JObj [("one_time_keys", JObj [("@b:two.example", JStr "oops")])]).

(** A store operation that files the device keys under the device, and
    says they changed when they are not the ones it had. *)
Definition toy_set_e2e_device_keys (st : store) (user_id device_id : string)
  (time_now : Z) (device_keys : json) : bool * store :=
  let info := JObj [("keys", device_keys); ("device_display_name", JNull)] in
  (negb match dict_get2 user_id device_id (e2e_device_keys st) with
        | Some old => py_eqb old info
        | None => false
        end,
   {| e2e_self_signing_keys := e2e_self_signing_keys st;
      e2e_user_signing_keys := e2e_user_signing_keys st;
      e2e_device_keys := dict_set2 user_id device_id info (e2e_device_keys st);
      e2e_one_time_keys := e2e_one_time_keys st;
      e2e_device_signatures := e2e_device_signatures st |}).

Definition toy_count_e2e_one_time_keys (st : store) (user_id device_id : string)
  : json :=
  JNum (Z.of_nat (length (filter (fun r => String.eqb (otk_user r) user_id
                                           && String.eqb (otk_device r) device_id)
                            (e2e_one_time_keys st)))).

(** New device keys together with a changed one-time key. *)
Definition keys_with_conflict : json :=
  JObj [("device_keys", JObj device_keys_xyz);
        ("one_time_keys", JObj [("alg1:k1", JStr "key2")])].

(** [store_two_devices] with a device of another user whose keys are a
    string. *)
Definition store_mixed_devices : store :=
  snd (toy_set_e2e_device_keys store_two_devices "@mallory:test" "dev" 0
         (JStr "abc")).

(** * Properties *)

(** ** Dictionaries *)

Lemma dict_get_set_same {V : Type} (k : string) (v : V) (d : dict V) :
  dict_get k (dict_set k v d) = Some v.
Proof.
  induction d as [|[k' v'] d IH]; simpl.
  - now rewrite String.eqb_refl.
  - destruct (String.eqb k k') eqn:E; simpl; rewrite E; auto.
Qed.

Lemma dict_get_set_other {V : Type} (k k' : string) (v : V) (d : dict V) :
  k <> k' -> dict_get k' (dict_set k v d) = dict_get k' d.
Proof.
  intros Hne. induction d as [|[k0 v0] d IH]; simpl.
  - destruct (String.eqb k' k) eqn:E; auto.
    apply String.eqb_eq in E. congruence.
  - destruct (String.eqb k k0) eqn:E; simpl.
    + apply String.eqb_eq in E. subst k0.
      destruct (String.eqb k' k) eqn:E'; auto.
      apply String.eqb_eq in E'. congruence.
    + destruct (String.eqb k' k0); auto.
Qed.

Lemma dict_mem_get {V : Type} (k : string) (d : dict V) :
  dict_mem k d = false -> dict_get k d = None.
Proof. unfold dict_mem. destruct (dict_get k d); congruence. Qed.


Lemma dict_get_not_in {V : Type} (k : string) (d : dict V) :
  ~ In k (dict_keys d) -> dict_get k d = None.
Proof.
  induction d as [|[k' v] d IH]; simpl; auto.
  intros Hn. destruct (String.eqb k k') eqn:E.
  - apply String.eqb_eq in E. subst. tauto.
  - apply IH. tauto.
Qed.

Lemma dict_get2_set2_same {V : Type} (k1 k2 : string) (v : V) (m : dict (dict V)) :
  dict_get2 k1 k2 (dict_set2 k1 k2 v m) = Some v.
Proof.
  unfold dict_get2, dict_set2. rewrite dict_get_set_same.
  apply dict_get_set_same.
Qed.

Lemma dict_get2_set2_other {V : Type} (k1 k2 k1' k2' : string) (v : V)
  (m : dict (dict V)) :
  k1 <> k1' \/ k2 <> k2' ->
  dict_get2 k1' k2' (dict_set2 k1 k2 v m) = dict_get2 k1' k2' m.
Proof.
  intros Hne. unfold dict_get2, dict_set2.
  destruct (string_dec k1 k1') as [<-|Hk1].
  - rewrite dict_get_set_same.
    destruct Hne as [Hne|Hne]; [congruence|].
    rewrite dict_get_set_other by assumption.
    destruct (dict_get k1 m); reflexivity.
  - now rewrite dict_get_set_other.
Qed.


Lemma dict_get_In {V : Type} (k : string) (d : dict V) (v : V) :
  dict_get k d = Some v -> In (k, v) d.
Proof.
  induction d as [|[k' v'] d IH]; simpl; [discriminate|].
  destruct (String.eqb k k') eqn:E.
  - apply String.eqb_eq in E. subst. intros [= ->]. now left.
  - intros H. right. now apply IH.
Qed.

Lemma dict_set_In {V : Type} (k k' : string) (v v' : V) (d : dict V) :
  In (k', v') (dict_set k v d) -> (k' = k /\ v' = v) \/ In (k', v') d.
Proof.
  induction d as [|[k0 v0] d IH]; simpl.
  - intros [[= <- <-]|[]]. now left.
  - destruct (String.eqb k k0) eqn:E; simpl.
    + apply String.eqb_eq in E. subst k0.
      intros [[= <- <-]|H]; [now left|right; now right].
    + intros [H|H]; [right; now left|].
      destruct (IH H) as [?|?]; [now left|right; now right].
Qed.

Lemma dict_set_not_nil {V : Type} (k : string) (v : V) (d : dict V) :
  dict_set k v d <> [].
Proof.
  destruct d as [|[k0 v0] d]; simpl; [discriminate|].
  destruct (String.eqb k k0); discriminate.
Qed.

Lemma dict_mem_set {V : Type} (k k' : string) (v : V) (d : dict V) :
  dict_mem k' d = true -> dict_mem k' (dict_set k v d) = true.
Proof.
  unfold dict_mem. destruct (string_dec k k') as [<-|Hne].
  - now rewrite dict_get_set_same.
  - now rewrite dict_get_set_other.
Qed.

Lemma dict_mem_In {V : Type} (k : string) (d : dict V) :
  dict_mem k d = true -> In k (dict_keys d).
Proof.
  unfold dict_mem. destruct (dict_get k d) as [v|] eqn:E; [|discriminate].
  intros _. apply dict_get_In in E. now apply (in_map fst) in E.
Qed.


Lemma py_in_obj (k : string) (d : dict json) :
  py_in k (PVal (JObj d)) = Ok (dict_mem k d).
Proof. reflexivity. Qed.

Lemma py_getitem_some (k : string) (d : dict json) (v : json) :
  dict_get k d = Some v -> py_getitem (PVal (JObj d)) k = Ok v.
Proof. intros H. simpl. now rewrite H. Qed.

Lemma dict_get_mem {V : Type} (k : string) (d : dict V) (v : V) :
  dict_get k d = Some v -> dict_mem k d = true.
Proof. unfold dict_mem. now intros ->. Qed.

Lemma bind_ok {A B : Type} (a : A) (k : A -> result B) : bind (Ok a) k = k a.
Proof. reflexivity. Qed.

Lemma bind_ok_inv {A B : Type} (r : result A) (k : A -> result B) (b : B) :
  bind r k = Ok b -> exists a, r = Ok a /\ k a = Ok b.
Proof. destruct r as [a|e]; simpl; [eauto|discriminate]. Qed.

Lemma bind_raise_inv {A B : Type} (r : result A) (k : A -> result B) (e : exn) :
  bind r k = Raise e -> r = Raise e \/ exists a, r = Ok a /\ k a = Raise e.
Proof. destruct r as [a|e']; simpl; [eauto|intros [= ->]; now left]. Qed.


(** ** Equality of dictionaries *)

Lemma py_eqb_obj (d e : dict json) :
  py_eqb (JObj d) (JObj e)
  = Nat.eqb (length d) (length e)
    && forallb (fun kv => match dict_get (fst kv) e with
                          | Some w => py_eqb (snd kv) w
                          | None => false
                          end) d.
Proof.
  simpl. f_equal. induction d as [|[k v] d IH]; simpl; [reflexivity|].
  destruct (dict_get k e); [|reflexivity]. now rewrite IH.
Qed.

Lemma unique_NoDup (l : list string) : unique l = true -> NoDup l.
Proof.
  induction l as [|x l IH]; simpl; [constructor|].
  intros H. apply andb_true_iff in H as [Hx Hl]. constructor; auto.
  intros Hin. apply negb_true_iff in Hx.
  assert (existsb (String.eqb x) l = true); [|congruence].
  apply existsb_exists. exists x. split; auto. apply String.eqb_refl.
Qed.

Lemma dict_get_del_other {V : Type} (k k' : string) (d : dict V) :
  k <> k' -> dict_get k' (dict_del k d) = dict_get k' d.
Proof.
  intros Hne. induction d as [|[k0 v0] d IH]; simpl; auto.
  destruct (String.eqb k k0) eqn:E.
  - apply String.eqb_eq in E. subst k0.
    destruct (String.eqb k' k) eqn:E'; auto.
    apply String.eqb_eq in E'. congruence.
  - simpl. now rewrite IH.
Qed.

Lemma dict_del_In {V : Type} (k k' : string) (v : V) (d : dict V) :
  In (k', v) (dict_del k d) -> k <> k' /\ In (k', v) d.
Proof.
  induction d as [|[k0 v0] d IH]; simpl; [tauto|].
  destruct (String.eqb k k0) eqn:E.
  - intros H. destruct (IH H). tauto.
  - intros [[= <- <-]|H].
    + split; [|now left]. intros ->. now rewrite String.eqb_refl in E.
    + destruct (IH H). tauto.
Qed.

Lemma dict_del_absent {V : Type} (k : string) (d : dict V) :
  ~ In k (dict_keys d) -> dict_del k d = d.
Proof.
  induction d as [|[k0 v0] d IH]; simpl; auto.
  intros Hn. destruct (String.eqb k k0) eqn:E.
  - apply String.eqb_eq in E. subst k0. exfalso. apply Hn. now left.
  - f_equal. apply IH. intros Hin. apply Hn. now right.
Qed.

Lemma dict_del_length {V : Type} (k : string) (d : dict V) :
  NoDup (dict_keys d) ->
  length (dict_del k d)
  = (length d - (if dict_mem k d then 1 else 0))%nat.
Proof.
  unfold dict_mem. induction d as [|[k0 v0] d IH]; simpl; auto.
  intros Hnd. inversion Hnd as [|? ? Hnotin Hnd']; subst.
  destruct (String.eqb k k0) eqn:E.
  - apply String.eqb_eq in E. subst k0.
    rewrite dict_del_absent by assumption. lia.
  - simpl. rewrite IH by assumption.
    destruct (dict_get k d) eqn:Eg; [|lia].
    apply dict_get_In in Eg. destruct d; [destruct Eg|simpl; lia].
Qed.

Lemma In_dict_mem {V : Type} (k : string) (d : dict V) :
  In k (dict_keys d) -> dict_mem k d = true.
Proof.
  unfold dict_mem. induction d as [|[k0 v0] d IH]; simpl; [tauto|].
  destruct (String.eqb k k0) eqn:E; [reflexivity|].
  intros [->|Hin]; [now rewrite String.eqb_refl in E|auto].
Qed.

Lemma py_eqb_obj_keys (d e : dict json) :
  py_eqb (JObj d) (JObj e) = true ->
  length d = length e /\ incl (dict_keys d) (dict_keys e).
Proof.
  rewrite py_eqb_obj. intros H. apply andb_true_iff in H as [Hlen Hall].
  split; [now apply Nat.eqb_eq|].
  intros k Hk. unfold dict_keys in Hk. apply in_map_iff in Hk as ([k' v] & <- & Hin).
  rewrite forallb_forall in Hall. specialize (Hall _ Hin). simpl in Hall.
  apply dict_mem_In. unfold dict_mem. simpl.
  destruct (dict_get k' e); [reflexivity|discriminate].
Qed.

(** Equal dictionaries stay equal when the same key is taken out of both. *)
Lemma py_eqb_obj_del (k : string) (d e : dict json) :
  NoDup (dict_keys d) -> NoDup (dict_keys e) ->
  py_eqb (JObj d) (JObj e) = true ->
  py_eqb (JObj (dict_del k d)) (JObj (dict_del k e)) = true.
Proof.
  intros Hd He Heq. destruct (py_eqb_obj_keys d e Heq) as [Hlen Hincl].
  assert (Hincl' : incl (dict_keys e) (dict_keys d)).
  { apply NoDup_length_incl; auto. unfold dict_keys. rewrite !length_map. lia. }
  rewrite py_eqb_obj in Heq |- *. apply andb_true_iff in Heq as [_ Hall].
  apply andb_true_iff. split.
  - apply Nat.eqb_eq. rewrite !dict_del_length by assumption.
    assert (Hmem : dict_mem k d = dict_mem k e).
    { destruct (dict_mem k d) eqn:E1, (dict_mem k e) eqn:E2; auto.
      - apply dict_mem_In, Hincl, In_dict_mem in E1. congruence.
      - apply dict_mem_In, Hincl', In_dict_mem in E2. congruence. }
    rewrite Hmem, Hlen. reflexivity.
  - apply forallb_forall. intros [k' v] Hin. simpl.
    apply dict_del_In in Hin as [Hne Hin].
    rewrite dict_get_del_other by assumption.
    rewrite forallb_forall in Hall. exact (Hall _ Hin).
Qed.

(** ** One-time keys *)

(** ** Splitting key ids *)

Lemma str_split_not_nil (sep : ascii) (s : string) : str_split sep s <> [].
Proof.
  destruct s as [|c s]; simpl; [discriminate|].
  destruct (Ascii.eqb c sep); [discriminate|].
  destruct (str_split sep s); discriminate.
Qed.

Lemma str_split_single (sep : ascii) (s b : string) :
  str_split sep s = [b] -> s = b.
Proof.
  revert b. induction s as [|c s IH]; intros b; simpl.
  - now intros [= <-].
  - destruct (Ascii.eqb c sep).
    + intros [= _ H]. now apply str_split_not_nil in H.
    + destruct (str_split sep s) as [|w ws] eqn:E.
      * now apply str_split_not_nil in E.
      * intros [= <- ->]. f_equal. now apply IH.
Qed.

Lemma str_split_join (s a b : string) :
  str_split colon s = [a; b] -> s = a ++ ":" ++ b.
Proof.
  revert a. induction s as [|c s IH]; intros a; simpl; [discriminate|].
  destruct (Ascii.eqb c colon) eqn:Ec.
  - apply Ascii.eqb_eq in Ec. subst c. intros [= <- H].
    apply str_split_single in H. now subst.
  - destruct (str_split colon s) as [|w ws] eqn:E; [discriminate|].
    intros [= <- ->]. simpl. f_equal. now apply IH.
Qed.

Section OneTimeKeys.
Context {env : Env}.

(** The code's comparison is the conflict rule of the specification. *)
Lemma one_time_keys_match_rule (text : string) (old_key new_key : json) :
  json_loads text = Some old_key ->
  _one_time_keys_match text new_key = Ok (conflict_rule_match old_key new_key).
Proof.
  unfold _one_time_keys_match. intros ->.
  destruct old_key, new_key; reflexivity.
Qed.

Lemma rule_of_equal (v key : json) :
  py_eqb v key = true ->
  unique_keys v = true -> unique_keys key = true ->
  conflict_rule_match v key = true.
Proof.
  destruct v, key; simpl conflict_rule_match; auto; try discriminate.
  intros Heq Hv Hk. simpl in Hv, Hk.
  apply py_eqb_obj_del; auto using unique_NoDup.
Qed.

Lemma make_key_list_keys (one_time_keys : dict json) :
  forall key_list,
    make_key_list one_time_keys = Ok key_list ->
    map (fun p => fst p ++ ":" ++ snd p) (pairs key_list)
    = dict_keys one_time_keys.
Proof.
  induction one_time_keys as [|[key_id key_obj] rest IH]; intros kl; simpl.
  - now intros [= <-].
  - destruct (str_split colon key_id) as [|a [|k [|x l]]] eqn:Es;
      try discriminate.
    destruct (make_key_list rest) as [tl|]; [|discriminate].
    simpl. intros [= <-]. simpl. f_equal; [|now apply IH].
    symmetry. now apply str_split_join.
Qed.

Lemma make_key_list_pairs (one_time_keys : dict json) key_list :
  make_key_list one_time_keys = Ok key_list ->
  NoDup (dict_keys one_time_keys) ->
  NoDup (pairs key_list).
Proof.
  intros Hk Hnd. rewrite <- (make_key_list_keys _ _ Hk) in Hnd.
  now apply NoDup_map_inv in Hnd.
Qed.

Lemma decode_ascii_ok (b : string) : is_ascii b = true -> decode_ascii b = Ok b.
Proof. unfold decode_ascii. now intros ->. Qed.

Lemma str_split_no_sep (sep : ascii) (s : string) :
  count_char sep s = 0%nat -> str_split sep s = [s].
Proof.
  induction s as [|c s IH]; simpl; [reflexivity|].
  destruct (Ascii.eqb c sep); [discriminate|].
  intros H. now rewrite (IH H).
Qed.

Lemma str_split_two (sep : ascii) (a b : string) :
  count_char sep a = 0%nat -> count_char sep b = 0%nat ->
  str_split sep (a ++ String sep b) = [a; b].
Proof.
  intros Ha Hb. induction a as [|c a IH]; simpl.
  - now rewrite Ascii.eqb_refl, (str_split_no_sep _ _ Hb).
  - simpl in Ha. destruct (Ascii.eqb c sep); [discriminate|].
    now rewrite (IH Ha).
Qed.

(** An upload made of algorithms and key ids without a colon splits into
    them again. *)
Lemma make_key_list_upload_of (key_list : list (string * string * json)) :
  colon_free key_list = true ->
  make_key_list (upload_of key_list) = Ok key_list.
Proof.
  induction key_list as [|[[a k] key] rest IH]; simpl; [reflexivity|].
  intros H. apply andb_true_iff in H as [Hhead Hrest].
  apply andb_true_iff in Hhead as [Ha Hk].
  apply Nat.eqb_eq in Ha, Hk.
  pose proof (str_split_two colon a k Ha Hk) as Hsplit.
  change (String ":" k) with (String colon k). rewrite Hsplit.
  now rewrite (IH Hrest).
Qed.

Lemma collect_new_keys_spec (E : list (string * string * string))
  (key_list : list (string * string * json)) :
  stored_texts_ok E key_list = true ->
  new_keys_ascii E key_list = true ->
  if conflicts E key_list
  then exists msg, collect_new_keys E key_list = Raise (SynapseError 400 msg)
  else collect_new_keys E key_list = Ok (keys_to_insert E key_list).
Proof.
  induction key_list as [|[[a k] key] rest IH]; simpl; [reflexivity|].
  intros Hok Hascii. apply andb_true_iff in Hok as [Hhead Hrest].
  apply andb_true_iff in Hascii as [Hahead Harest].
  specialize (IH Hrest Harest).
  destruct (key_map_get a k E) as [text|] eqn:Eg; simpl.
  - apply andb_true_iff in Hhead as [Hne Hparse]. rewrite Hne.
    destruct (json_loads text) as [old|] eqn:El; [|discriminate].
    rewrite (one_time_keys_match_rule _ _ _ El), bind_ok.
    destruct (conflict_rule_match old key); simpl; [exact IH|eauto].
  - rewrite (decode_ascii_ok _ Hahead), bind_ok.
    destruct (conflicts E rest).
    + destruct IH as [msg ->]. simpl. eauto.
    + now rewrite IH.
Qed.

Lemma key_map_get_app (a k : string) (E N : list (string * string * string)) :
  key_map_get a k (E ++ N)
  = match key_map_get a k E with
    | Some t => Some t
    | None => key_map_get a k N
    end.
Proof.
  induction E as [|[[a' k'] t] E IH]; simpl; [reflexivity|].
  destruct (String.eqb a a' && String.eqb k k'); auto.
Qed.

Lemma keys_to_insert_ids (E : list (string * string * string)) key_list :
  forall a k t, In (a, k, t) (keys_to_insert E key_list) ->
                In k (key_ids key_list).
Proof.
  induction key_list as [|[[a0 k0] key0] rest IH]; simpl; [tauto|].
  intros a k t. destruct (key_map_get a0 k0 E).
  - intros H. right. eapply IH; eauto.
  - intros [[= <- <- <-]|H]; [now left|right; eapply IH; eauto].
Qed.

(** After the upload the store holds what it held, then the new keys. *)
Lemma get_after_add (st : store) (user_id device_id : string) (time_now : Z)
  (new_keys : list (string * string * string)) (ids : list string) :
  (forall a k t, In (a, k, t) new_keys -> In k ids) ->
  get_e2e_one_time_keys
    (add_e2e_one_time_keys st user_id device_id time_now new_keys)
    user_id device_id ids
  = (get_e2e_one_time_keys st user_id device_id ids ++ new_keys)%list.
Proof.
  intros Hids. unfold get_e2e_one_time_keys, add_e2e_one_time_keys. simpl.
  rewrite filter_app, map_app. f_equal.
  induction new_keys as [|[[a k] t] rest IH]; simpl; [reflexivity|].
  rewrite !String.eqb_refl. simpl.
  assert (Hk : existsb (String.eqb k) ids = true).
  { apply existsb_exists. exists k. split; [|apply String.eqb_refl].
    apply (Hids a k t). now left. }
  rewrite Hk. simpl. f_equal. apply IH.
  intros a' k' t' Hin. apply (Hids a' k' t'). now right.
Qed.

Lemma add_nothing (st : store) (user_id device_id : string) (time_now : Z) :
  add_e2e_one_time_keys st user_id device_id time_now [] = st.
Proof.
  destruct st. unfold add_e2e_one_time_keys. simpl. now rewrite app_nil_r.
Qed.

Lemma key_map_get_inserted (E : list (string * string * string)) key_list :
  NoDup (pairs key_list) ->
  forall a k key,
    In (a, k, key) key_list ->
    key_map_get a k E = None ->
    key_map_get a k (keys_to_insert E key_list)
    = Some (encode_canonical_json key).
Proof.
  induction key_list as [|[[a0 k0] key0] rest IH]; simpl; [tauto|].
  intros Hnd a k key Hin Hnone.
  inversion Hnd as [|? ? Hnotin Hnd']; subst.
  destruct Hin as [[= -> -> ->]|Hin].
  - rewrite Hnone. simpl. now rewrite !String.eqb_refl.
  - assert (Hne : (a0, k0) <> (a, k)).
    { intros [= -> ->]. apply Hnotin. unfold pairs.
      apply in_map_iff. now exists (a, k, key). }
    assert (Hb : String.eqb a a0 && String.eqb k k0 = false).
    { apply andb_false_iff.
      destruct (String.eqb a a0) eqn:Ea; [|now left].
      destruct (String.eqb k k0) eqn:Ek; [|now right].
      apply String.eqb_eq in Ea, Ek. congruence. }
    destruct (key_map_get a0 k0 E); simpl; [|rewrite Hb]; now apply IH.
Qed.

Lemma collect_all_stored (E : list (string * string * string)) key_list :
  (forall a k key, In (a, k, key) key_list ->
     exists text old,
       key_map_get a k E = Some text
       /\ String.eqb text "" = false
       /\ json_loads text = Some old
       /\ conflict_rule_match old key = true) ->
  collect_new_keys E key_list = Ok [].
Proof.
  induction key_list as [|[[a k] key] rest IH]; simpl; [reflexivity|].
  intros H. destruct (H a k key (or_introl eq_refl))
    as (text & old & -> & Hne & Hl & Hm).
  simpl. rewrite Hne. simpl.
  rewrite (one_time_keys_match_rule _ _ _ Hl), bind_ok, Hm. simpl.
  apply IH. intros a' k' key' Hin. apply H. now right.
Qed.

Lemma no_conflict_entry (E : list (string * string * string)) key_list :
  conflicts E key_list = false ->
  forall a k key text old,
    In (a, k, key) key_list ->
    key_map_get a k E = Some text ->
    json_loads text = Some old ->
    conflict_rule_match old key = true.
Proof.
  intros Hc a k key text old Hin Hg Hl.
  destruct (conflict_rule_match old key) eqn:Em; [reflexivity|].
  assert (conflicts E key_list = true); [|congruence].
  apply existsb_exists. exists (a, k, key). split; [exact Hin|].
  now rewrite Hg, Hl, Em.
Qed.
End OneTimeKeys.

(** C3 (amended).  An upload of one-time keys whose algorithms and key ids
    have no colon in them, against a store whose texts for these keys are
    JSON, the canonical JSON of the keys not yet stored being ASCII: the
    upload raises the client error 400 exactly when some key is stored with
    a value that differs from the new one under the conflict rule.  When
    none differs the upload succeeds and inserts only the keys that were
    not stored, so it changes nothing when all were; and the same upload
    made again succeeds and leaves the store as the first one left it. *)
Theorem one_time_key_upload_conflict_rule :
  forall (env : Env) (st : store) (user_id device_id : string)
         (time_now time_later : Z)
         (key_list : list (string * string * json)),
    colon_free key_list = true ->
    let one_time_keys := upload_of key_list in
    let existing_key_map :=
      get_e2e_one_time_keys st user_id device_id (key_ids key_list) in
    let upload :=
      _upload_one_time_keys_for_user st user_id device_id time_now one_time_keys in
    stored_texts_ok existing_key_map key_list = true ->
    new_keys_ascii existing_key_map key_list = true ->
    is_client_error (fst upload) = conflicts existing_key_map key_list
    /\ (conflicts existing_key_map key_list = false ->
        upload = (Ok tt,
                  add_e2e_one_time_keys st user_id device_id time_now
                    (keys_to_insert existing_key_map key_list))
        /\ (keys_to_insert existing_key_map key_list = [] -> snd upload = st)
        /\ (NoDup (pairs key_list) ->
            forallb (fun '(_, _, key) => round_trips key) key_list = true ->
            _upload_one_time_keys_for_user (snd upload) user_id device_id
              time_later one_time_keys
            = (Ok tt, snd upload))).
Proof.
  intros env st u d t t' kl Hfree otks E up Hok Hascii.
  pose proof (make_key_list_upload_of kl Hfree) as Hkl. fold otks in Hkl.
  assert (Hup : up = match collect_new_keys E kl with
                     | Raise e => (Raise e, st)
                     | Ok new_keys =>
                         (Ok tt, add_e2e_one_time_keys st u d t new_keys)
                     end).
  { unfold up, _upload_one_time_keys_for_user. now rewrite Hkl. }
  pose proof (collect_new_keys_spec E kl Hok Hascii) as Hspec.
  destruct (conflicts E kl) eqn:Ec.
  - destruct Hspec as [msg Hc]. rewrite Hup, Hc. split; [reflexivity|discriminate].
  - rewrite Hup, Hspec. split; [reflexivity|]. intros _.
    split; [reflexivity|]. split.
    + intros ->. apply add_nothing.
    + intros Hnd Hrt. cbn [snd].
      unfold _upload_one_time_keys_for_user. rewrite Hkl, bind_ok.
      fold (key_ids kl).
      rewrite get_after_add by apply keys_to_insert_ids. fold E.
      rewrite collect_all_stored; [now rewrite add_nothing|].
      intros a k key Hin. rewrite key_map_get_app.
      destruct (key_map_get a k E) as [text|] eqn:Eg.
      * unfold stored_texts_ok in Hok. rewrite forallb_forall in Hok.
        specialize (Hok _ Hin). cbv beta iota in Hok. rewrite Eg in Hok.
        apply andb_true_iff in Hok as [Hne Hparse].
        destruct (json_loads text) as [old|] eqn:El; [|discriminate].
        exists text, old. repeat split; auto.
        -- now apply negb_true_iff.
        -- eapply no_conflict_entry; eauto.
      * rewrite (key_map_get_inserted E kl Hnd a k key Hin Eg).
        rewrite forallb_forall in Hrt. specialize (Hrt _ Hin).
        cbv beta iota in Hrt. unfold round_trips in Hrt.
        apply andb_true_iff in Hrt as [Hrt Hload].
        apply andb_true_iff in Hrt as [Hne Huk].
        destruct (json_loads (encode_canonical_json key)) as [v|] eqn:El;
          [|discriminate].
        apply andb_true_iff in Hload as [Heq Huv].
        exists (encode_canonical_json key), v. repeat split; auto.
        -- now apply negb_true_iff.
        -- now apply rule_of_equal.
Qed.

(** The uploads of [test_change_one_time_keys] and
    [test_reupload_one_time_keys]: a key with another value is refused, the
    keys with other signatures are accepted and nothing is written. *)
Lemma one_time_key_upload_conflict_rule_witness :
  is_client_error
    (fst (_upload_one_time_keys_for_user otk_store1 boris "xyz" 1
            [("alg1:k1", JStr "key2")])) = true
  /\ let upload :=
       _upload_one_time_keys_for_user otk_store1 boris "xyz" 1
         (one_time_keys_sig "sig2") in
     is_client_error (fst upload) = false
     /\ upload = (Ok tt, otk_store1)
     /\ _upload_one_time_keys_for_user (snd upload) boris "xyz" 2
          (one_time_keys_sig "sig2") = (Ok tt, snd upload).
Proof.
  split.
  - exact (proj1 (one_time_key_upload_conflict_rule toy_env otk_store1 boris
                    "xyz" 1 2 [("alg1", "k1", JStr "key2")]
                    eq_refl eq_refl eq_refl)).
  - destruct (one_time_key_upload_conflict_rule toy_env otk_store1 boris "xyz"
                1 2
                [ ("alg1", "k1", JStr "key1");
                  ("alg2", "k2", JObj [("key", JStr "key2");
                                       ("signatures", JObj [("k1", JStr "sig2")])]);
                  ("alg2", "k3", JObj [("key", JStr "key3")]) ]
                eq_refl eq_refl eq_refl) as [Herr Hrest].
    destruct (Hrest eq_refl) as (Hup & Hnoop & Hidem).
    cbv zeta. split; [exact Herr|]. split.
    + exact Hup.
    + apply Hidem; [|reflexivity].
      repeat constructor; simpl; intuition discriminate.
Defined.

(** A key that is stored with another value, in an upload with a key id
    that has no colon: the upload ends at line 332, and no client error
    tells of the conflict.  And a key that is stored with the same value, in
    an upload with a new key whose canonical JSON is not ASCII: the upload
    ends at line 355 and does not succeed. *)
Lemma stored_key_beside_unusable_key :
  key_map_get "alg1" "k1" (get_e2e_one_time_keys otk_store1 boris "xyz" ["k1"])
  = Some (quoted "key1")
  /\ _one_time_keys_match (quoted "key1") (JStr "key2") = Ok false
  /\ _one_time_keys_match (quoted "key1") (JStr "key1") = Ok true
  /\ (let upload :=
        _upload_one_time_keys_for_user otk_store1 boris "xyz" 1
          [("alg1:k1", JStr "key2"); ("curve25519", JStr "key1")] in
      upload
      = (Raise (ValueError "not enough values to unpack (expected 2, got 1)"),
         otk_store1)
      /\ is_client_error (fst upload) = false)
  /\ _upload_one_time_keys_for_user otk_store1 boris "xyz" 1
       [("alg1:k1", JStr "key1"); ("alg1:k0", JStr cle)]
     = (Raise (UnicodeDecodeError "ordinal not in range(128)"), otk_store1).
Proof. repeat split; reflexivity. Qed.

(** ** Claimed keys *)

Section Claim.
Context {env : Env}.

Lemma all_single_set2 (u d key_id : string) (v : json) json_result :
  all_single json_result ->
  all_single (dict_set2 u d [(key_id, v)] json_result).
Proof.
  intros Hall u' d' m.
  destruct (string_dec u u') as [<-|Hu];
    [destruct (string_dec d d') as [<-|Hd]|].
  - rewrite dict_get2_set2_same. now intros [= <-].
  - rewrite dict_get2_set2_other by auto. apply Hall.
  - rewrite dict_get2_set2_other by auto. apply Hall.
Qed.

Lemma claim_keys_spec (u d : string) (keys : dict string) :
  forall json_result,
    keys_parse keys = true ->
    exists json_result',
      claim_keys u d keys json_result = Ok json_result'
      /\ (all_single json_result -> all_single json_result')
      /\ dict_get2 u d json_result' = claimed keys (dict_get2 u d json_result)
      /\ (forall u' d', u <> u' \/ d <> d' ->
            dict_get2 u' d' json_result' = dict_get2 u' d' json_result).
Proof.
  induction keys as [|[key_id text] rest IH]; intros json_result Hp.
  - exists json_result. repeat split; auto.
  - simpl in Hp. apply andb_true_iff in Hp as [Ht Hrest].
    simpl claim_keys. destruct (json_loads text) as [v|] eqn:Ev; [|discriminate].
    destruct (IH (dict_set2 u d [(key_id, v)] json_result) Hrest)
      as (jr' & Hrun & Hsingle & Hsame & Hother).
    exists jr'. split; [exact Hrun|]. split; [|split].
    + intros Hall. apply Hsingle. now apply all_single_set2.
    + rewrite Hsame, dict_get2_set2_same. unfold claimed.
      destruct rest as [|kt rest']; simpl; [now rewrite Ev|].
      destruct (match rest' with [] => Some kt | _ :: _ => last_item rest' end)
        as [[k t]|] eqn:El; [reflexivity|].
      exfalso. clear -El. revert kt El.
      induction rest' as [|x r IHr]; intros kt El; [discriminate|].
      simpl in El. apply (IHr x). exact El.
    + intros u' d' Hne. rewrite Hother by assumption.
      now apply dict_get2_set2_other.
Qed.

Lemma claim_devices_spec (u : string) (device_keys : dict (dict string)) :
  forall json_result,
    devices_parse device_keys = true ->
    exists json_result',
      claim_devices u device_keys json_result = Ok json_result'
      /\ (all_single json_result -> all_single json_result')
      /\ (forall u' d, u <> u' ->
            dict_get2 u' d json_result' = dict_get2 u' d json_result)
      /\ (forall d, dict_get d device_keys = None ->
            dict_get2 u d json_result' = dict_get2 u d json_result)
      /\ (NoDup (dict_keys device_keys) ->
          forall d keys, dict_get d device_keys = Some keys ->
            dict_get2 u d json_result' = claimed keys (dict_get2 u d json_result)).
Proof.
  induction device_keys as [|[d0 keys0] rest IH]; intros json_result Hp.
  - exists json_result. repeat split; auto. discriminate.
  - simpl in Hp. apply andb_true_iff in Hp as [Hk Hrest].
    destruct (claim_keys_spec u d0 keys0 json_result Hk)
      as (jr1 & Hrun1 & Hsingle1 & Hsame1 & Hother1).
    destruct (IH jr1 Hrest) as (jr2 & Hrun2 & Hsingle2 & Hu2 & Hnone2 & Hsome2).
    exists jr2. simpl claim_devices. rewrite Hrun1. simpl bind.
    split; [exact Hrun2|]. split; [auto|]. split; [|split].
    + intros u' d Hne. rewrite Hu2 by assumption. apply Hother1. auto.
    + intros d. simpl. destruct (String.eqb d d0) eqn:E; [discriminate|].
      intros Hn. rewrite Hnone2 by assumption. apply Hother1.
      right. intros ->. now rewrite String.eqb_refl in E.
    + intros Hnd d keys. simpl in Hnd. inversion Hnd as [|? ? Hnotin Hnd']; subst.
      simpl. destruct (String.eqb d d0) eqn:E.
      * apply String.eqb_eq in E. subst d0. intros [= <-].
        rewrite Hnone2 by now apply dict_get_not_in. exact Hsame1.
      * intros Hget. rewrite (Hsome2 Hnd' d keys Hget).
        f_equal. apply Hother1. right. intros ->.
        now rewrite String.eqb_refl in E.
Qed.

Lemma claim_users_spec (results : dict (dict (dict string))) :
  forall json_result,
    texts_parse results = true ->
    exists json_result',
      claim_users results json_result = Ok json_result'
      /\ (all_single json_result -> all_single json_result')
      /\ (forall u d, dict_get u results = None ->
            dict_get2 u d json_result' = dict_get2 u d json_result)
      /\ (NoDup (dict_keys results) ->
          forall u device_keys d keys,
            dict_get u results = Some device_keys ->
            NoDup (dict_keys device_keys) ->
            dict_get d device_keys = Some keys ->
            dict_get2 u d json_result' = claimed keys (dict_get2 u d json_result)).
Proof.
  induction results as [|[u0 dk0] rest IH]; intros json_result Hp.
  - exists json_result. repeat split; auto. discriminate.
  - simpl in Hp. apply andb_true_iff in Hp as [Hk Hrest].
    destruct (claim_devices_spec u0 dk0 json_result Hk)
      as (jr1 & Hrun1 & Hsingle1 & Hu1 & Hnone1 & Hsome1).
    destruct (IH jr1 Hrest) as (jr2 & Hrun2 & Hsingle2 & Hnone2 & Hsome2).
    exists jr2. simpl claim_users. rewrite Hrun1. simpl bind.
    split; [exact Hrun2|]. split; [auto|]. split.
    + intros u d. simpl. destruct (String.eqb u u0) eqn:E; [discriminate|].
      intros Hn. rewrite Hnone2 by assumption. apply Hu1.
      intros ->. now rewrite String.eqb_refl in E.
    + intros Hnd u device_keys d keys. simpl in Hnd.
      inversion Hnd as [|? ? Hnotin Hnd']; subst.
      simpl. destruct (String.eqb u u0) eqn:E.
      * apply String.eqb_eq in E. subst u0. intros [= <-] Hndd Hget.
        rewrite Hnone2 by now apply dict_get_not_in.
        now apply Hsome1.
      * intros Hgu Hndd Hget. rewrite (Hsome2 Hnd' u device_keys d keys Hgu Hndd Hget).
        f_equal. apply Hu1. intros ->. now rewrite String.eqb_refl in E.
Qed.
End Claim.

(** C10.  In [claim_one_time_keys] the response for a device of a local
    user holds exactly one key, and it is the last key the store returned
    for that device, in the order of iteration; the keys before it are
    dropped. *)
Theorem claim_keeps_last_key_only :
  forall (env : Env) (results : dict (dict (dict string))),
    texts_parse results = true ->
    exists json_result,
      claim_one_time_keys_local results = Ok json_result
      /\ (forall user_id device_id keys,
            dict_get2 user_id device_id json_result = Some keys ->
            length keys = 1%nat)
      /\ (NoDup (dict_keys results) ->
          forall user_id device_keys device_id keys,
            dict_get user_id results = Some device_keys ->
            NoDup (dict_keys device_keys) ->
            dict_get device_id device_keys = Some keys ->
            dict_get2 user_id device_id json_result
            = match last_item keys with
              | Some (key_id, text) =>
                  option_map (fun v => [(key_id, v)]) (json_loads text)
              | None => None
              end).
Proof.
  intros env results Hp.
  destruct (claim_users_spec results [] Hp) as (jr & Hrun & Hsingle & _ & Hsome).
  exists jr. split; [exact Hrun|]. split.
  - apply Hsingle. intros u d m. discriminate.
  - intros Hnd u dk d keys Hu Hndd Hd.
    now rewrite (Hsome Hnd u dk d keys Hu Hndd Hd).
Qed.


Lemma claim_keeps_last_key_only_witness :
  exists json_result,
    claim_one_time_keys_local two_claimed_keys = Ok json_result
    /\ dict_get2 boris "xyz" json_result = Some [("alg1:k2", JStr "key2")].
Proof.
  destruct (claim_keeps_last_key_only toy_env two_claimed_keys eq_refl)
    as (jr & Hrun & _ & Hlast).
  exists jr. split; [exact Hrun|].
  apply (Hlast ltac:(repeat constructor; simpl; tauto) boris
           [("xyz", [("alg1:k1", quoted "key1"); ("alg1:k2", quoted "key2")])]
           "xyz" [("alg1:k1", quoted "key1"); ("alg1:k2", quoted "key2")]
           eq_refl ltac:(repeat constructor; simpl; tauto) eq_refl).
Defined.

(** ** Federation fan-out *)

Lemma exception_to_failure_cases (e : py_exception) :
  _exception_to_failure e =
  if isinstance_CodeMessageException e
  then {| status := exc_code e; message := exc_str e |}
  else if isinstance_NotRetryingDestination e
  then {| status := 503; message := "Not ready for retry" |}
  else if isinstance_FederationDeniedError e
  then {| status := 403; message := "Federation Denied" |}
  else {| status := 503; message := exc_str e |}.
Proof. reflexivity. Qed.

Section Fanout.
Variable queries : dict (dict json).
Variable replies : string -> reply.

Lemma do_remote_query_total (s : fanout) (d : string) :
  dict_mem d queries = true ->
  exists s', do_remote_query queries replies s d = Ok s'.
Proof.
  unfold dict_mem, do_remote_query. destruct (dict_get d queries); [|discriminate].
  intros _. destruct (try_remote_query (replies d)); eauto.
Qed.

(** A unit whose [try] block raises writes [failures] only. *)
Lemma do_remote_query_throws (s s' : fanout) (d : string) (e : py_exception) :
  try_remote_query (replies d) = inr e ->
  do_remote_query queries replies s d = Ok s' ->
  results s' = results s
  /\ failures s' = dict_set d (_exception_to_failure e) (failures s).
Proof.
  unfold do_remote_query. intros ->.
  destruct (dict_get d queries); [|discriminate].
  intros [= <-]. split; reflexivity.
Qed.

(** What a unit writes to [results] depends on [results] only, and what
    it writes to [failures] is under its own destination. *)
Lemma do_remote_query_results (s1 s2 s1' s2' : fanout) (d : string) :
  results s1 = results s2 ->
  do_remote_query queries replies s1 d = Ok s1' ->
  do_remote_query queries replies s2 d = Ok s2' ->
  results s1' = results s2'.
Proof.
  unfold do_remote_query. intros Heq.
  destruct (dict_get d queries); [|discriminate].
  destruct (try_remote_query (replies d)) as [items|e].
  - intros [= <-] [= <-]. simpl. congruence.
  - intros [= <-] [= <-]. exact Heq.
Qed.

Lemma do_remote_query_failures_other (s s' : fanout) (d d' : string) :
  d <> d' ->
  do_remote_query queries replies s d = Ok s' ->
  dict_get d' (failures s') = dict_get d' (failures s).
Proof.
  unfold do_remote_query. intros Hne.
  destruct (dict_get d queries); [|discriminate].
  destruct (try_remote_query (replies d)) as [items|e].
  - now intros [= <-].
  - intros [= <-]. simpl. now apply dict_get_set_other.
Qed.

Lemma gather_total (order : list string) :
  forall s,
    (forall d, In d order -> dict_mem d queries = true) ->
    exists s', gather_remote_queries queries replies order s = Ok s'.
Proof.
  induction order as [|d rest IH]; intros s Hin; simpl; [eauto|].
  destruct (do_remote_query_total s d) as [s1 ->]; [apply Hin; now left|].
  simpl. apply IH. intros d' Hd'. apply Hin. now right.
Qed.

(** The [results] of the fan-out are those of the fan-out without the
    destination that fails. *)
Lemma gather_results_without (failing : string) (e : py_exception)
  (order : list string) :
  try_remote_query (replies failing) = inr e ->
  forall s1 s2 s1' s2',
    results s1 = results s2 ->
    gather_remote_queries queries replies order s1 = Ok s1' ->
    gather_remote_queries queries replies (without failing order) s2 = Ok s2' ->
    results s1' = results s2'.
Proof.
  intros Hthrows. induction order as [|d rest IH]; intros s1 s2 s1' s2' Heq.
  - simpl. intros [= <-] [= <-]. exact Heq.
  - simpl. destruct (do_remote_query queries replies s1 d) as [t1|] eqn:E1;
      [|discriminate].
    simpl. destruct (String.eqb d failing) eqn:Ed; simpl.
    + apply String.eqb_eq in Ed. subst d.
      destruct (do_remote_query_throws _ _ _ _ Hthrows E1) as [Hres _].
      apply IH. congruence.
    + destruct (do_remote_query queries replies s2 d) as [t2|] eqn:E2;
        [|discriminate].
      simpl. apply IH. eapply do_remote_query_results; eauto.
Qed.

Lemma gather_failures_not_in (order : list string) (d : string) :
  ~ In d order ->
  forall s s',
    gather_remote_queries queries replies order s = Ok s' ->
    dict_get d (failures s') = dict_get d (failures s).
Proof.
  induction order as [|d0 rest IH]; intros Hn s s'; simpl.
  - now intros [= <-].
  - destruct (do_remote_query queries replies s d0) as [t|] eqn:E; [|discriminate].
    simpl. intros Hrun.
    assert (Hrest : ~ In d rest) by (intros H; apply Hn; now right).
    assert (Hne : d0 <> d) by (intros H; apply Hn; now left).
    rewrite (IH Hrest _ _ Hrun).
    eapply do_remote_query_failures_other; eauto.
Qed.

Lemma gather_failures (failing : string) (e : py_exception)
  (order : list string) :
  try_remote_query (replies failing) = inr e ->
  In failing order ->
  forall s s',
    gather_remote_queries queries replies order s = Ok s' ->
    dict_get failing (failures s') = Some (_exception_to_failure e).
Proof.
  intros Hthrows. induction order as [|d rest IH]; intros Hin s s'; [easy|].
  simpl. destruct (do_remote_query queries replies s d) as [t|] eqn:E;
    [|discriminate].
  simpl. intros Hrun.
  destruct (in_dec string_dec failing rest) as [Hrest|Hrest].
  - eapply IH; eauto.
  - destruct Hin as [->|Hin]; [|contradiction].
    rewrite (gather_failures_not_in rest failing Hrest _ _ Hrun).
    destruct (do_remote_query_throws _ _ _ _ Hthrows E) as [_ ->].
    apply dict_get_set_same.
Qed.
End Fanout.

(** C4 (amended).  In the fan-out of a device-key query, whatever the order
    in which the replies arrive, a destination whose request raises (or
    whose answer has no [device_keys] to iterate) leaves
    [results] as the fan-out without that destination gives it, and has its
    own entry in [failures]: the code and message of the exception when it
    is a [CodeMessageException]; otherwise 503 "Not ready for retry" for
    [NotRetryingDestination], 403 "Federation Denied" for
    [FederationDeniedError], and 503 with the exception's message for any
    other. *)
Theorem failing_destination_is_isolated :
  forall (queries : dict (dict json)) (replies : string -> reply)
         (order : list string) (s : fanout) (failing : string)
         (e : py_exception),
    (forall d, In d order -> dict_mem d queries = true) ->
    In failing order ->
    try_remote_query (replies failing) = inr e ->
    exists s' s'',
      gather_remote_queries queries replies order s = Ok s'
      /\ gather_remote_queries queries replies (without failing order) s = Ok s''
      /\ results s' = results s''
      /\ dict_get failing (failures s') = Some (_exception_to_failure e)
      /\ _exception_to_failure e
         = if isinstance_CodeMessageException e
           then {| status := exc_code e; message := exc_str e |}
           else if isinstance_NotRetryingDestination e
           then {| status := 503; message := "Not ready for retry" |}
           else if isinstance_FederationDeniedError e
           then {| status := 403; message := "Federation Denied" |}
           else {| status := 503; message := exc_str e |}.
Proof.
  intros queries replies order s failing e Hknown Hin Hthrows.
  destruct (gather_total queries replies order s Hknown) as [s' Hrun].
  destruct (gather_total queries replies (without failing order) s) as [s'' Hrun'].
  { intros d Hd. apply Hknown. unfold without in Hd.
    now apply filter_In in Hd. }
  exists s', s''. repeat split; auto.
  - eapply gather_results_without; eauto.
  - eapply gather_failures; eauto.
Qed.

Lemma failing_destination_is_isolated_witness :
  exists s',
    gather_remote_queries three_queries three_replies
      ["one.example"; "two.example"; "three.example"] empty_fanout = Ok s'
    /\ results s' = [("@a:one.example", JObj [("dev1", JObj [])]);
                     ("@c:three.example", JObj [("dev3", JObj [])])]
    /\ dict_get "two.example" (failures s')
       = Some {| status := 503; message := "Not ready for retry" |}.
Proof.
  destruct (failing_destination_is_isolated three_queries three_replies
              ["one.example"; "two.example"; "three.example"] empty_fanout
              "two.example" not_retrying)
    as (s' & s'' & Hrun & Hrun' & Hres & Hfail & _).
  - intros d [<-|[<-|[<-|[]]]]; reflexivity.
  - simpl. tauto.
  - reflexivity.
  - exists s'. split; [exact Hrun|]. split; [|exact Hfail].
    rewrite Hres. vm_compute in Hrun'. now injection Hrun' as <-.
Defined.

(** An exception that is neither [NotRetryingDestination] nor
    [FederationDeniedError] and does not map to 503. *)
Lemma coded_exception_keeps_its_status :
  isinstance_NotRetryingDestination http_not_found = false
  /\ isinstance_FederationDeniedError http_not_found = false
  /\ _exception_to_failure http_not_found
     = {| status := 404; message := "404: Not Found" |}
  /\ status (_exception_to_failure http_not_found) <> 503.
Proof. repeat split; try reflexivity. simpl. lia. Qed.

(** ** Cross-signing keys *)

Lemma get_verify_key_single {env : Env} (d : dict json) (key_id : string)
  (key_data : json) (key_bytes : string) (vk : verify_key) :
  dict_get "keys" d = Some (JObj [(key_id, key_data)]) ->
  decode_base64 key_data = Some key_bytes ->
  decode_verify_key_bytes key_id key_bytes = Some vk ->
  _get_verify_key_from_key_info (PVal (JObj d)) = Ok (key_id, vk).
Proof.
  intros Hkeys Hb64 Hvk. unfold _get_verify_key_from_key_info.
  rewrite py_in_obj, (dict_get_mem _ _ _ Hkeys), bind_ok. cbn [negb].
  rewrite (py_getitem_some _ _ _ Hkeys), bind_ok. cbn.
  now rewrite Hb64, Hvk.
Qed.


#[local] Arguments py_in : simpl never.
#[local] Arguments py_getitem : simpl never.
#[local] Arguments _get_verify_key_from_key_info : simpl never.



(** C8.  For a user without a stored self-signing key, an upload that has no
    [self_signing_key] does not give the client error 400: the call raises
    [TypeError] from the test ["keys" not in key_info] on [None], and the
    store is left as it was. *)
Theorem upload_user_signing_key_without_self_signing_key :
  forall (env : Env) (st : store) (user_id : string) (d : dict json),
    dict_get user_id (e2e_self_signing_keys st) = None ->
    dict_mem "self_signing_key" d = false ->
    upload_signing_keys_for_user st user_id (JObj d)
    = (Raise (TypeError "argument of type 'NoneType' is not iterable"), st)
    /\ is_client_error (fst (upload_signing_keys_for_user st user_id (JObj d)))
       = false.
Proof.
  intros env st user_id d Hnone Hself.
  assert (E : upload_signing_keys_for_user st user_id (JObj d)
              = (Raise (TypeError "argument of type 'NoneType' is not iterable"), st)).
  { unfold upload_signing_keys_for_user, check_signing_keys.
    unfold get_e2e_self_signing_key. rewrite Hnone. cbn [or_none yield_].
    rewrite py_in_obj, Hself. reflexivity. }
  split; [exact E | now rewrite E].
Qed.


Lemma upload_user_signing_key_without_self_signing_key_witness :
  upload_signing_keys_for_user empty_store boris
    (JObj [("user_signing_key", user_signing_key2)])
  = (Raise (TypeError "argument of type 'NoneType' is not iterable"), empty_store).
Proof.
  exact (proj1 (upload_user_signing_key_without_self_signing_key toy_env
                  empty_store boris [("user_signing_key", user_signing_key2)]
                  eq_refl eq_refl)).
Defined.

(** C5 (amended).  For a user without a stored self-signing key, an upload
    of a self-signing key with the user's id, a usage that contains
    [self_signing], exactly one verify key that decodes, and no [signatures]
    member (and no user-signing key beside it) succeeds, and the key is the
    user's current self-signing key afterwards; no [replaces] is asked for. *)
Theorem first_self_signing_key_accepted :
  forall (env : Env) (st : store) (user_id : string) (d k : dict json)
         (uid usage : json) (key_id : string) (key_data : json)
         (key_bytes : string) (vk : verify_key),
    dict_get user_id (e2e_self_signing_keys st) = None ->
    dict_get "self_signing_key" d = Some (JObj k) ->
    dict_mem "user_signing_key" d = false ->
    dict_get "user_id" k = Some uid ->
    py_eqb uid (JStr user_id) = true ->
    dict_get "usage" k = Some usage ->
    py_in "self_signing" (PVal usage) = Ok true ->
    dict_mem "signatures" k = false ->
    dict_get "keys" k = Some (JObj [(key_id, key_data)]) ->
    decode_base64 key_data = Some key_bytes ->
    decode_verify_key_bytes key_id key_bytes = Some vk ->
    fst (upload_signing_keys_for_user st user_id (JObj d)) = Ok (JObj [])
    /\ yield_ (get_e2e_self_signing_key
                 (snd (upload_signing_keys_for_user st user_id (JObj d))) user_id)
       = JObj k.
Proof.
  intros env st user_id d k uid usage key_id key_data key_bytes vk
    Hnone Hself Huser Huid Heq Husage Hin Hsig Hkeys Hb64 Hvk.
  assert (Hchk : check_signing_keys st user_id (JObj d) = Ok (Some (JObj k), None)).
  { unfold check_signing_keys, get_e2e_self_signing_key. rewrite Hnone.
    cbn [or_none yield_].
    rewrite py_in_obj, (dict_get_mem _ _ _ Hself), bind_ok.
    unfold check_self_signing_key.
    rewrite (py_getitem_some _ _ _ Hself), bind_ok.
    rewrite (py_getitem_some _ _ _ Huid), bind_ok, Heq. cbn [negb].
    rewrite (py_getitem_some _ _ _ Husage), bind_ok, Hin, !bind_ok.
    cbn [negb py_truthy]. rewrite bind_ok, py_in_obj, Hsig, !bind_ok.
    rewrite (get_verify_key_single _ _ _ _ _ Hkeys Hb64 Hvk), bind_ok.
    rewrite py_in_obj, Huser. reflexivity. }
  unfold upload_signing_keys_for_user. rewrite Hchk. simpl. split; [reflexivity|].
  now rewrite dict_get_set_same.
Qed.

Lemma first_self_signing_key_accepted_witness :
  fst (upload_signing_keys_for_user empty_store boris keys1) = Ok (JObj [])
  /\ yield_ (get_e2e_self_signing_key
               (snd (upload_signing_keys_for_user empty_store boris keys1)) boris)
     = signing_key "self_signing" key1_b64 [].
Proof.
  exact (first_self_signing_key_accepted toy_env empty_store boris
           [("self_signing_key", signing_key "self_signing" key1_b64 [])]
           [ ("user_id", JStr boris);
             ("usage", JList [JStr "self_signing"]);
             ("keys", JObj [("ed25519:" ++ key1_b64, JStr key1_b64)]) ]
           (JStr boris) (JList [JStr "self_signing"])
           ("ed25519:" ++ key1_b64) (JStr key1_b64) key1_b64
           ("ed25519:" ++ key1_b64, key1_b64)
           eq_refl eq_refl eq_refl eq_refl eq_refl eq_refl eq_refl eq_refl
           eq_refl eq_refl eq_refl).
Defined.

(** A first key of valid structure that has a [signatures] member: it is
    rejected, and nothing is stored. *)
Lemma first_key_with_signatures_rejected :
  let key := signing_key "self_signing" key1_b64
               [("signatures", signed_by_key1 (toy_signature key1_b64))] in
  dict_get boris (e2e_self_signing_keys empty_store) = None
  /\ py_getitem (PVal key) "user_id" = Ok (JStr boris)
  /\ (usage <- py_getitem (PVal key) "usage" ;; py_in "self_signing" (PVal usage))
     = Ok true
  /\ _get_verify_key_from_key_info (PVal key)
     = Ok ("ed25519:" ++ key1_b64, ("ed25519:" ++ key1_b64, key1_b64))
  /\ upload_signing_keys_for_user empty_store boris keys1_signed
     = (Raise (SynapseError 400 "Invalid signature"), empty_store).
Proof. repeat split; reflexivity. Qed.

(** The replacement passes every check that comes before the signature. *)
Lemma check_self_signing_key_bad_signature {env : Env} :
  forall (user_id : string) (old : json) (d k : dict json)
         (uid usage replaces sigs : json)
         (old_key_id algorithm bare : string) (old_vk : verify_key),
    py_truthy old = true ->
    _get_verify_key_from_key_info (PVal old) = Ok (old_key_id, old_vk) ->
    str_split1 colon old_key_id = [algorithm; bare] ->
    dict_get "self_signing_key" d = Some (JObj k) ->
    dict_get "user_id" k = Some uid ->
    py_eqb uid (JStr user_id) = true ->
    dict_get "usage" k = Some usage ->
    py_in "self_signing" (PVal usage) = Ok true ->
    dict_get "replaces" k = Some replaces ->
    py_eqb replaces (JStr bare) = true ->
    dict_get "signatures" k = Some sigs ->
    has_signature_by (JObj k) user_id old_key_id = Ok false
    \/ (has_signature_by (JObj k) user_id old_key_id = Ok true
        /\ verify_signed_json (JObj k) user_id old_vk = false) ->
    check_self_signing_key old user_id (JObj d)
    = Raise (SynapseError 400 "Invalid signature on self-signing key").
Proof.
  intros user_id old d k uid usage replaces sigs old_key_id algorithm bare old_vk
    Htruthy Hold Hsplit Hself Huid Heq Husage Hin Hrep Hbare Hsigs Hbad.
  unfold check_self_signing_key.
  rewrite (py_getitem_some _ _ _ Hself), bind_ok.
  rewrite (py_getitem_some _ _ _ Huid), bind_ok, Heq. cbn [negb].
  rewrite (py_getitem_some _ _ _ Husage), bind_ok, Hin, !bind_ok.
  cbn [negb]. rewrite Htruthy.
  rewrite py_in_obj, (dict_get_mem _ _ _ Hrep), bind_ok. cbn [negb].
  rewrite Hold, bind_ok.
  rewrite (py_getitem_some _ _ _ Hrep), bind_ok, Hsplit, Hbare. cbn [negb].
  rewrite bind_ok, py_in_obj, (dict_get_mem _ _ _ Hsigs), bind_ok.
  cbn [negb]. rewrite bind_ok.
  rewrite (py_getitem_some _ _ _ Hsigs), bind_ok.
  unfold has_signature_by in Hbad.
  rewrite py_in_obj, (dict_get_mem _ _ _ Hsigs), bind_ok in Hbad.
  cbn [negb] in Hbad.
  rewrite (py_getitem_some _ _ _ Hsigs), bind_ok in Hbad.
  destruct (py_in user_id (PVal sigs)) as [[|]|e] eqn:Eu; cbn [bind negb] in *.
  - destruct (py_getitem (PVal sigs) user_id) as [mine|e] eqn:Em; cbn [bind] in *.
    + destruct Hbad as [Hbad | [Hbad Hver]]; rewrite Hbad; cbn [bind negb].
      * reflexivity.
      * unfold verify_or_400. now rewrite Hver.
    + destruct Hbad as [Hbad | [Hbad _]]; discriminate.
  - reflexivity.
  - destruct Hbad as [Hbad | [Hbad _]]; discriminate.
Qed.

(** C1 (amended).  For a user with a stored self-signing key, an upload of a
    new self-signing key whose [replaces] is the old key's bare id and which
    has a [signatures] member is rejected with the client error 400 when that
    member has no signature by the user under the old key's id, or when the
    signature does not verify with the old key; the old key stays the
    current one. *)
Theorem replacement_with_bad_signature_rejected :
  forall (env : Env) (st : store) (user_id : string) (old : json)
         (d k : dict json) (uid usage replaces sigs : json)
         (old_key_id algorithm bare : string) (old_vk : verify_key),
    dict_get user_id (e2e_self_signing_keys st) = Some old ->
    py_truthy old = true ->
    _get_verify_key_from_key_info (PVal old) = Ok (old_key_id, old_vk) ->
    str_split1 colon old_key_id = [algorithm; bare] ->
    dict_get "self_signing_key" d = Some (JObj k) ->
    dict_get "user_id" k = Some uid ->
    py_eqb uid (JStr user_id) = true ->
    dict_get "usage" k = Some usage ->
    py_in "self_signing" (PVal usage) = Ok true ->
    dict_get "replaces" k = Some replaces ->
    py_eqb replaces (JStr bare) = true ->
    dict_get "signatures" k = Some sigs ->
    has_signature_by (JObj k) user_id old_key_id = Ok false
    \/ (has_signature_by (JObj k) user_id old_key_id = Ok true
        /\ verify_signed_json (JObj k) user_id old_vk = false) ->
    upload_signing_keys_for_user st user_id (JObj d)
    = (Raise (SynapseError 400 "Invalid signature on self-signing key"), st)
    /\ yield_ (get_e2e_self_signing_key
                 (snd (upload_signing_keys_for_user st user_id (JObj d))) user_id)
       = old.
Proof.
  intros env st user_id old d k uid usage replaces sigs old_key_id algorithm
    bare old_vk Hstored Htruthy Hold Hsplit Hself Huid Heq Husage Hin Hrep Hbare
    Hsigs Hbad.
  assert (E : upload_signing_keys_for_user st user_id (JObj d)
              = (Raise (SynapseError 400 "Invalid signature on self-signing key"), st)).
  { unfold upload_signing_keys_for_user, check_signing_keys,
      get_e2e_self_signing_key.
    rewrite Hstored. cbn [or_none yield_].
    rewrite py_in_obj, (dict_get_mem _ _ _ Hself), bind_ok.
    now rewrite (check_self_signing_key_bad_signature user_id old d k uid usage
                   replaces sigs old_key_id algorithm bare old_vk). }
  rewrite E. split; [reflexivity|].
  cbn [snd]. unfold get_e2e_self_signing_key. now rewrite Hstored.
Qed.


Lemma replacement_with_bad_signature_rejected_witness :
  upload_signing_keys_for_user store1 boris keys2_bad_signature
  = (Raise (SynapseError 400 "Invalid signature on self-signing key"), store1)
  /\ yield_ (get_e2e_self_signing_key
               (snd (upload_signing_keys_for_user store1 boris keys2_bad_signature))
               boris)
     = signing_key "self_signing" key1_b64 [].
Proof.
  eapply (replacement_with_bad_signature_rejected toy_env store1 boris
            (signing_key "self_signing" key1_b64 []) _ _ (JStr boris)
            (JList [JStr "self_signing"]) (JStr key1_b64)
            (signed_by_key1 (JStr "this+is+a+bad+signature"))
            ("ed25519:" ++ key1_b64) "ed25519" key1_b64
            ("ed25519:" ++ key1_b64, key1_b64));
    try reflexivity.
  right. split; reflexivity.
Defined.

(** The replacement of [test_replace_self_signing_key]: the right
    [replaces], no [signatures] member.  It is accepted and replaces the
    stored key. *)
Lemma replacement_without_signatures_accepted :
  dict_get boris (e2e_self_signing_keys store1)
  = Some (signing_key "self_signing" key1_b64 [])
  /\ py_in "signatures" (PVal (signing_key "self_signing" key2_b64
                                 [("replaces", JStr key1_b64)])) = Ok false
  /\ fst (upload_signing_keys_for_user store1 boris keys2_unsigned) = Ok (JObj [])
  /\ is_client_error
       (fst (upload_signing_keys_for_user store1 boris keys2_unsigned)) = false
  /\ yield_ (get_e2e_self_signing_key
               (snd (upload_signing_keys_for_user store1 boris keys2_unsigned))
               boris)
     = signing_key "self_signing" key2_b64 [("replaces", JStr key1_b64)].
Proof. repeat split; reflexivity. Qed.

(** ** Device keys of local users *)

Section LocalDevices.
Context {env : Env}.

Lemma scan_local_query_spec (query : dict (option (list string))) :
  forall local_query result_dict,
    all_local query = true ->
    exists local_query' result_dict',
      scan_local_query query local_query result_dict
      = Ok (local_query', result_dict')
      /\ (forall u, In u (dict_keys query) -> dict_get u result_dict' = Some [])
      /\ (forall u, ~ In u (dict_keys query) ->
            dict_get u result_dict' = dict_get u result_dict)
      /\ (forall u od, In (u, od) local_query' ->
            In (u, od) local_query \/ In u (dict_keys query)).
Proof.
  induction query as [|[u0 ids] rest IH]; intros lq rd Hall.
  - exists lq, rd. repeat split; auto. intros u [].
  - simpl in Hall. apply andb_true_iff in Hall as [Hu Hrest].
    simpl scan_local_query.
    destruct (from_string u0) as [uid|]; [|discriminate].
    rewrite bind_ok, Hu. cbn [negb].
    match goal with
    | |- context [scan_local_query rest ?l ?r] =>
        destruct (IH l r Hrest) as (lq' & rd' & Hrun & Hin & Hout & Hlq)
    end.
    exists lq', rd'. split; [exact Hrun|]. split; [|split].
    + intros u Hu'. destruct (in_dec string_dec u (dict_keys rest)) as [Hi|Hi].
      * now apply Hin.
      * rewrite Hout by assumption. destruct Hu' as [<-|Hu']; [|contradiction].
        apply dict_get_set_same.
    + intros u Hn. simpl in Hn. rewrite Hout by tauto.
      apply dict_get_set_other. tauto.
    + intros u od Hi. destruct (Hlq u od Hi) as [Hl|Hr].
      * apply in_app_or in Hl as [Hl|Hl]; [now left|].
        right. left.
        destruct ids as [[|i ids]|].
        -- destruct Hl as [[= <- <-]|[]]. reflexivity.
        -- apply in_map_iff in Hl as (x & [= <- <-] & _). reflexivity.
        -- destruct Hl as [[= <- <-]|[]]. reflexivity.
      * right. now right.
Qed.

Variable st : store.

Lemma answer_ok_set2 asked acc u od d info devices :
  answer_ok st asked acc ->
  In (u, od) asked ->
  dict_get u (e2e_device_keys st) = Some devices ->
  In (d, info) devices ->
  answer_ok st asked (dict_set2 u d info acc).
Proof.
  intros Hok Hasked Hdev Hin u' m Hm. unfold dict_set2 in Hm.
  apply dict_set_In in Hm as [[-> ->]|Hm]; [|now apply Hok].
  split; [eauto|]. split; [apply dict_set_not_nil|].
  intros d' info' Hd'. apply dict_set_In in Hd' as [[-> ->]|Hd']; [eauto|].
  destruct (dict_get u acc) as [inner|] eqn:Eg; [|destruct Hd'].
  apply dict_get_In in Eg. destruct (Hok _ _ Eg) as (_ & _ & Hstored).
  now apply Hstored.
Qed.

Lemma get_e2e_device_keys_ok (asked : list (string * option string)) :
  answer_ok st asked (get_e2e_device_keys st asked).
Proof.
  unfold get_e2e_device_keys.
  assert (H : forall suffix acc,
             (forall x, In x suffix -> In x asked) ->
             answer_ok st asked acc ->
             answer_ok st asked
               (fold_left
                  (fun acc '(user_id, device_id) =>
                     match dict_get user_id (e2e_device_keys st) with
                     | None => acc
                     | Some devices =>
                         let found :=
                           match device_id with
                           | None => devices
                           | Some d => match dict_get d devices with
                                       | Some info => [(d, info)]
                                       | None => []
                                       end
                           end in
                         fold_left
                           (fun acc '(d, info) => dict_set2 user_id d info acc)
                           found acc
                     end) suffix acc)).
  { induction suffix as [|[u od] rest IH]; intros acc Hsub Hok; simpl; auto.
    apply IH; [intros x Hx; apply Hsub; now right|].
    destruct (dict_get u (e2e_device_keys st)) as [devices|] eqn:Ed; auto.
    assert (Hfound : forall found acc',
               (forall x, In x found -> In x devices) ->
               answer_ok st asked acc' ->
               answer_ok st asked
                 (fold_left (fun acc '(d, info) => dict_set2 u d info acc)
                    found acc')).
    { induction found as [|[d info] found IHf]; intros acc' Hs Hok'; simpl; auto.
      apply IHf; [intros x Hx; apply Hs; now right|].
      eapply answer_ok_set2; eauto.
      - apply Hsub. now left.
      - apply Hs. now left. }
    apply Hfound; auto.
    destruct od as [d|]; [|auto].
    destruct (dict_get d devices) as [info|] eqn:Ei; [|intros x []].
    intros x [<-|[]]. now apply dict_get_In. }
  apply H; auto. intros u m [].
Qed.

Lemma answer_asked_set2 asked acc u od d info devices :
  answer_asked st asked acc ->
  In (u, od) asked ->
  dict_get u (e2e_device_keys st) = Some devices ->
  In (d, info) devices ->
  od = None \/ od = Some d ->
  answer_asked st asked (dict_set2 u d info acc).
Proof.
  intros Hok Hasked Hdev Hin Hod u' m Hm d' info' Hd'. unfold dict_set2 in Hm.
  apply dict_set_In in Hm as [[-> ->]|Hm]; [|now apply (Hok u' m)].
  apply dict_set_In in Hd' as [[-> ->]|Hd']; [now exists od, devices|].
  destruct (dict_get u acc) as [inner|] eqn:Eg; [|destruct Hd'].
  apply dict_get_In in Eg. now apply (Hok u inner).
Qed.

Lemma get_e2e_device_keys_asked (asked : list (string * option string)) :
  answer_asked st asked (get_e2e_device_keys st asked).
Proof.
  unfold get_e2e_device_keys.
  assert (H : forall suffix acc,
             (forall x, In x suffix -> In x asked) ->
             answer_asked st asked acc ->
             answer_asked st asked
               (fold_left
                  (fun acc '(user_id, device_id) =>
                     match dict_get user_id (e2e_device_keys st) with
                     | None => acc
                     | Some devices =>
                         let found :=
                           match device_id with
                           | None => devices
                           | Some d => match dict_get d devices with
                                       | Some info => [(d, info)]
                                       | None => []
                                       end
                           end in
                         fold_left
                           (fun acc '(d, info) => dict_set2 user_id d info acc)
                           found acc
                     end) suffix acc)).
  { induction suffix as [|[u od] rest IH]; intros acc Hsub Hok; simpl; auto.
    apply IH; [intros x Hx; apply Hsub; now right|].
    destruct (dict_get u (e2e_device_keys st)) as [devices|] eqn:Ed; auto.
    assert (Hfound : forall found acc',
               (forall d info, In (d, info) found ->
                  In (d, info) devices /\ (od = None \/ od = Some d)) ->
               answer_asked st asked acc' ->
               answer_asked st asked
                 (fold_left (fun acc '(d, info) => dict_set2 u d info acc)
                    found acc')).
    { induction found as [|[d info] found IHf]; intros acc' Hs Hok'; simpl; auto.
      apply IHf; [intros d' info' Hx; apply Hs; now right|].
      destruct (Hs d info (or_introl eq_refl)) as [Hin Hod].
      eapply answer_asked_set2; eauto.
      apply Hsub. now left. }
    apply Hfound; auto.
    destruct od as [d|]; [|auto].
    destruct (dict_get d devices) as [info|] eqn:Ei; [|intros d' info' []].
    intros d' info' [[= <- <-]|[]]. split; [now apply dict_get_In|now right]. }
  apply H; auto. intros u m [].
Qed.
End LocalDevices.

Section LocalDevicesAsked.
Context {env : Env}.

(** What the scan of the query lists for the store is what the query asks
    for. *)
Lemma scan_local_query_asked (query : dict (option (list string))) :
  forall local_query result_dict local_query' result_dict',
    scan_local_query query local_query result_dict
    = Ok (local_query', result_dict') ->
    forall u od, In (u, od) local_query' ->
      In (u, od) local_query
      \/ exists ids, In (u, ids) query
                     /\ forall d, od = None \/ od = Some d ->
                                  asks_for ids d = true.
Proof.
  induction query as [|[u0 ids] rest IH]; intros lq rd lq' rd' H; simpl in H.
  - injection H as <- <-. auto.
  - apply bind_ok_inv in H as (uid & _ & H).
    destruct (is_mine uid); cbn [negb] in H; [|discriminate].
    intros u od Hin. destruct (IH _ _ _ _ H u od Hin) as [Hl|(ids' & Hq & Hd)].
    + apply in_app_or in Hl as [Hl|Hl]; [now left|].
      right. exists ids.
      destruct ids as [[|i ids]|].
      * destruct Hl as [[= <- <-]|[]]. split; [now left|reflexivity].
      * apply in_map_iff in Hl as (x & [= <- <-] & Hx).
        split; [now left|]. intros d [Hd|[= <-]]; [discriminate|].
        apply existsb_exists. exists x. split; [exact Hx|apply String.eqb_refl].
      * destruct Hl as [[= <- <-]|[]]. split; [now left|reflexivity].
    + right. exists ids'. split; [now right|exact Hd].
Qed.

Lemma asked_device_info_ok (st : store) (query : dict (option (list string)))
  (u : string) (ids : option (list string)) (devices : dict json)
  (d : string) (info : json) :
  asked_devices_ok st query = true ->
  In (u, ids) query ->
  dict_get u (e2e_device_keys st) = Some devices ->
  In (d, info) devices ->
  asks_for ids d = true ->
  device_info_ok info = true.
Proof.
  unfold asked_devices_ok. intros Hok Hq Hget Hin Hasks.
  rewrite forallb_forall in Hok. specialize (Hok _ Hq). cbv beta iota in Hok.
  rewrite Hget, forallb_forall in Hok. specialize (Hok _ Hin).
  cbv beta iota in Hok. now rewrite Hasks in Hok.
Qed.

Lemma add_user_devices_spec (u : string) (device_keys : dict json) :
  forall result_dict,
    dict_mem u result_dict = true ->
    (forall d info, In (d, info) device_keys -> device_info_ok info = true) ->
    exists result_dict',
      add_user_devices u device_keys result_dict = Ok (Some result_dict')
      /\ (forall u', dict_mem u' result_dict = true ->
            dict_mem u' result_dict' = true)
      /\ (forall u', u <> u' ->
            dict_get u' result_dict' = dict_get u' result_dict).
Proof.
  induction device_keys as [|[d info] rest IH]; intros rd Hmem Hok.
  - exists rd. repeat split; auto.
  - simpl add_user_devices.
    assert (Hi : device_info_ok info = true) by (apply (Hok d); now left).
    destruct info as [| | | | |fields]; try discriminate. simpl in Hi.
    destruct (dict_get "keys" fields) as [keys|] eqn:Ek; [|discriminate].
    destruct (dict_get "device_display_name" fields) as [name|] eqn:En;
      [|discriminate].
    destruct (py_dict keys) as [[r|]|] eqn:Er; try discriminate.
    rewrite (py_getitem_some _ _ _ Ek), bind_ok, Er, bind_ok.
    rewrite (py_getitem_some _ _ _ En), bind_ok.
    unfold dict_mem in Hmem.
    destruct (dict_get u rd) as [devices|] eqn:Eu; [|discriminate].
    match goal with
    | |- context [add_user_devices u rest ?r] =>
        destruct (IH r) as (rd' & Hrun & Hkeep & Hother)
    end.
    { unfold dict_mem. now rewrite dict_get_set_same. }
    { intros d' info' Hin. apply (Hok d'). now right. }
    exists rd'. split; [exact Hrun|]. split.
    + intros u' Hu'. apply Hkeep. now apply dict_mem_set.
    + intros u' Hne. rewrite Hother by assumption.
      now apply dict_get_set_other.
Qed.

Lemma add_all_devices_spec (results : dict (dict json)) :
  forall result_dict,
    (forall u m, In (u, m) results ->
       dict_mem u result_dict = true
       /\ forall d info, In (d, info) m -> device_info_ok info = true) ->
    exists result_dict',
      add_all_devices results result_dict = Ok (Some result_dict')
      /\ (forall u, dict_mem u result_dict = true ->
            dict_mem u result_dict' = true)
      /\ (forall u, ~ In u (dict_keys results) ->
            dict_get u result_dict' = dict_get u result_dict).
Proof.
  induction results as [|[u0 m0] rest IH]; intros rd Hok.
  - exists rd. repeat split; auto.
  - destruct (Hok u0 m0 (or_introl eq_refl)) as [Hmem Hinfos].
    destruct (add_user_devices_spec u0 m0 rd Hmem Hinfos)
      as (rd1 & Hrun1 & Hkeep1 & Hother1).
    destruct (IH rd1) as (rd2 & Hrun2 & Hkeep2 & Hother2).
    { intros u m Hin. destruct (Hok u m (or_intror Hin)) as [Hm Hi]. auto. }
    exists rd2. simpl add_all_devices. rewrite Hrun1, bind_ok.
    split; [exact Hrun2|]. split; [auto|].
    intros u Hn. simpl in Hn. rewrite Hother2 by tauto. apply Hother1. tauto.
Qed.
End LocalDevicesAsked.

(** C7 (amended).  When every requested user id is a valid id of a local
    user, and the stored device keys of every device that the query asks
    for are an object (or another value that [dict()] makes a dictionary
    of), [query_local_devices] returns a result in which every requested
    user is a key, and the user's value is the empty mapping when the user
    has no device. *)
Theorem query_local_devices_has_every_user :
  forall (env : Env) (st : store) (query : dict (option (list string))),
    all_local query = true ->
    asked_devices_ok st query = true ->
    exists result_dict,
      query_local_devices st query = Ok (Some result_dict)
      /\ forall user_id, In user_id (dict_keys query) ->
           exists devices,
             dict_get user_id result_dict = Some devices
             /\ (has_no_devices st user_id = true -> devices = []).
Proof.
  intros env st query Hlocal Hstore. unfold query_local_devices.
  destruct (scan_local_query_spec query [] [] Hlocal)
    as (lq & rd & Hscan & Hin & _ & Hlq).
  rewrite Hscan, bind_ok. cbv beta iota.
  pose proof (get_e2e_device_keys_ok st lq) as Hans.
  pose proof (get_e2e_device_keys_asked st lq) as Hasked.
  destruct (add_all_devices_spec (get_e2e_device_keys st lq) rd)
    as (res & Hrun & Hkeep & Hother).
  { intros u m Hm. destruct (Hans u m Hm) as ((od & Hod) & _ & _). split.
    - destruct (Hlq u od Hod) as [[]|Hq]. unfold dict_mem. now rewrite Hin.
    - intros d info Hd.
      destruct (Hasked u m Hm d info Hd) as (od' & devices & Hod' & Hget & Hi & Hd').
      destruct (scan_local_query_asked _ _ _ _ _ Hscan u od' Hod')
        as [[]|(ids & Hq & Hasks)].
      eapply asked_device_info_ok; eauto. }
  exists res. split; [exact Hrun|].
  intros u Hu.
  assert (Hmem : dict_mem u res = true).
  { apply Hkeep. unfold dict_mem. now rewrite Hin. }
  unfold dict_mem in Hmem. destruct (dict_get u res) as [devices|] eqn:Eres;
    [|discriminate].
  exists devices. split; [reflexivity|].
  intros Hnone.
  assert (Hnot : ~ In u (dict_keys (get_e2e_device_keys st lq))).
  { intros Hk. unfold dict_keys in Hk. apply in_map_iff in Hk as ([u' m] & Heq & Hm).
    simpl in Heq. subst u'.
    destruct (Hans u m Hm) as (_ & Hne & Hstored).
    destruct m as [|[d info] m]; [congruence|].
    destruct (Hstored d info (or_introl eq_refl)) as (devs & Hget & Hi).
    unfold has_no_devices in Hnone. rewrite Hget in Hnone.
    destruct devs; [destruct Hi|discriminate]. }
  rewrite (Hother u Hnot), Hin in Eres by assumption. congruence.
Qed.

(** A store with two devices of one user and, for another user, a device
    whose keys are no object; a query for the first user and for a user
    without a device. *)
Lemma query_local_devices_has_every_user_witness :
  exists result_dict,
    query_local_devices store_mixed_devices
      [(boris, None); ("@carol:test", Some ["phone"])] = Ok (Some result_dict)
    /\ (exists devices, dict_get boris result_dict = Some devices)
    /\ dict_get "@carol:test" result_dict = Some [].
Proof.
  destruct (query_local_devices_has_every_user toy_env store_mixed_devices
              [(boris, None); ("@carol:test", Some ["phone"])] eq_refl eq_refl)
    as (res & Hrun & Hall).
  exists res. split; [exact Hrun|]. split.
  - destruct (Hall boris (or_introl eq_refl)) as (devices & Hget & _). eauto.
  - destruct (Hall "@carol:test" (or_intror (or_introl eq_refl)))
      as (devices & Hget & Hempty).
    now rewrite Hget, (Hempty eq_refl).
Defined.

(** [upload_keys_for_user] stores device keys that are a string, and the
    query for the user then ends at line 208. *)
Lemma unvalidated_device_keys_fail_the_query :
  let upload :=
    upload_keys_for_user 0 toy_set_e2e_device_keys toy_count_e2e_one_time_keys
      empty_store boris "xyz" (JObj [("device_keys", JStr "abc")]) in
  fst (fst upload) = Ok (JObj [("one_time_key_counts", JNum 0)])
  /\ all_local [(boris, None)] = true
  /\ query_local_devices (snd (fst upload)) [(boris, None)]
     = Raise (ValueError
                "dictionary update sequence element #0 has length 1; 2 is required").
Proof. repeat split; reflexivity. Qed.

(** ** Signatures on device keys *)

Lemma deferred_contains_called (steps : nat) (needle : string) (j : json) :
  deferred_contains (S steps) needle (Deferred true j) = Some false.
Proof. reflexivity. Qed.

(** The search in a [Deferred] without its result does not end. *)
Lemma deferred_contains_pending (steps : nat) (needle : string) (j : json) :
  deferred_contains steps needle (Deferred false j) = None.
Proof. induction steps as [|steps IH]; [reflexivity|exact IH]. Qed.

(** The call goes no further than line 450, whatever it is given: it raises
    there when the store has answered, and stays there when it has not. *)
Lemma upload_signatures_outcome {env : Env} (steps : nat) (st : store)
  (user_id : string) (signatures : json) :
  upload_signatures_for_device_keys (S steps) st user_id signatures
  = if store_answers_at_once
    then Some (Raise (SynapseError 400 "Invalid key"), st)
    else None.
Proof.
  unfold upload_signatures_for_device_keys, _get_verify_key_from_deferred,
    get_e2e_self_signing_key.
  destruct store_answers_at_once.
  - now rewrite deferred_contains_called.
  - now rewrite deferred_contains_pending.
Qed.


Lemma list_user_devices_raises {env : Env} (items : dict json) (e : exn) :
  list_user_devices items = Raise e -> exists msg, e = AttributeError msg.
Proof.
  induction items as [|[user devicemap] rest IH]; simpl; [discriminate|].
  destruct devicemap; simpl; try (intros [= <-]; eauto).
  destruct (list_user_devices rest) as [tl|e']; simpl.
  - discriminate.
  - intros [= <-]. now apply IH.
Qed.

(** Lines 458-485 never give a list to store: the loop of line 465 asks an
    empty list for its [.items()]. *)
Lemma stage_device_signatures_raises {env : Env} (st : store)
  (user_id : string) (signatures : json)
  (self_signing user_signing : string * verify_key) :
  exists msg,
    stage_device_signatures st user_id signatures self_signing user_signing
    = Raise (AttributeError msg).
Proof.
  unfold stage_device_signatures.
  destruct (py_items signatures) as [items|e] eqn:Ei.
  - rewrite bind_ok.
    destruct (list_user_devices items) as [uds|e] eqn:Eu.
    + rewrite bind_ok. cbn. eauto.
    + destruct (list_user_devices_raises _ _ Eu) as [msg ->]. cbn. eauto.
  - destruct signatures; try discriminate; cbn in Ei |- *;
      injection Ei as <-; eauto.
Qed.



(** C9.  An entry with a signature by the self-signing key and no
    [unsigned] member.  The body of the loop, run on it, raises [KeyError]
    at the second deletion, as the claim has it.  The call does not get
    there: it ends at line 450 with the client error 400 "Invalid key" when
    the store has answered the read that was not yielded, and does not
    return when it has not; and the part of it that goes through the
    entries (lines 458-485) raises [AttributeError] before the first entry,
    whatever it is given. *)
Theorem upload_signatures_stops_before_entries :
  let key := signed_device_keys [] in
  let batch := JObj [(boris, JObj [("xyz", key)])] in
  has_signature_by key boris (fst self_signing_id1) = Ok true
  /\ py_in "unsigned" (PVal key) = Ok false
  /\ fst (process_entry (get_e2e_device_keys store2 [(boris, Some "xyz")]) boris
            self_signing_id1 user_signing_id2 boris "xyz" key)
     = Raise (KeyError "unsigned")
  /\ (forall (env : Env) (steps : nat),
        upload_signatures_for_device_keys (S steps) store2 boris batch
        = if store_answers_at_once
          then Some (Raise (SynapseError 400 "Invalid key"), store2)
          else None)
  /\ (forall (env : Env) (st : store) (user_id : string) (signatures : json)
             (self_signing user_signing : string * verify_key),
        exists msg,
          stage_device_signatures st user_id signatures self_signing user_signing
          = Raise (AttributeError msg)).
Proof.
  cbv zeta. split; [reflexivity|]. split; [reflexivity|]. split; [reflexivity|].
  split.
  - intros env steps. apply upload_signatures_outcome.
  - intros. apply stage_device_signatures_raises.
Qed.

(** C6.  A batch with an entry that meets every condition of the
    specification (the device is known, the signature by the self-signing
    key is there and verifies, the payload without [signatures] and
    [unsigned] is the stored device keys) and an entry for an unknown
    device.  The call ends at line 450 with the client error 400
    "Invalid key" and the store as it was when the store has answered the
    read that was not yielded, and does not return when it has not: the
    signature of the valid entry is not stored.  The part that goes through
    the entries raises [AttributeError]. *)
Theorem valid_signature_not_persisted :
  let key := signed_device_keys [("unsigned", JObj [])] in
  let batch := JObj [(boris, JObj [("xyz", key); ("gone", key)])] in
  has_signature_by key boris (fst self_signing_id1) = Ok true
  /\ verify_signed_json key boris (snd self_signing_id1) = true
  /\ (k <- py_delitem key "signatures" ;; py_delitem k "unsigned")
     = py_getitem (PVal device_info_xyz) "keys"
  /\ e2e_device_signatures store2 = []
  /\ (forall (env : Env) (steps : nat),
        upload_signatures_for_device_keys (S steps) store2 boris batch
        = if store_answers_at_once
          then Some (Raise (SynapseError 400 "Invalid key"), store2)
          else None)
  /\ (forall steps : nat,
        upload_signatures_for_device_keys (env := toy_env_later) steps
          store2 boris batch = None)
  /\ stage_device_signatures store2 boris batch self_signing_id1 user_signing_id2
     = Raise (AttributeError "'list' object has no attribute 'items'").
Proof.
  cbv zeta. do 4 (split; [reflexivity|]). split; [|split; [|reflexivity]].
  - intros env steps. apply upload_signatures_outcome.
  - intros [|steps]; [reflexivity|]. now rewrite upload_signatures_outcome.
Qed.



(** * Further properties *)

(** ** Reading a successful run backwards *)

Tactic Notation "inv_bind" hyp(H) "as" ident(a) ident(E) :=
  apply bind_ok_inv in H as (a & E & H).

Section SigningKeys.
Context {env : Env}.

(** [_get_verify_key_from_key_info] gives a result for a record with exactly
    one key only. *)
Lemma get_verify_key_inv (key_info : json) (key_id : string) (vk : verify_key) :
  _get_verify_key_from_key_info (PVal key_info) = Ok (key_id, vk) ->
  exists key_data key_bytes,
    py_getitem (PVal key_info) "keys" = Ok (JObj [(key_id, key_data)])
    /\ decode_base64 key_data = Some key_bytes
    /\ decode_verify_key_bytes key_id key_bytes = Some vk.
Proof.
  unfold _get_verify_key_from_key_info. intros H.
  inv_bind H as has Ehas. destruct has; cbn [negb] in H; [|discriminate].
  inv_bind H as keys Ekeys. inv_bind H as n En.
  destruct (Nat.eqb n 1) eqn:En1; cbn [negb] in H; [|discriminate].
  inv_bind H as items Eitems. destruct keys as [| | | | |d]; try discriminate.
  simpl in En, Eitems. injection En as <-. injection Eitems as <-.
  apply Nat.eqb_eq in En1.
  destruct d as [|[k data] [|x d]]; try discriminate.
  destruct (decode_base64 data) as [bytes|] eqn:Eb; [|discriminate].
  destruct (decode_verify_key_bytes k bytes) as [v|] eqn:Ev; [|discriminate].
  injection H as <- <-. eauto.
Qed.

Lemma check_self_signing_key_inv (old : json) (user_id : string) (keys new : json) :
  check_self_signing_key old user_id keys = Ok new ->
  py_getitem (PVal keys) "self_signing_key" = Ok new
  /\ (exists uid, py_getitem (PVal new) "user_id" = Ok uid
                  /\ py_eqb uid (JStr user_id) = true)
  /\ (exists usage, py_getitem (PVal new) "usage" = Ok usage
                    /\ py_in "self_signing" (PVal usage) = Ok true)
  /\ (py_truthy old = true ->
      exists old_key_id old_vk algorithm bare rest replaces,
        _get_verify_key_from_key_info (PVal old) = Ok (old_key_id, old_vk)
        /\ str_split1 colon old_key_id = algorithm :: bare :: rest
        /\ py_getitem (PVal new) "replaces" = Ok replaces
        /\ py_eqb replaces (JStr bare) = true
        /\ (py_in "signatures" (PVal new) = Ok true ->
            has_signature_by new user_id old_key_id = Ok true
            /\ verify_signed_json new user_id old_vk = true))
  /\ (py_truthy old = false -> py_in "signatures" (PVal new) = Ok false).
Proof.
  unfold check_self_signing_key. intros H.
  inv_bind H as ssk Essk. inv_bind H as uid Euid. inv_bind H as bad Ebad.
  destruct bad; [discriminate|].
  assert (Huid : py_eqb uid (JStr user_id) = true
                 /\ exists usage, py_getitem (PVal ssk) "usage" = Ok usage
                                  /\ py_in "self_signing" (PVal usage) = Ok true).
  { destruct (py_eqb uid (JStr user_id)); cbn [negb] in Ebad; [|discriminate].
    split; [reflexivity|]. inv_bind Ebad as usage Eusage. inv_bind Ebad as u Eu.
    injection Ebad as Ebad. destruct u; [|discriminate]. eauto. }
  destruct Huid as [Huid Husage]. clear Ebad.
  inv_bind H as chain Hchain. inv_bind H as has_sig Ehas.
  inv_bind H as sig_ok Hsig. injection H as <-.
  split; [assumption|]. split; [eauto|]. split; [assumption|].
  split.
  - intros Htruthy. rewrite Htruthy in Hchain, Hsig. cbn [negb] in Hsig.
    inv_bind Hchain as has_rep Erep.
    destruct has_rep; cbn [negb] in Hchain; [|discriminate].
    inv_bind Hchain as oldk Eold. destruct oldk as [old_key_id old_vk].
    cbv beta iota in Hchain.
    inv_bind Hchain as replaces Ereplaces.
    destruct (str_split1 colon old_key_id) as [|algorithm [|bare rest]] eqn:Es;
      try discriminate.
    destruct (py_eqb replaces (JStr bare)) eqn:Er; cbn [negb] in Hchain;
      [|discriminate].
    exists old_key_id, old_vk, algorithm, bare, rest, replaces.
    do 4 (split; [assumption|]). intros Hs. split.
    + rewrite Hs in Ehas. injection Ehas as <-.
      rewrite Eold in Hsig. cbn [bind] in Hsig. cbv beta iota in Hsig.
      inv_bind Hsig as sigs Esigs. inv_bind Hsig as by_user Eby.
      inv_bind Hsig as missing Emissing. destruct missing; [discriminate|].
      unfold has_signature_by. rewrite Hs. cbn [bind negb].
      rewrite Esigs. cbn [bind]. rewrite Eby. cbn [bind].
      destruct by_user; cbn [negb] in Emissing |- *; [|discriminate].
      inv_bind Emissing as mine Emine. inv_bind Emissing as by_key Ekey.
      injection Emissing as Emissing.
      rewrite Emine. cbn [bind]. rewrite Ekey.
      destruct by_key; [reflexivity|discriminate].
    + rewrite Hs in Ehas. injection Ehas as <-.
      rewrite Eold in Hsig. cbn [bind] in Hsig. cbv beta iota in Hsig.
      inv_bind Hsig as sigs Esigs. inv_bind Hsig as by_user Eby.
      inv_bind Hsig as missing Emissing. destruct missing; [discriminate|].
      unfold verify_or_400 in Hsig.
      destruct (verify_signed_json ssk user_id old_vk); [reflexivity|discriminate].
  - intros Hfalsy. rewrite Hfalsy in Hsig. cbn [negb] in Hsig.
    destruct has_sig; [discriminate|assumption].
Qed.
End SigningKeys.

Section SigningKeys2.
Context {env : Env}.

Lemma check_user_signing_key_inv (key_id : string) (vk : verify_key)
  (user_id : string) (keys usk : json) :
  check_user_signing_key key_id vk user_id keys = Ok usk ->
  py_getitem (PVal keys) "user_signing_key" = Ok usk
  /\ (exists uid, py_getitem (PVal usk) "user_id" = Ok uid
                  /\ py_eqb uid (JStr user_id) = true)
  /\ (exists usage, py_getitem (PVal usk) "usage" = Ok usage
                    /\ py_in "user_signing" (PVal usage) = Ok true)
  /\ has_signature_by usk user_id key_id = Ok true
  /\ verify_signed_json usk user_id vk = true.
Proof.
  unfold check_user_signing_key. intros H.
  inv_bind H as k Ek. inv_bind H as uid Euid. inv_bind H as bad Ebad.
  destruct bad; [discriminate|].
  inv_bind H as has_sig Ehas. inv_bind H as missing Emissing.
  destruct missing; [discriminate|].
  inv_bind H as ok Hver. injection H as <-.
  split; [assumption|]. split; [|split; [|split]].
  - exists uid. split; [assumption|].
    destruct (py_eqb uid (JStr user_id)); [reflexivity|discriminate].
  - destruct (py_eqb uid (JStr user_id)); cbn [negb] in Ebad; [|discriminate].
    inv_bind Ebad as usage Eusage. inv_bind Ebad as u Eu.
    injection Ebad as Ebad. destruct u; [eauto|discriminate].
  - unfold has_signature_by. rewrite Ehas. cbn [bind].
    destruct has_sig; cbn [negb] in Emissing |- *; [|discriminate].
    inv_bind Emissing as sigs Esigs. inv_bind Emissing as by_user Eby.
    rewrite Esigs. cbn [bind]. rewrite Eby. cbn [bind].
    destruct by_user; cbn [negb] in Emissing |- *; [|discriminate].
    inv_bind Emissing as mine Emine. inv_bind Emissing as by_key Ekey.
    injection Emissing as Emissing. rewrite Emine. cbn [bind]. rewrite Ekey.
    destruct by_key; [reflexivity|discriminate].
  - unfold verify_or_400 in Hver.
    destruct (verify_signed_json k user_id vk); [reflexivity|discriminate].
Qed.

(** What a successful run of the checks has established. *)
Lemma check_signing_keys_inv (st : store) (user_id : string) (keys : json)
  (self_opt user_opt : option json) :
  check_signing_keys st user_id keys = Ok (self_opt, user_opt) ->
  exists (current : json) (key_id : string) (vk : verify_key),
    _get_verify_key_from_key_info (PVal current) = Ok (key_id, vk)
    /\ match self_opt with
       | Some new =>
           current = new
           /\ py_in "self_signing_key" (PVal keys) = Ok true
           /\ check_self_signing_key
                (yield_ (get_e2e_self_signing_key st user_id)) user_id keys
              = Ok new
       | None =>
           current = yield_ (get_e2e_self_signing_key st user_id)
           /\ py_in "self_signing_key" (PVal keys) = Ok false
       end
    /\ match user_opt with
       | Some usk =>
           py_in "user_signing_key" (PVal keys) = Ok true
           /\ check_user_signing_key key_id vk user_id keys = Ok usk
       | None => py_in "user_signing_key" (PVal keys) = Ok false
       end.
Proof.
  unfold check_signing_keys. intros H.
  inv_bind H as has_self Ehas. inv_bind H as current Ecur.
  inv_bind H as kv Ekv. destruct kv as [key_id vk]. cbv beta iota in H.
  inv_bind H as has_user Euser. inv_bind H as uo Euo.
  injection H as <- <-.
  exists current, key_id, vk. split; [assumption|]. split.
  - destruct has_self; [auto|]. injection Ecur as <-. auto.
  - destruct has_user.
    + inv_bind Euo as usk Eusk. injection Euo as <-. auto.
    + injection Euo as <-. assumption.
Qed.

Lemma upload_signing_keys_ok_inv (st st' : store) (user_id : string)
  (keys r : json) :
  upload_signing_keys_for_user st user_id keys = (Ok r, st') ->
  exists self_opt user_opt,
    check_signing_keys st user_id keys = Ok (self_opt, user_opt)
    /\ e2e_self_signing_keys st'
       = match self_opt with
         | Some k => dict_set user_id k (e2e_self_signing_keys st)
         | None => e2e_self_signing_keys st
         end
    /\ e2e_user_signing_keys st'
       = match user_opt with
         | Some k => dict_set user_id k (e2e_user_signing_keys st)
         | None => e2e_user_signing_keys st
         end.
Proof.
  unfold upload_signing_keys_for_user.
  destruct (check_signing_keys st user_id keys) as [[so uo]|e]; [|discriminate].
  intros [= _ <-]. exists so, uo. split; [reflexivity|].
  destruct so, uo; split; reflexivity.
Qed.
End SigningKeys2.

(** X3.  Whenever [upload_signing_keys_for_user] succeeds on an upload with
    a [self_signing_key] for a user who had one, the key now stored is the
    uploaded one, its [replaces] is the bare id of the key it replaced, and
    if it has [signatures] they hold a signature by the user under the old
    key's id that verifies with the old key. *)
Theorem replacement_follows_chain :
  forall (env : Env) (st st' : store) (user_id : string) (keys r old : json),
    dict_get user_id (e2e_self_signing_keys st) = Some old ->
    py_truthy old = true ->
    py_in "self_signing_key" (PVal keys) = Ok true ->
    upload_signing_keys_for_user st user_id keys = (Ok r, st') ->
    exists new old_key_id old_vk algorithm bare rest replaces,
      py_getitem (PVal keys) "self_signing_key" = Ok new
      /\ dict_get user_id (e2e_self_signing_keys st') = Some new
      /\ _get_verify_key_from_key_info (PVal old) = Ok (old_key_id, old_vk)
      /\ str_split1 colon old_key_id = algorithm :: bare :: rest
      /\ py_getitem (PVal new) "replaces" = Ok replaces
      /\ py_eqb replaces (JStr bare) = true
      /\ (py_in "signatures" (PVal new) = Ok true ->
          has_signature_by new user_id old_key_id = Ok true
          /\ verify_signed_json new user_id old_vk = true).
Proof.
  intros env st st' user_id keys r old Hold Htruthy Hself Hup.
  destruct (upload_signing_keys_ok_inv _ _ _ _ _ Hup) as (so & uo & Hchk & Hs & _).
  destruct (check_signing_keys_inv _ _ _ _ _ Hchk)
    as (current & key_id & vk & _ & Hso & _).
  destruct so as [new|]; [|destruct Hso as [_ Hno]; congruence].
  destruct Hso as (_ & _ & Hcheck).
  unfold get_e2e_self_signing_key in Hcheck. rewrite Hold in Hcheck.
  cbn [or_none yield_] in Hcheck.
  destruct (check_self_signing_key_inv _ _ _ _ Hcheck)
    as (Hget & _ & _ & Hchain & _).
  destruct (Hchain Htruthy)
    as (old_key_id & old_vk & algorithm & bare & rest & replaces & H1 & H2 & H3 & H4 & H5).
  exists new, old_key_id, old_vk, algorithm, bare, rest, replaces.
  split; [assumption|]. split; [|auto 6].
  rewrite Hs. apply dict_get_set_same.
Qed.

(** X1.  [_get_verify_key_from_key_info] on an object: without [keys], or
    with [keys] of a length other than one, it raises the client error 400
    "Invalid key"; and it gives a key id and a verify key only for [keys]
    with exactly one entry, whose id is the one returned and whose data
    decodes to the verify key. *)
Theorem verify_key_needs_single_key :
  forall (env : Env) (d : dict json),
    (dict_mem "keys" d = false ->
     _get_verify_key_from_key_info (PVal (JObj d))
     = Raise (SynapseError 400 "Invalid key"))
    /\ (forall keys n,
          dict_get "keys" d = Some keys ->
          py_len keys = Ok n -> n <> 1%nat ->
          _get_verify_key_from_key_info (PVal (JObj d))
          = Raise (SynapseError 400 "Invalid key"))
    /\ (forall key_id vk,
          _get_verify_key_from_key_info (PVal (JObj d)) = Ok (key_id, vk) ->
          exists key_data key_bytes,
            dict_get "keys" d = Some (JObj [(key_id, key_data)])
            /\ decode_base64 key_data = Some key_bytes
            /\ decode_verify_key_bytes key_id key_bytes = Some vk).
Proof.
  intros env d. split; [|split].
  - intros Hno. unfold _get_verify_key_from_key_info.
    now rewrite py_in_obj, Hno.
  - intros keys n Hkeys Hlen Hn. unfold _get_verify_key_from_key_info.
    rewrite py_in_obj, (dict_get_mem _ _ _ Hkeys), bind_ok. cbn [negb].
    rewrite (py_getitem_some _ _ _ Hkeys), bind_ok, Hlen, bind_ok.
    apply Nat.eqb_neq in Hn. now rewrite Hn.
  - intros key_id vk H.
    destruct (get_verify_key_inv _ _ _ H) as (data & bytes & Hk & Hb & Hv).
    exists data, bytes. split; [|auto].
    unfold py_getitem in Hk. destruct (dict_get "keys" d); congruence.
Qed.

Lemma verify_key_needs_single_key_witness :
  _get_verify_key_from_key_info (PVal (JObj two_key_record))
  = Raise (SynapseError 400 "Invalid key").
Proof.
  apply (proj1 (proj2 (verify_key_needs_single_key toy_env two_key_record))
           (JObj [("ed25519:" ++ key1_b64, JStr key1_b64);
                  ("ed25519:" ++ key2_b64, JStr key2_b64)]) 2%nat eq_refl eq_refl).
  lia.
Defined.

(** X2.  For a user with a stored self-signing key, an upload of a new one
    (of valid user id and usage) that has no [replaces], or whose [replaces]
    is not the stored key's bare id, is rejected with a client error 400 and
    the store is left as it was. *)
Theorem replacement_must_name_stored_key :
  forall (env : Env) (st : store) (user_id : string) (old : json)
         (d k : dict json) (uid usage : json)
         (old_key_id algorithm bare : string) (rest : list string)
         (old_vk : verify_key),
    dict_get user_id (e2e_self_signing_keys st) = Some old ->
    py_truthy old = true ->
    _get_verify_key_from_key_info (PVal old) = Ok (old_key_id, old_vk) ->
    str_split1 colon old_key_id = algorithm :: bare :: rest ->
    dict_get "self_signing_key" d = Some (JObj k) ->
    dict_get "user_id" k = Some uid ->
    py_eqb uid (JStr user_id) = true ->
    dict_get "usage" k = Some usage ->
    py_in "self_signing" (PVal usage) = Ok true ->
    dict_mem "replaces" k = false
    \/ (exists replaces, dict_get "replaces" k = Some replaces
                         /\ py_eqb replaces (JStr bare) = false) ->
    exists msg,
      upload_signing_keys_for_user st user_id (JObj d)
      = (Raise (SynapseError 400 msg), st).
Proof.
  intros env st user_id old d k uid usage old_key_id algorithm bare rest old_vk
    Hstored Htruthy Hold Hsplit Hself Huid Heq Husage Hin Hbad.
  unfold upload_signing_keys_for_user, check_signing_keys,
    get_e2e_self_signing_key.
  rewrite Hstored. cbn [or_none yield_].
  rewrite py_in_obj, (dict_get_mem _ _ _ Hself), bind_ok.
  unfold check_self_signing_key.
  rewrite (py_getitem_some _ _ _ Hself), bind_ok.
  rewrite (py_getitem_some _ _ _ Huid), bind_ok, Heq. cbn [negb].
  rewrite (py_getitem_some _ _ _ Husage), bind_ok, Hin, !bind_ok.
  cbn [negb]. rewrite Htruthy, py_in_obj.
  destruct Hbad as [Hno | (replaces & Hrep & Hne)].
  - rewrite Hno. cbn. eauto.
  - rewrite (dict_get_mem _ _ _ Hrep), bind_ok. cbn [negb].
    rewrite Hold, bind_ok, (py_getitem_some _ _ _ Hrep), bind_ok, Hsplit, Hne.
    cbn. eauto.
Qed.

Lemma replacement_must_name_stored_key_witness :
  (exists msg, upload_signing_keys_for_user store1 boris keys2_no_replaces
               = (Raise (SynapseError 400 msg), store1))
  /\ (exists msg, upload_signing_keys_for_user store1 boris keys2_wrong_replaces
                  = (Raise (SynapseError 400 msg), store1)).
Proof.
  split.
  - eapply (replacement_must_name_stored_key toy_env store1 boris
              (signing_key "self_signing" key1_b64 []) _ _ (JStr boris)
              (JList [JStr "self_signing"]) ("ed25519:" ++ key1_b64)
              "ed25519" key1_b64 [] ("ed25519:" ++ key1_b64, key1_b64));
      try reflexivity.
    left. reflexivity.
  - eapply (replacement_must_name_stored_key toy_env store1 boris
              (signing_key "self_signing" key1_b64 []) _ _ (JStr boris)
              (JList [JStr "self_signing"]) ("ed25519:" ++ key1_b64)
              "ed25519" key1_b64 [] ("ed25519:" ++ key1_b64, key1_b64));
      try reflexivity.
    right. exists (JStr "wrong+id"). split; reflexivity.
Defined.

Lemma replacement_follows_chain_witness :
  exists new replaces,
    dict_get boris
      (e2e_self_signing_keys
         (snd (upload_signing_keys_for_user store1 boris keys2_signed)))
    = Some new
    /\ py_getitem (PVal new) "replaces" = Ok replaces
    /\ py_eqb replaces (JStr key1_b64) = true.
Proof.
  assert (Hup : upload_signing_keys_for_user store1 boris keys2_signed
                = (Ok (JObj []),
                   snd (upload_signing_keys_for_user store1 boris keys2_signed)))
    by reflexivity.
  destruct (replacement_follows_chain toy_env store1 _ boris keys2_signed
              (JObj []) (signing_key "self_signing" key1_b64 [])
              eq_refl eq_refl eq_refl Hup)
    as (new & old_key_id & old_vk & algorithm & bare & rest & replaces
        & _ & Hstored & Hold & Hsplit & Hrep & Heq & _).
  exists new, replaces. split; [exact Hstored|]. split; [exact Hrep|].
  vm_compute in Hold. injection Hold as <- _.
  vm_compute in Hsplit. injection Hsplit as _ <- _. exact Heq.
Defined.

(** X4.  If every stored self-signing key names its owner, has
    [self_signing] in its usage and has exactly one verify key that decodes,
    the same holds after [upload_signing_keys_for_user], whatever it is
    given and whether it succeeds or raises. *)
Theorem self_signing_keys_stay_good :
  forall (env : Env) (st : store) (user_id : string) (keys : json),
    self_signing_keys_good st ->
    self_signing_keys_good (snd (upload_signing_keys_for_user st user_id keys)).
Proof.
  intros env st user_id keys Hgood.
  destruct (upload_signing_keys_for_user st user_id keys) as [[r|e] st'] eqn:Hup.
  - destruct (upload_signing_keys_ok_inv _ _ _ _ _ Hup) as (so & uo & Hchk & Hs & _).
    destruct (check_signing_keys_inv _ _ _ _ _ Hchk)
      as (current & key_id & vk & Hvk & Hso & _).
    cbn [snd]. intros u key. rewrite Hs.
    destruct so as [new|]; [|apply Hgood].
    destruct Hso as (-> & _ & Hcheck).
    destruct (string_dec user_id u) as [<-|Hne].
    + rewrite dict_get_set_same. intros [= <-].
      destruct (check_self_signing_key_inv _ _ _ _ Hcheck)
        as (_ & Huid & Husage & _).
      repeat split; eauto.
    + rewrite dict_get_set_other by assumption. apply Hgood.
  - unfold upload_signing_keys_for_user in Hup.
    destruct (check_signing_keys st user_id keys) as [[so uo]|e']; [discriminate|].
    injection Hup as _ <-. exact Hgood.
Qed.

Lemma self_signing_keys_stay_good_witness :
  good_self_signing_key boris (signing_key "self_signing" key1_b64 []).
Proof.
  apply (self_signing_keys_stay_good toy_env empty_store boris keys1).
  - intros u key H. discriminate H.
  - reflexivity.
Defined.

(** X5.  Whenever [upload_signing_keys_for_user] succeeds on an upload with
    a [user_signing_key], the key now stored is the uploaded one and it has a
    signature by the user, under the id of the self-signing key that is
    current after the call, that verifies with that key. *)
Theorem user_signing_key_stored_only_if_signed :
  forall (env : Env) (st st' : store) (user_id : string) (keys r : json),
    py_in "user_signing_key" (PVal keys) = Ok true ->
    upload_signing_keys_for_user st user_id keys = (Ok r, st') ->
    exists usk key_id vk,
      py_getitem (PVal keys) "user_signing_key" = Ok usk
      /\ dict_get user_id (e2e_user_signing_keys st') = Some usk
      /\ _get_verify_key_from_key_info
           (PVal (yield_ (get_e2e_self_signing_key st' user_id)))
         = Ok (key_id, vk)
      /\ has_signature_by usk user_id key_id = Ok true
      /\ verify_signed_json usk user_id vk = true.
Proof.
  intros env st st' user_id keys r Huser Hup.
  destruct (upload_signing_keys_ok_inv _ _ _ _ _ Hup) as (so & uo & Hchk & Hs & Hu).
  destruct (check_signing_keys_inv _ _ _ _ _ Hchk)
    as (current & key_id & vk & Hvk & Hso & Huo).
  destruct uo as [usk|]; [|congruence].
  destruct Huo as [_ Hcheck].
  destruct (check_user_signing_key_inv _ _ _ _ _ Hcheck)
    as (Hget & _ & _ & Hsig & Hver).
  exists usk, key_id, vk. split; [assumption|]. split.
  { rewrite Hu. apply dict_get_set_same. }
  split; [|auto].
  unfold get_e2e_self_signing_key. rewrite Hs. cbn [yield_].
  destruct so as [new|].
  - destruct Hso as (-> & _). now rewrite dict_get_set_same.
  - destruct Hso as (-> & _). exact Hvk.
Qed.

Lemma user_signing_key_stored_only_if_signed_witness :
  exists usk,
    dict_get boris
      (e2e_user_signing_keys
         (snd (upload_signing_keys_for_user store1 boris user_signing_signed)))
    = Some usk
    /\ verify_signed_json usk boris ("ed25519:" ++ key1_b64, key1_b64) = true.
Proof.
  assert (Hup : upload_signing_keys_for_user store1 boris user_signing_signed
                = (Ok (JObj []),
                   snd (upload_signing_keys_for_user store1 boris
                          user_signing_signed)))
    by reflexivity.
  destruct (user_signing_key_stored_only_if_signed toy_env store1 _ boris
              user_signing_signed (JObj []) eq_refl Hup)
    as (usk & key_id & vk & _ & Hstored & Hvk & _ & Hver).
  exists usk. split; [exact Hstored|].
  vm_compute in Hvk. injection Hvk as _ <-. exact Hver.
Defined.

(** X6.  For a user with a stored self-signing key, an upload of a
    user-signing key alone (of valid user id and usage) that has no signature
    by the user under the self-signing key's id, or whose signature does not
    verify, is rejected with 400 "Invalid signature on user-signing key" and
    the store is left as it was. *)
Theorem user_signing_key_needs_signature :
  forall (env : Env) (st : store) (user_id : string) (current : json)
         (d k : dict json) (uid usage : json) (key_id : string)
         (vk : verify_key),
    dict_get user_id (e2e_self_signing_keys st) = Some current ->
    _get_verify_key_from_key_info (PVal current) = Ok (key_id, vk) ->
    dict_mem "self_signing_key" d = false ->
    dict_get "user_signing_key" d = Some (JObj k) ->
    dict_get "user_id" k = Some uid ->
    py_eqb uid (JStr user_id) = true ->
    dict_get "usage" k = Some usage ->
    py_in "user_signing" (PVal usage) = Ok true ->
    has_signature_by (JObj k) user_id key_id = Ok false
    \/ (has_signature_by (JObj k) user_id key_id = Ok true
        /\ verify_signed_json (JObj k) user_id vk = false) ->
    upload_signing_keys_for_user st user_id (JObj d)
    = (Raise (SynapseError 400 "Invalid signature on user-signing key"), st).
Proof.
  intros env st user_id current d k uid usage key_id vk
    Hstored Hvk Hnoself Huser Huid Heq Husage Hin Hbad.
  unfold upload_signing_keys_for_user, check_signing_keys,
    get_e2e_self_signing_key.
  rewrite Hstored. cbn [or_none yield_].
  rewrite py_in_obj, Hnoself, !bind_ok, Hvk, bind_ok.
  cbv beta iota.
  rewrite py_in_obj, (dict_get_mem _ _ _ Huser), bind_ok.
  unfold check_user_signing_key.
  rewrite (py_getitem_some _ _ _ Huser), bind_ok.
  rewrite (py_getitem_some _ _ _ Huid), bind_ok, Heq. cbn [negb].
  rewrite (py_getitem_some _ _ _ Husage), bind_ok, Hin, !bind_ok.
  cbn [negb]. unfold has_signature_by in Hbad.
  rewrite py_in_obj in Hbad |- *.
  destruct (dict_mem "signatures" k) eqn:Es; cbn [bind negb] in Hbad |- *.
  - destruct (py_getitem (PVal (JObj k)) "signatures") as [sigs|e] eqn:Eg;
      cbn [bind] in Hbad |- *.
    + destruct (py_in user_id (PVal sigs)) as [[|]|e] eqn:Eu;
        cbn [bind negb] in Hbad |- *.
      * destruct (py_getitem (PVal sigs) user_id) as [mine|e] eqn:Em;
          cbn [bind] in Hbad |- *.
        -- destruct Hbad as [Hbad | [Hbad Hver]]; rewrite Hbad; cbn [bind negb].
           ++ reflexivity.
           ++ unfold verify_or_400. now rewrite Hver.
        -- destruct Hbad as [Hbad | [Hbad _]]; discriminate.
      * reflexivity.
      * destruct Hbad as [Hbad | [Hbad _]]; discriminate.
    + destruct Hbad as [Hbad | [Hbad _]]; discriminate.
  - reflexivity.
Qed.

Lemma user_signing_key_needs_signature_witness :
  upload_signing_keys_for_user store1 boris user_signing_bad_signature
  = (Raise (SynapseError 400 "Invalid signature on user-signing key"), store1).
Proof.
  eapply (user_signing_key_needs_signature toy_env store1 boris
            (signing_key "self_signing" key1_b64 []) _ _ (JStr boris)
            (JList [JStr "user_signing"]) ("ed25519:" ++ key1_b64)
            ("ed25519:" ++ key1_b64, key1_b64));
    try reflexivity.
  right. split; reflexivity.
Defined.

(** ** One-time keys, further *)

Lemma dict_del_set_same {V : Type} (k : string) (v : V) (d : dict V) :
  dict_del k (dict_set k v d) = dict_del k d.
Proof.
  induction d as [|[k0 v0] d IH]; simpl.
  - now rewrite String.eqb_refl.
  - destruct (String.eqb k k0) eqn:E; simpl; rewrite E; [reflexivity|].
    now rewrite IH.
Qed.

Lemma str_split_length (sep : ascii) (s : string) :
  length (str_split sep s) = S (count_char sep s).
Proof.
  induction s as [|c s IH]; simpl; [reflexivity|].
  destruct (Ascii.eqb c sep); simpl; [now rewrite IH|].
  destruct (str_split sep s) as [|w ws]; simpl in *; [discriminate|].
  assumption.
Qed.

Section OneTimeKeys2.
Context {env : Env}.

(** The comparison does not look at the [signatures] of the new key. *)
Lemma one_time_keys_match_with_signatures (text : string) (s key : json) :
  _one_time_keys_match text (with_signatures s key)
  = _one_time_keys_match text key.
Proof.
  unfold _one_time_keys_match. destruct (json_loads text) as [old|]; [|reflexivity].
  destruct key as [| | | | |d]; try reflexivity.
  simpl with_signatures. destruct old; try reflexivity.
  now rewrite dict_del_set_same.
Qed.

Lemma make_key_list_resigned (sigs : string -> json) (one_time_keys : dict json) :
  make_key_list (resigned sigs one_time_keys)
  = match make_key_list one_time_keys with
    | Ok key_list =>
        Ok (map (fun '(a, k, key) =>
                   (a, k, with_signatures (sigs (a ++ ":" ++ k)) key)) key_list)
    | Raise e => Raise e
    end.
Proof.
  induction one_time_keys as [|[key_id key_obj] rest IH]; simpl; [reflexivity|].
  destruct (str_split colon key_id) as [|a [|k [|x l]]] eqn:Es; try reflexivity.
  rewrite IH. destruct (make_key_list rest); simpl; [|reflexivity].
  now rewrite (str_split_join _ _ _ Es).
Qed.

Lemma make_key_list_In (one_time_keys : dict json) :
  forall key_list,
    make_key_list one_time_keys = Ok key_list ->
    forall a k key, In (a, k, key) key_list ->
                    In (a ++ ":" ++ k, key) one_time_keys.
Proof.
  induction one_time_keys as [|[key_id key_obj] rest IH]; intros kl H; simpl in H.
  - injection H as <-. intros a k key [].
  - destruct (str_split colon key_id) as [|a0 [|k0 [|x l]]] eqn:Es;
      try discriminate.
    apply bind_ok_inv in H as (tl & Htl & H). injection H as <-.
    intros a k key [[= <- <- <-]|Hin].
    + left. now rewrite (str_split_join _ _ _ Es).
    + right. eapply IH; eauto.
Qed.

Lemma collect_new_keys_resigned (E : list (string * string * string))
  (f : string -> string -> json -> json) (key_list : list (string * string * json)) :
  (forall a k key text, _one_time_keys_match text (f a k key)
                        = _one_time_keys_match text key) ->
  (forall a k key, In (a, k, key) key_list ->
     is_ascii (encode_canonical_json key) = true
     /\ is_ascii (encode_canonical_json (f a k key)) = true) ->
  match collect_new_keys E key_list,
        collect_new_keys E (map (fun '(a, k, key) => (a, k, f a k key)) key_list)
  with
  | Ok _, Ok _ => True
  | Raise e, Raise e' => e = e'
  | _, _ => False
  end.
Proof.
  intros Hf. induction key_list as [|[[a k] key] rest IH]; intros Hascii; simpl;
    [exact I|].
  assert (IH' := IH (fun a' k' key' Hin => Hascii a' k' key' (or_intror Hin))).
  destruct (text_truthy (key_map_get a k E)).
  - rewrite Hf.
    destruct (_one_time_keys_match
                match key_map_get a k E with Some t => t | None => "" end key)
      as [[|]|e]; simpl; auto.
  - destruct (Hascii a k key (or_introl eq_refl)) as [H1 H2].
    rewrite (decode_ascii_ok _ H1), (decode_ascii_ok _ H2), !bind_ok.
    destruct (collect_new_keys E rest),
             (collect_new_keys E (map (fun '(a, k, key) => (a, k, f a k key)) rest));
      simpl; auto.
Qed.

Lemma decode_ascii_inv (b text : string) : decode_ascii b = Ok text -> text = b.
Proof.
  unfold decode_ascii. destruct (is_ascii b); [now intros [= <-]|discriminate].
Qed.

Lemma key_ids_map (f : string -> string -> json -> json)
  (key_list : list (string * string * json)) :
  key_ids (map (fun '(a, k, key) => (a, k, f a k key)) key_list)
  = key_ids key_list.
Proof.
  unfold key_ids. rewrite map_map. apply map_ext. now intros [[a k] key].
Qed.

Lemma collect_new_keys_ids (E : list (string * string * string))
  (key_list : list (string * string * json)) :
  forall new_keys,
    collect_new_keys E key_list = Ok new_keys ->
    forall a k t, In (a, k, t) new_keys -> In k (key_ids key_list).
Proof.
  induction key_list as [|[[a0 k0] key0] rest IH]; simpl; intros new_keys H.
  - injection H as <-. intros a k t [].
  - destruct (text_truthy (key_map_get a0 k0 E)).
    + apply bind_ok_inv in H as (m & _ & H).
      destruct m; cbn [negb] in H; [|discriminate].
      intros a k t Hin. right. eapply IH; eauto.
    + apply bind_ok_inv in H as (text & _ & H).
      apply bind_ok_inv in H as (tl & Htl & H). injection H as <-.
      intros a k t [[= <- <- <-]|Hin]; [now left|right; eapply IH; eauto].
Qed.

Lemma collect_new_keys_inserted (E : list (string * string * string))
  (key_list : list (string * string * json)) :
  forall new_keys,
    collect_new_keys E key_list = Ok new_keys ->
    NoDup (pairs key_list) ->
    forall a k key,
      In (a, k, key) key_list ->
      key_map_get a k E = None ->
      key_map_get a k new_keys = Some (encode_canonical_json key).
Proof.
  induction key_list as [|[[a0 k0] key0] rest IH]; simpl;
    intros new_keys H Hnd a k key Hin Hnone; [destruct Hin|].
  inversion Hnd as [|? ? Hnotin Hnd']; subst.
  assert (Hrest : In (a, k, key) rest -> String.eqb a a0 && String.eqb k k0 = false).
  { intros Hr. apply andb_false_iff.
    destruct (String.eqb a a0) eqn:Ea; [|now left].
    destruct (String.eqb k k0) eqn:Ek; [|now right].
    apply String.eqb_eq in Ea, Ek. subst. exfalso. apply Hnotin.
    unfold pairs. apply in_map_iff. now exists (a0, k0, key). }
  destruct (text_truthy (key_map_get a0 k0 E)) eqn:Et.
  - apply bind_ok_inv in H as (m & _ & H).
    destruct m; cbn [negb] in H; [|discriminate].
    destruct Hin as [[= -> -> ->]|Hin].
    + rewrite Hnone in Et. discriminate.
    + eapply IH; eauto.
  - apply bind_ok_inv in H as (text & Etext & H).
    apply decode_ascii_inv in Etext. subst text.
    apply bind_ok_inv in H as (tl & Htl & H). injection H as <-.
    destruct Hin as [[= -> -> ->]|Hin].
    + simpl. now rewrite !String.eqb_refl.
    + simpl. rewrite (Hrest Hin). eapply IH; eauto.
Qed.



Lemma make_key_list_malformed (one_time_keys : dict json) :
  (exists key_id key, In (key_id, key) one_time_keys
                      /\ count_char colon key_id <> 1%nat) ->
  exists msg, make_key_list one_time_keys = Raise (ValueError msg).
Proof.
  induction one_time_keys as [|[k0 v0] rest IH]; intros (key_id & key & Hin & Hbad).
  - destruct Hin.
  - simpl. pose proof (str_split_length colon k0) as Hlen.
    destruct (str_split colon k0) as [|a [|k [|x l]]] eqn:Es; eauto.
    simpl in Hlen. injection Hlen as Hlen.
    destruct Hin as [[= -> ->]|Hin]; [congruence|].
    destruct IH as [msg ->]; [exists key_id, key; now split|].
    simpl. eauto.
Qed.

Lemma upload_resigned (st : store) (user_id device_id : string) (time_now : Z)
  (one_time_keys : dict json) (sigs : string -> json) :
  (forall key_id key, In (key_id, key) one_time_keys ->
     is_ascii (encode_canonical_json key) = true
     /\ is_ascii (encode_canonical_json (with_signatures (sigs key_id) key))
        = true) ->
  match fst (_upload_one_time_keys_for_user st user_id device_id time_now
               one_time_keys),
        fst (_upload_one_time_keys_for_user st user_id device_id time_now
               (resigned sigs one_time_keys))
  with
  | Ok _, Ok _ => True
  | Raise e, Raise e' => e = e'
  | _, _ => False
  end.
Proof.
  intros Hascii. unfold _upload_one_time_keys_for_user.
  rewrite make_key_list_resigned.
  destruct (make_key_list one_time_keys) as [kl|e] eqn:Ekl; simpl; [|reflexivity].
  fold (key_ids kl).
  fold (key_ids (map (fun '(a, k, key) =>
                        (a, k, with_signatures (sigs (a ++ ":" ++ k)) key)) kl)).
  rewrite (key_ids_map (fun a k key => with_signatures (sigs (a ++ ":" ++ k)) key)).
  pose proof (collect_new_keys_resigned
                (get_e2e_one_time_keys st user_id device_id (key_ids kl))
                (fun a k key => with_signatures (sigs (a ++ ":" ++ k)) key) kl
                (fun a k key text =>
                   one_time_keys_match_with_signatures text _ key)
                (fun a k key Hin =>
                   Hascii _ _ (make_key_list_In _ _ Ekl a k key Hin))) as H.
  destruct (collect_new_keys _ kl), (collect_new_keys _ (map _ kl)); simpl; auto.
Qed.
End OneTimeKeys2.

(** X7.  Setting or changing the [signatures] member of the objects of a
    one-time-key upload, when the canonical JSON of its keys is ASCII before
    and after, changes neither whether the upload succeeds nor whether it is
    rejected with the client error 400. *)
Theorem new_signatures_do_not_change_acceptance :
  forall (env : Env) (st : store) (user_id device_id : string) (time_now : Z)
         (one_time_keys : dict json) (sigs : string -> json),
    (forall key_id key, In (key_id, key) one_time_keys ->
       is_ascii (encode_canonical_json key) = true
       /\ is_ascii (encode_canonical_json (with_signatures (sigs key_id) key))
          = true) ->
    (fst (_upload_one_time_keys_for_user st user_id device_id time_now
            (resigned sigs one_time_keys)) = Ok tt
     <-> fst (_upload_one_time_keys_for_user st user_id device_id time_now
                one_time_keys) = Ok tt)
    /\ is_client_error
         (fst (_upload_one_time_keys_for_user st user_id device_id time_now
                 (resigned sigs one_time_keys)))
       = is_client_error
           (fst (_upload_one_time_keys_for_user st user_id device_id time_now
                   one_time_keys)).
Proof.
  intros env st u d t otks sigs Hascii.
  pose proof (upload_resigned st u d t otks sigs Hascii) as H.
  destruct (fst (_upload_one_time_keys_for_user st u d t otks)) as [[]|e],
           (fst (_upload_one_time_keys_for_user st u d t (resigned sigs otks)))
             as [[]|e']; try contradiction.
  - split; [tauto|reflexivity].
  - subst e'. split; [tauto|reflexivity].
Qed.


(** X9.  After a successful upload, a key of the upload that the store did
    not hold is found in the store under its algorithm and key id, with the
    canonical JSON of the uploaded value as its text. *)
Theorem new_one_time_keys_are_stored :
  forall (env : Env) (st : store) (user_id device_id : string) (time_now : Z)
         (one_time_keys : dict json) (key_list : list (string * string * json))
         (algorithm key_id : string) (key : json),
    make_key_list one_time_keys = Ok key_list ->
    NoDup (dict_keys one_time_keys) ->
    fst (_upload_one_time_keys_for_user st user_id device_id time_now
           one_time_keys) = Ok tt ->
    In (algorithm, key_id, key) key_list ->
    key_map_get algorithm key_id
      (get_e2e_one_time_keys st user_id device_id (key_ids key_list)) = None ->
    key_map_get algorithm key_id
      (get_e2e_one_time_keys
         (snd (_upload_one_time_keys_for_user st user_id device_id time_now
                 one_time_keys)) user_id device_id (key_ids key_list))
    = Some (encode_canonical_json key).
Proof.
  intros env st u d t otks kl a k key Hkl Hnd Hok Hin Hnone.
  unfold _upload_one_time_keys_for_user in Hok |- *.
  rewrite Hkl, bind_ok in Hok |- *. fold (key_ids kl) in Hok |- *.
  destruct (collect_new_keys (get_e2e_one_time_keys st u d (key_ids kl)) kl)
    as [new_keys|e] eqn:Ec; [|discriminate].
  cbn [snd].
  rewrite get_after_add by (eapply collect_new_keys_ids; eauto).
  rewrite key_map_get_app, Hnone.
  eapply collect_new_keys_inserted; eauto.
  eapply make_key_list_pairs; eauto.
Qed.

(** X10.  A one-time-key upload with a key id that does not have exactly
    one colon raises [ValueError], not a client error, and stores none of
    the keys. *)
Theorem malformed_key_id_aborts_upload :
  forall (env : Env) (st : store) (user_id device_id : string) (time_now : Z)
         (one_time_keys : dict json) (key_id : string) (key : json),
    In (key_id, key) one_time_keys ->
    count_char colon key_id <> 1%nat ->
    exists msg,
      _upload_one_time_keys_for_user st user_id device_id time_now one_time_keys
      = (Raise (ValueError msg), st).
Proof.
  intros env st u d t otks key_id key Hin Hbad.
  unfold _upload_one_time_keys_for_user.
  destruct (make_key_list_malformed otks) as [msg ->]; [eauto|].
  simpl. eauto.
Qed.

(** ** Device keys of local users, further *)

Section LocalDevices2.
Context {env : Env}.

Lemma scan_local_query_app (pre rest : dict (option (list string))) :
  forall local_query result_dict,
    all_local pre = true ->
    exists local_query' result_dict',
      scan_local_query (pre ++ rest)%list local_query result_dict
      = scan_local_query rest local_query' result_dict'.
Proof.
  induction pre as [|[u ids] pre IH]; intros lq rd Hall; simpl.
  - eauto.
  - simpl in Hall. apply andb_true_iff in Hall as [Hu Hpre].
    destruct (from_string u) as [uid|]; [|discriminate].
    rewrite bind_ok, Hu. cbn [negb]. apply IH. exact Hpre.
Qed.

Lemma scan_local_query_empty (query : dict (option (list string))) :
  forall local_query result_dict local_query' result_dict',
    scan_local_query query local_query result_dict
    = Ok (local_query', result_dict') ->
    (forall u m, dict_get u result_dict = Some m -> m = []) ->
    forall u m, dict_get u result_dict' = Some m -> m = [].
Proof.
  induction query as [|[u0 ids] rest IH]; intros lq rd lq' rd' H Hempty; simpl in H.
  - injection H as <- <-. exact Hempty.
  - apply bind_ok_inv in H as (uid & _ & H).
    destruct (is_mine uid); cbn [negb] in H; [|discriminate].
    eapply IH; [exact H|].
    intros u m. destruct (string_dec u0 u) as [<-|Hne].
    + rewrite dict_get_set_same. now intros [= <-].
    + rewrite dict_get_set_other by assumption. apply Hempty.
Qed.

Variable st : store.

Lemma add_user_devices_entries (u : string) (device_keys : dict json) :
  forall result_dict result_dict',
    add_user_devices u device_keys result_dict = Ok (Some result_dict') ->
    (forall d info, In (d, info) device_keys ->
       exists devices, dict_get u (e2e_device_keys st) = Some devices
                       /\ In (d, info) devices) ->
    entries_from_store st result_dict ->
    entries_from_store st result_dict'.
Proof.
  induction device_keys as [|[d info] rest IH]; intros rd rd' H Hstored Hinv;
    simpl in H.
  - now injection H as <-.
  - apply bind_ok_inv in H as (keys & Ekeys & H).
    apply bind_ok_inv in H as ([r|] & Er & H); [|discriminate].
    apply bind_ok_inv in H as (name & Ename & H).
    destruct (dict_get u rd) as [devices|] eqn:Eu; [|discriminate].
    eapply IH; [exact H| |].
    { intros d' info' Hin. apply Hstored. now right. }
    assert (Hset : forall v, dict_set u (dict_set d v devices) rd
                             = dict_set2 u d v rd).
    { intros v. unfold dict_set2. now rewrite Eu. }
    rewrite Hset. intros u' d' entry.
    destruct (string_dec u u') as [<-|Hu];
      [destruct (string_dec d d') as [<-|Hd]|].
    + rewrite dict_get2_set2_same. intros [= <-].
      destruct (Hstored d info (or_introl eq_refl)) as (devs & Hdevs & Hin).
      exists devs, info. split; [assumption|]. split; [assumption|].
      exists r, name. split; [|split; [assumption|reflexivity]].
      rewrite Ekeys. exact Er.
    + rewrite dict_get2_set2_other by auto. apply Hinv.
    + rewrite dict_get2_set2_other by auto. apply Hinv.
Qed.

Lemma add_all_devices_entries (results : dict (dict json)) :
  forall result_dict result_dict',
    add_all_devices results result_dict = Ok (Some result_dict') ->
    (forall u m, In (u, m) results ->
       forall d info, In (d, info) m ->
         exists devices, dict_get u (e2e_device_keys st) = Some devices
                         /\ In (d, info) devices) ->
    entries_from_store st result_dict ->
    entries_from_store st result_dict'.
Proof.
  induction results as [|[u m] rest IH]; intros rd rd' H Hstored Hinv; simpl in H.
  - now injection H as <-.
  - apply bind_ok_inv in H as ([rd1|] & E1 & H); [|discriminate].
    eapply IH; [exact H| |].
    { intros u' m' Hin. apply Hstored. now right. }
    eapply add_user_devices_entries; eauto.
    apply (Hstored u m). now left.
Qed.
End LocalDevices2.

(** X11.  [query_local_devices] fails as a whole on the first requested
    user that is not a local user: with 400 "Not a user here" when the id
    parses, with the parser's error when it does not, whatever comes after
    it in the query. *)
Theorem first_foreign_user_fails_the_query :
  forall (env : Env) (st : store) (pre post : dict (option (list string)))
         (user_id : string) (device_ids : option (list string)),
    all_local pre = true ->
    match from_string user_id with
    | Ok uid => is_mine uid = false
    | Raise _ => True
    end ->
    query_local_devices st (pre ++ (user_id, device_ids) :: post)%list
    = match from_string user_id with
      | Ok _ => Raise (SynapseError 400 "Not a user here")
      | Raise e => Raise e
      end.
Proof.
  intros env st pre post u ids Hpre Hbad. unfold query_local_devices.
  destruct (scan_local_query_app pre ((u, ids) :: post) [] [] Hpre)
    as (lq & rd & ->).
  simpl. destruct (from_string u) as [uid|e]; simpl; [|reflexivity].
  now rewrite Hbad.
Qed.

Lemma first_foreign_user_fails_the_query_witness :
  query_local_devices store_two_devices
    [(boris, None); ("@boris:elsewhere", None)]
  = Raise (SynapseError 400 "Not a user here").
Proof.
  exact (first_foreign_user_fails_the_query toy_env store_two_devices
           [(boris, None)] [] "@boris:elsewhere" None eq_refl eq_refl).
Defined.

(** X12.  Every device in the result of [query_local_devices] is a stored
    device of that user, and its object is the stored keys with [unsigned]
    replaced: by the display name alone, or by an empty object when the
    device has no name. *)
Theorem returned_devices_come_from_the_store :
  forall (env : Env) (st : store) (query : dict (option (list string)))
         (result_dict : dict (dict json)),
    query_local_devices st query = Ok (Some result_dict) ->
    forall user_id device_id entry,
      dict_get2 user_id device_id result_dict = Some entry ->
      exists devices info,
        dict_get user_id (e2e_device_keys st) = Some devices
        /\ In (device_id, info) devices
        /\ device_entry info entry.
Proof.
  intros env st query res H. unfold query_local_devices in H.
  apply bind_ok_inv in H as ([lq rd] & Escan & H). cbv beta iota in H.
  eapply (add_all_devices_entries st); [exact H| |].
  - intros u m Hin d info Hd.
    destruct (get_e2e_device_keys_ok st lq u m Hin) as (_ & _ & Hstored).
    now apply Hstored.
  - intros u d entry Hget. unfold dict_get2 in Hget.
    destruct (dict_get u rd) as [m|] eqn:Em; [|discriminate].
    rewrite (scan_local_query_empty _ _ _ _ _ Escan
               ltac:(intros ? ? ?; discriminate) u m Em) in Hget.
    discriminate.
Qed.

Lemma returned_devices_come_from_the_store_witness :
  exists result_dict,
    query_local_devices store_two_devices [(boris, None)] = Ok (Some result_dict)
    /\ dict_get2 boris "abc" result_dict
       = Some (JObj [("unsigned", JObj [])])
    /\ exists devices info,
         dict_get boris (e2e_device_keys store_two_devices) = Some devices
         /\ In ("abc", info) devices
         /\ device_entry info (JObj [("unsigned", JObj [])]).
Proof.
  eexists. split; [reflexivity|]. split; [reflexivity|].
  exact (returned_devices_come_from_the_store toy_env store_two_devices
           [(boris, None)] _ eq_refl boris "abc" _ eq_refl).
Defined.

(** ** The order of the replies *)

Lemma take_asked_get (destination_query items : dict json) (u : string) :
  forall res,
    dict_get u (take_asked destination_query items res)
    = match asked_value destination_query items u with
      | Some v => Some v
      | None => dict_get u res
      end.
Proof.
  induction items as [|[u0 k0] rest IH]; intros res; simpl; [reflexivity|].
  rewrite IH. destruct (asked_value destination_query rest u); [reflexivity|].
  destruct (dict_mem u0 destination_query); rewrite ?andb_true_r, ?andb_false_r;
    [|reflexivity].
  destruct (String.eqb u u0) eqn:E.
  - apply String.eqb_eq in E. subst. apply dict_get_set_same.
  - apply dict_get_set_other. intros ->. now rewrite String.eqb_refl in E.
Qed.

Lemma asked_value_mem (destination_query items : dict json) (u : string) (v : json) :
  asked_value destination_query items u = Some v ->
  dict_mem u destination_query = true.
Proof.
  induction items as [|[u0 k0] rest IH]; simpl; [discriminate|].
  destruct (asked_value destination_query rest u); [auto|].
  destruct (String.eqb u u0) eqn:E; [|discriminate].
  apply String.eqb_eq in E. subst.
  destruct (dict_mem u0 destination_query); [reflexivity|discriminate].
Qed.

Lemma dict_get_set {V : Type} (k k' : string) (v : V) (d : dict V) :
  dict_get k' (dict_set k v d)
  = if String.eqb k' k then Some v else dict_get k' d.
Proof.
  destruct (String.eqb k' k) eqn:E.
  - apply String.eqb_eq in E. subst. apply dict_get_set_same.
  - apply dict_get_set_other. intros ->. now rewrite String.eqb_refl in E.
Qed.

Section Order.
Variable queries : dict (dict json).
Variable replies : string -> reply.

Lemma step_results_get (s s' : fanout) (d u : string) :
  do_remote_query queries replies s d = Ok s' ->
  dict_get u (results s')
  = match answer_for queries replies d u with
    | Some v => Some v
    | None => dict_get u (results s)
    end.
Proof.
  unfold do_remote_query, answer_for.
  destruct (dict_get d queries) as [dq|]; [|discriminate].
  destruct (try_remote_query (replies d)) as [items|e]; intros [= <-]; simpl.
  - apply take_asked_get.
  - reflexivity.
Qed.

Lemma step_failures_get (s s' : fanout) (d k : string) :
  do_remote_query queries replies s d = Ok s' ->
  dict_get k (failures s')
  = match failure_of replies d with
    | Some f => if String.eqb k d then Some f else dict_get k (failures s)
    | None => dict_get k (failures s)
    end.
Proof.
  unfold do_remote_query, failure_of.
  destruct (dict_get d queries) as [dq|]; [|discriminate].
  destruct (try_remote_query (replies d)) as [items|e]; intros [= <-]; simpl.
  - reflexivity.
  - apply dict_get_set.
Qed.

Lemma step_respects (s t s' t' : fanout) (d : string) :
  same_fanout s t ->
  do_remote_query queries replies s d = Ok s' ->
  do_remote_query queries replies t d = Ok t' ->
  same_fanout s' t'.
Proof.
  intros [Hr Hf] Hs Ht. split; intros k.
  - rewrite (step_results_get _ _ _ k Hs), (step_results_get _ _ _ k Ht).
    now rewrite Hr.
  - rewrite (step_failures_get _ _ _ k Hs), (step_failures_get _ _ _ k Ht).
    now rewrite Hf.
Qed.

Lemma gather_respects (order : list string) :
  forall s t s' t',
    same_fanout s t ->
    gather_remote_queries queries replies order s = Ok s' ->
    gather_remote_queries queries replies order t = Ok t' ->
    same_fanout s' t'.
Proof.
  induction order as [|d rest IH]; intros s t s' t' Hst Hs Ht; simpl in Hs, Ht.
  - injection Hs as <-. injection Ht as <-. exact Hst.
  - apply bind_ok_inv in Hs as (s1 & Es & Hs).
    apply bind_ok_inv in Ht as (t1 & Et & Ht).
    eapply IH; [|exact Hs|exact Ht]. eapply step_respects; eauto.
Qed.

Lemma gather_ok_in (order : list string) :
  forall s s',
    gather_remote_queries queries replies order s = Ok s' ->
    forall d, In d order -> dict_mem d queries = true.
Proof.
  induction order as [|d0 rest IH]; intros s s' H d Hin; [destruct Hin|].
  simpl in H. apply bind_ok_inv in H as (s1 & Es & H).
  destruct Hin as [<-|Hin]; [|eapply IH; eauto].
  unfold do_remote_query in Es. unfold dict_mem.
  destruct (dict_get d0 queries); [reflexivity|discriminate].
Qed.

Hypothesis Hdisjoint : disjoint_queries queries.

Lemma answers_do_not_meet (d1 d2 u : string) (v1 v2 : json) :
  d1 <> d2 ->
  answer_for queries replies d1 u = Some v1 ->
  answer_for queries replies d2 u = Some v2 ->
  False.
Proof.
  unfold answer_for. intros Hne H1 H2.
  destruct (dict_get d1 queries) as [q1|] eqn:E1; [|discriminate].
  destruct (dict_get d2 queries) as [q2|] eqn:E2; [|discriminate].
  destruct (try_remote_query (replies d1)); [|discriminate].
  destruct (try_remote_query (replies d2)); [|discriminate].
  apply asked_value_mem in H1, H2.
  rewrite (Hdisjoint d1 d2 q1 q2 u Hne E1 E2 H1) in H2. discriminate.
Qed.

Lemma steps_commute (s t a b a' b' : fanout) (x y : string) :
  same_fanout s t ->
  do_remote_query queries replies s y = Ok a ->
  do_remote_query queries replies a x = Ok b ->
  do_remote_query queries replies t x = Ok a' ->
  do_remote_query queries replies a' y = Ok b' ->
  same_fanout b b'.
Proof.
  intros [Hr Hf] Hy Hx Hx' Hy'. split; intros k.
  - rewrite (step_results_get _ _ _ k Hx), (step_results_get _ _ _ k Hy),
      (step_results_get _ _ _ k Hy'), (step_results_get _ _ _ k Hx'), Hr.
    destruct (string_dec x y) as [->|Hne]; [reflexivity|].
    destruct (answer_for queries replies x k) eqn:Ex,
             (answer_for queries replies y k) eqn:Ey; try reflexivity.
    exfalso. eapply answers_do_not_meet; eauto.
  - rewrite (step_failures_get _ _ _ k Hx), (step_failures_get _ _ _ k Hy),
      (step_failures_get _ _ _ k Hy'), (step_failures_get _ _ _ k Hx'), Hf.
    destruct (string_dec x y) as [->|Hne]; [reflexivity|].
    destruct (failure_of replies x), (failure_of replies y); try reflexivity.
    destruct (String.eqb k x) eqn:Ekx, (String.eqb k y) eqn:Eky; try reflexivity.
    apply String.eqb_eq in Ekx, Eky. congruence.
Qed.

Lemma gather_permutation (o1 o2 : list string) :
  Permutation o1 o2 ->
  forall s t s' t',
    same_fanout s t ->
    gather_remote_queries queries replies o1 s = Ok s' ->
    gather_remote_queries queries replies o2 t = Ok t' ->
    same_fanout s' t'.
Proof.
  induction 1 as [|x l l' Hp IH|x y l|l l' l'' Hp1 IH1 Hp2 IH2];
    intros s t s' t' Hst Hs Ht.
  - simpl in Hs, Ht. injection Hs as <-. injection Ht as <-. exact Hst.
  - simpl in Hs, Ht.
    apply bind_ok_inv in Hs as (s1 & Es & Hs).
    apply bind_ok_inv in Ht as (t1 & Et & Ht).
    eapply IH; [|exact Hs|exact Ht]. eapply step_respects; eauto.
  - simpl in Hs, Ht.
    apply bind_ok_inv in Hs as (a & Ea & Hs).
    apply bind_ok_inv in Hs as (b & Eb & Hs).
    apply bind_ok_inv in Ht as (a' & Ea' & Ht).
    apply bind_ok_inv in Ht as (b' & Eb' & Ht).
    eapply gather_respects; [|exact Hs|exact Ht].
    eapply steps_commute; eauto.
  - destruct (gather_total queries replies l' s) as [m Hm].
    { intros d Hd. eapply gather_ok_in; [exact Hs|].
      eapply Permutation_in; [symmetry; exact Hp1|exact Hd]. }
    pose proof (IH1 s s s' m (conj (fun _ => eq_refl) (fun _ => eq_refl)) Hs Hm)
      as [H1r H1f].
    pose proof (IH2 s t m t' Hst Hm Ht) as [H2r H2f].
    split; intros k; [rewrite H1r; apply H2r|rewrite H1f; apply H2f].
Qed.
End Order.

Section Grouping.
Variable get_domain_from_id : string -> result string.
Variable remote_queries : dict json.

Lemma group_by_domain_grouped (users : list string) :
  forall acc queries,
    group_by_domain get_domain_from_id remote_queries users acc = Ok queries ->
    grouped get_domain_from_id acc -> grouped get_domain_from_id queries.
Proof.
  induction users as [|user rest IH]; intros acc queries H Hacc; simpl in H.
  - now injection H as <-.
  - apply bind_ok_inv in H as (domain & Edom & H).
    destruct (dict_get user remote_queries) as [ids|]; [|discriminate].
    eapply IH; [exact H|]. intros d q u. unfold dict_set2.
    rewrite dict_get_set. destruct (String.eqb d domain) eqn:Ed.
    + apply String.eqb_eq in Ed. subst d. intros [= <-]. unfold dict_mem.
      rewrite dict_get_set. destruct (String.eqb u user) eqn:Eu.
      * apply String.eqb_eq in Eu. now subst.
      * intros Hmem. destruct (dict_get domain acc) as [inner|] eqn:Ei.
        -- now apply (Hacc domain inner u).
        -- discriminate.
    + apply Hacc.
Qed.

Lemma grouped_disjoint (queries : dict (dict json)) :
  grouped get_domain_from_id queries -> disjoint_queries queries.
Proof.
  intros Hg d1 d2 q1 q2 u Hne H1 H2 Hm1.
  destruct (dict_mem u q2) eqn:Hm2; [|reflexivity].
  pose proof (Hg _ _ _ H1 Hm1) as E1. pose proof (Hg _ _ _ H2 Hm2) as E2.
  congruence.
Qed.
End Grouping.

(** X13.  The answer of a destination changes [results] only for users
    that were asked of that destination: every other entry is left as it
    was, and an asked user gets the last value the answer has for it. *)
Theorem answer_sets_only_asked_users :
  forall (queries : dict (dict json)) (replies : string -> reply)
         (s s' : fanout) (destination user_id : string)
         (destination_query : dict json),
    dict_get destination queries = Some destination_query ->
    do_remote_query queries replies s destination = Ok s' ->
    (dict_mem user_id destination_query = false ->
     dict_get user_id (results s') = dict_get user_id (results s))
    /\ (forall items,
          try_remote_query (replies destination) = inl items ->
          dict_get user_id (results s')
          = match asked_value destination_query items user_id with
            | Some keys => Some keys
            | None => dict_get user_id (results s)
            end).
Proof.
  intros queries replies s s' d u dq Hq Hstep.
  pose proof (step_results_get queries replies s s' d u Hstep) as Hget.
  unfold answer_for in Hget. rewrite Hq in Hget. split.
  - intros Hno. rewrite Hget.
    destruct (try_remote_query (replies d)) as [items|e]; [|reflexivity].
    destruct (asked_value dq items u) as [v|] eqn:Ea; [|reflexivity].
    apply asked_value_mem in Ea. congruence.
  - intros items Hitems. now rewrite Hget, Hitems.
Qed.

(** X14.  With the remote users grouped by the domain of their id as
    [query_devices] groups them, the fan-out ends with the same entries in
    [results] and in [failures] for every order in which the replies
    arrive. *)
Theorem fanout_order_does_not_matter :
  forall (get_domain_from_id : string -> result string)
         (remote_queries : dict json) (user_ids_not_in_cache : list string)
         (queries : dict (dict json)) (replies : string -> reply)
         (order1 order2 : list string) (s : fanout),
    group_by_domain get_domain_from_id remote_queries user_ids_not_in_cache []
    = Ok queries ->
    Permutation order1 order2 ->
    (forall d, In d order1 -> dict_mem d queries = true) ->
    exists s1 s2,
      gather_remote_queries queries replies order1 s = Ok s1
      /\ gather_remote_queries queries replies order2 s = Ok s2
      /\ same_fanout s1 s2.
Proof.
  intros get_domain rq users queries replies o1 o2 s Hgroup Hperm Hin.
  destruct (gather_total queries replies o1 s Hin) as [s1 H1].
  destruct (gather_total queries replies o2 s) as [s2 H2].
  { intros d Hd. apply Hin. eapply Permutation_in; [symmetry; exact Hperm|exact Hd]. }
  exists s1, s2. split; [exact H1|]. split; [exact H2|].
  eapply gather_permutation; eauto.
  - eapply (grouped_disjoint get_domain), group_by_domain_grouped; [exact Hgroup|].
    intros d q u Hd. discriminate.
  - split; intros k; reflexivity.
Qed.

(** ** Claiming one-time keys *)

Section Claiming2.
Context {env : Env}.
Variable get_domain_from_id : string -> result string.

Lemma split_claim_query_foreign (items : dict json) :
  forall lq rq lq' rq',
    split_claim_query get_domain_from_id items lq rq = Ok (lq', rq') ->
    all_foreign rq -> all_foreign rq'.
Proof.
  induction items as [|[user device_keys] rest IH]; intros lq rq lq' rq' H Hrq;
    simpl in H.
  - now injection H as _ <-.
  - apply bind_ok_inv in H as (uid & Euid & H).
    destruct (is_mine uid) eqn:Emine.
    + apply bind_ok_inv in H as (devices & _ & H). eapply IH; eauto.
    + apply bind_ok_inv in H as (domain & _ & H).
      eapply IH; [exact H|]. intros d q u. unfold dict_set2.
      rewrite dict_get_set. destruct (String.eqb d domain) eqn:Ed; [|apply Hrq].
      apply String.eqb_eq in Ed. subst d. intros [= <-]. unfold dict_mem.
      rewrite dict_get_set. destruct (String.eqb u user) eqn:Eu.
      * apply String.eqb_eq in Eu. subst. eauto.
      * intros Hmem. destruct (dict_get domain rq) as [inner|] eqn:Ei;
          [|discriminate].
        now apply (Hrq domain inner u).
Qed.

Variable remote_queries : dict (dict json).
Variable replies : string -> reply.

Lemma claim_client_keys_get (s s' : fanout) (d u : string) :
  claim_client_keys remote_queries replies s d = Ok s' ->
  dict_get u (results s') = dict_get u (results s)
  \/ exists q, dict_get d remote_queries = Some q /\ dict_mem u q = true.
Proof.
  unfold claim_client_keys.
  destruct (dict_get d remote_queries) as [q|]; [|discriminate].
  destruct (try_claim_client_keys (replies d)) as [items|e]; intros [= <-]; simpl;
    [|now left].
  rewrite take_asked_get.
  destruct (asked_value q items u) as [v|] eqn:Ea; [|now left].
  right. exists q. split; [reflexivity|]. eapply asked_value_mem; eauto.
Qed.

Lemma gather_claims_local (order : list string) :
  forall s s' u uid,
    gather_claims remote_queries replies order s = Ok s' ->
    all_foreign remote_queries ->
    from_string u = Ok uid -> is_mine uid = true ->
    dict_get u (results s') = dict_get u (results s).
Proof.
  induction order as [|d rest IH]; intros s s' u uid H Hforeign Hu Hmine;
    simpl in H.
  - now injection H as <-.
  - apply bind_ok_inv in H as (s1 & E1 & H).
    rewrite (IH _ _ _ _ H Hforeign Hu Hmine).
    destruct (claim_client_keys_get _ _ _ u E1) as [Hsame|(q & Hq & Hmem)];
      [exact Hsame|].
    destruct (Hforeign _ _ _ Hq Hmem) as (uid' & Hu' & Hmine'). congruence.
Qed.

Lemma log_devices_raises (user_keys : dict json) :
  forallb (fun dk => match snd dk with JObj _ => true | _ => false end) user_keys
  = false ->
  exists msg, log_devices user_keys = Raise (AttributeError msg).
Proof.
  induction user_keys as [|[d v] rest IH]; simpl; [discriminate|].
  destruct v; simpl; eauto.
Qed.

Lemma log_claimed_raises (json_result : dict json) (u : string) (v : json) :
  In (u, v) json_result -> loggable v = false ->
  exists msg, log_claimed json_result = Raise (AttributeError msg).
Proof.
  induction json_result as [|[u0 v0] rest IH]; intros Hin Hbad; [destruct Hin|].
  simpl. destruct (loggable v0) eqn:E0.
  - destruct v0 as [| | | | |devs]; try discriminate. simpl in E0 |- *.
    assert (Hl : log_devices devs = Ok tt).
    { clear -E0. induction devs as [|[d w] r IHr]; simpl; [reflexivity|].
      simpl in E0. apply andb_true_iff in E0 as [Hw Hr].
      destruct w; try discriminate. simpl. now apply IHr. }
    rewrite Hl. simpl. destruct Hin as [[= <- <-]|Hin]; [|auto].
    simpl in Hbad. congruence.
  - destruct v0 as [| | | | |devs]; simpl; eauto.
    simpl in E0. destruct (log_devices_raises devs E0) as [msg ->]. simpl. eauto.
Qed.
End Claiming2.

(** X15.  In the result of [claim_one_time_keys] the entry of a local user
    is what the store's claim gave for that user: no answer of a remote
    server changes it. *)
Theorem remote_claims_leave_local_users :
  forall (env : Env) (get_domain_from_id : string -> result string)
         (claim_e2e_one_time_keys
            : list (string * string * json) -> dict (dict (dict string)))
         (query : json) (replies : string -> reply) (order : list string)
         (json_result : dict json) (fails : dict failure)
         (user_id : string) (uid : string * string),
    claim_one_time_keys get_domain_from_id claim_e2e_one_time_keys query
      replies order = Ok (json_result, fails) ->
    from_string user_id = Ok uid ->
    is_mine uid = true ->
    exists one_time_keys local_query remote_queries local,
      py_get query "one_time_keys" (JObj []) = Ok (JObj one_time_keys)
      /\ split_claim_query get_domain_from_id one_time_keys [] []
         = Ok (local_query, remote_queries)
      /\ claim_one_time_keys_local (claim_e2e_one_time_keys local_query)
         = Ok local
      /\ dict_get user_id json_result
         = dict_get user_id (local_json_result local).
Proof.
  intros env get_domain claim query replies order jr fl u uid H Hu Hmine.
  unfold claim_one_time_keys in H.
  apply bind_ok_inv in H as (otk & Eotk & H).
  apply bind_ok_inv in H as (items & Eitems & H).
  apply bind_ok_inv in H as ([lq rq] & Esplit & H). cbv beta iota in H.
  apply bind_ok_inv in H as (local & Elocal & H).
  apply bind_ok_inv in H as (s & Egather & H).
  apply bind_ok_inv in H as (l & _ & H). injection H as <- <-.
  destruct otk; try discriminate. simpl in Eitems. injection Eitems as ->.
  exists items, lq, rq, local. repeat split; auto.
  rewrite (gather_claims_local rq replies order _ _ u uid Egather); auto.
  eapply split_claim_query_foreign; [exact Esplit|].
  intros d q w Hd. discriminate.
Qed.

(** X16.  When, after the replies, [json_result] has an entry that is not
    an object of objects (a remote server answered for its user with
    something else), the argument of the [logger.info] of line 270 raises
    [AttributeError] and [claim_one_time_keys] fails as a whole. *)
Theorem malformed_remote_claim_fails_the_call :
  forall (env : Env) (get_domain_from_id : string -> result string)
         (claim_e2e_one_time_keys
            : list (string * string * json) -> dict (dict (dict string)))
         (query : json) (replies : string -> reply) (order : list string)
         (one_time_keys : dict json)
         (local_query : list (string * string * json))
         (remote_queries : dict (dict json))
         (local : dict (dict (dict json))) (s : fanout)
         (user_id : string) (user_keys : json),
    py_get query "one_time_keys" (JObj []) = Ok (JObj one_time_keys) ->
    split_claim_query get_domain_from_id one_time_keys [] []
    = Ok (local_query, remote_queries) ->
    claim_one_time_keys_local (claim_e2e_one_time_keys local_query) = Ok local ->
    gather_claims remote_queries replies order
      {| results := local_json_result local; failures := [] |} = Ok s ->
    In (user_id, user_keys) (results s) ->
    loggable user_keys = false ->
    exists msg,
      claim_one_time_keys get_domain_from_id claim_e2e_one_time_keys query
        replies order = Raise (AttributeError msg).
Proof.
  intros env get_domain claim query replies order otk lq rq local s u v
    Hget Hsplit Hlocal Hgather Hin Hbad.
  unfold claim_one_time_keys. rewrite Hget, bind_ok. cbn [py_items].
  rewrite bind_ok, Hsplit, bind_ok. cbv beta iota.
  rewrite Hlocal, bind_ok, Hgather, bind_ok.
  destruct (log_claimed_raises _ u v Hin Hbad) as [msg ->]. simpl. eauto.
Qed.

(** The second upload of [test_reupload_one_time_keys], got from the first
    by signing anew. *)
Lemma new_signatures_do_not_change_acceptance_witness :
  fst (_upload_one_time_keys_for_user otk_store1 boris "xyz" 7
         (resigned (fun _ => JObj [("k1", JStr "sig2")])
            (one_time_keys_sig "sig1"))) = Ok tt.
Proof.
  apply (proj1 (new_signatures_do_not_change_acceptance toy_env otk_store1
                  boris "xyz" 7 (one_time_keys_sig "sig1")
                  (fun _ => JObj [("k1", JStr "sig2")])
                  ltac:(intros key_id key [[= <- <-]|[[= <- <-]|[[= <- <-]|[]]]];
                        split; reflexivity))).
  reflexivity.
Defined.

Lemma new_one_time_keys_are_stored_witness :
  key_map_get "alg1" "k9"
    (get_e2e_one_time_keys
       (snd (_upload_one_time_keys_for_user otk_store1 boris "xyz" 7
               [("alg1:k9", JStr "key2")])) boris "xyz" ["k9"])
  = Some (quoted "key2").
Proof.
  apply (new_one_time_keys_are_stored toy_env otk_store1 boris "xyz" 7
           [("alg1:k9", JStr "key2")] [("alg1", "k9", JStr "key2")]
           "alg1" "k9" (JStr "key2") eq_refl).
  - repeat constructor. simpl. tauto.
  - reflexivity.
  - simpl. tauto.
  - reflexivity.
Defined.

Lemma malformed_key_id_aborts_upload_witness :
  exists msg,
    _upload_one_time_keys_for_user otk_store1 boris "xyz" 7
      [("alg1:k9", JStr "key2"); ("curve25519", JStr "key1")]
    = (Raise (ValueError msg), otk_store1).
Proof.
  apply (malformed_key_id_aborts_upload toy_env otk_store1 boris "xyz" 7
           [("alg1:k9", JStr "key2"); ("curve25519", JStr "key1")]
           "curve25519" (JStr "key1")).
  - simpl. tauto.
  - simpl. lia.
Defined.

Lemma answer_sets_only_asked_users_witness :
  exists s',
    do_remote_query three_queries three_replies empty_fanout "one.example" = Ok s'
    /\ dict_get "@c:three.example" (results s') = None
    /\ dict_get "@a:one.example" (results s') = Some (JObj [("dev1", JObj [])]).
Proof.
  eexists. split; [reflexivity|].
  destruct (answer_sets_only_asked_users three_queries three_replies
              empty_fanout _ "one.example" "@c:three.example"
              [("@a:one.example", JList [])] eq_refl eq_refl) as [Hnot _].
  split; [exact (Hnot eq_refl)|reflexivity].
Defined.

Lemma fanout_order_does_not_matter_witness :
  exists s1 s2,
    gather_remote_queries three_queries three_replies
      ["one.example"; "two.example"; "three.example"] empty_fanout = Ok s1
    /\ gather_remote_queries three_queries three_replies
         ["three.example"; "one.example"; "two.example"] empty_fanout = Ok s2
    /\ same_fanout s1 s2.
Proof.
  apply (fanout_order_does_not_matter toy_get_domain_from_id three_users
           ["@a:one.example"; "@b:two.example"; "@c:three.example"]
           three_queries three_replies).
  - reflexivity.
  - apply Permutation_sym.
    exact (Permutation_cons_append ["one.example"; "two.example"] "three.example").
  - intros d [<-|[<-|[<-|[]]]]; reflexivity.
Defined.

Lemma remote_claims_leave_local_users_witness :
  exists json_result fails,
    claim_one_time_keys toy_get_domain_from_id toy_claim_e2e_one_time_keys
      claim_query meddling_reply ["two.example"] = Ok (json_result, fails)
    /\ dict_get boris json_result
       = Some (JObj [("xyz", JObj [("alg1:k1", JStr "key1")])]).
Proof.
  eexists. eexists. split; [reflexivity|].
  destruct (remote_claims_leave_local_users toy_env toy_get_domain_from_id
              toy_claim_e2e_one_time_keys claim_query meddling_reply
              ["two.example"] _ _ boris ("boris", "test") eq_refl eq_refl eq_refl)
    as (otk & lq & rq & local & Hotk & Hsplit & Hlocal & Hget).
  rewrite Hget. vm_compute in Hotk. injection Hotk as <-.
  vm_compute in Hsplit. injection Hsplit as <- <-.
  vm_compute in Hlocal. injection Hlocal as <-. reflexivity.
Defined.

Lemma malformed_remote_claim_fails_the_call_witness :
  exists msg,
    claim_one_time_keys toy_get_domain_from_id toy_claim_e2e_one_time_keys
      claim_query malformed_reply ["two.example"] = Raise (AttributeError msg).
Proof.
  eapply (malformed_remote_claim_fails_the_call toy_env toy_get_domain_from_id
            toy_claim_e2e_one_time_keys claim_query malformed_reply
            ["two.example"] _ _ _ _ _ "@b:two.example" (JStr "oops"));
    try reflexivity.
  simpl. tauto.
Defined.

(** ** Uploading keys *)

(** X17.  [upload_keys_for_user] writes the device keys before it looks at
    the one-time keys: when the upload of the one-time keys raises, the call
    raises the same exception, the device keys stay written, the update
    stays notified when the keys changed, and [check_device_registered] is
    not called. *)
Theorem device_keys_stay_when_one_time_keys_fail :
  forall (env : Env) (time_now : Z)
         (set_e2e_device_keys : store -> string -> string -> Z -> json -> bool * store)
         (count_e2e_one_time_keys : store -> string -> string -> json)
         (st st1 : store) (user_id device_id : string)
         (keys : dict json) (device_keys one_time_keys : json)
         (changed : bool) (e : exn),
    dict_get "device_keys" keys = Some device_keys ->
    py_truthy device_keys = true ->
    set_e2e_device_keys st user_id device_id time_now device_keys = (changed, st1) ->
    dict_get "one_time_keys" keys = Some one_time_keys ->
    fst (upload_one_time_keys time_now st1 user_id device_id one_time_keys)
    = Raise e ->
    upload_keys_for_user time_now set_e2e_device_keys count_e2e_one_time_keys
      st user_id device_id (JObj keys)
    = (Raise e, st1,
       if changed then [NotifyDeviceUpdate user_id [device_id]] else []).
Proof.
  intros env t set_keys count st st1 u d keys dk otk changed e
    Hdk Htruthy Hset Hotk Hfail.
  unfold upload_keys_for_user. simpl py_get. rewrite Hdk, Hotk.
  unfold upload_device_keys. rewrite Htruthy, Hset.
  destruct (upload_one_time_keys t st1 u d otk) as [r st2] eqn:Eup.
  simpl in Hfail. subst r.
  assert (st2 = st1) as ->; [|reflexivity].
  unfold upload_one_time_keys in Eup.
  destruct (py_truthy otk); [|discriminate].
  destruct (bind _ _) as [items|e']; [|now injection Eup as _ <-].
  unfold _upload_one_time_keys_for_user in Eup.
  destruct (bind _ _); [discriminate|]. now injection Eup as _ <-.
Qed.

Lemma device_keys_stay_when_one_time_keys_fail_witness :
  exists msg st1,
    upload_keys_for_user 7 toy_set_e2e_device_keys toy_count_e2e_one_time_keys
      otk_store1 boris "xyz" keys_with_conflict
    = (Raise (SynapseError 400 msg), st1, [NotifyDeviceUpdate boris ["xyz"]])
    /\ dict_get2 boris "xyz" (e2e_device_keys st1)
       = Some (JObj [("keys", JObj device_keys_xyz);
                     ("device_display_name", JNull)]).
Proof.
  eexists. eexists. split.
  - apply (device_keys_stay_when_one_time_keys_fail toy_env 7
             toy_set_e2e_device_keys toy_count_e2e_one_time_keys otk_store1 _
             boris "xyz" _ (JObj device_keys_xyz)
             (JObj [("alg1:k1", JStr "key2")]) true
             (SynapseError 400 "One time key alg1:k1 already exists."));
      reflexivity.
  - reflexivity.
Defined.
